(** * FlightTaskAutoFollowTarget: the follow-me flight task

    A shallow embedding of
    [src/lib/flight_tasks/tasks/AutoFollowTarget/FlightTaskAutoFollowTarget.cpp]
    and its header, with the properties of the follow-me controller stated
    and proved over it.

    Numbers.  A C++ [float] (and the one [double] of the angle conversion)
    is modelled by the type [float] below: NaN, the two infinities, and the
    finite values as exact rationals, which the arithmetic keeps in lowest
    terms.  Comparisons and [PX4_ISFINITE] follow
    IEEE 754 (every comparison with NaN is false); rounding, overflow and
    the sign of zero are outside the model.  The angles of the perspective
    table and the raw follow angle are small integers, which a [float]
    holds exactly. *)

From Stdlib Require Import ZArith QArith Qabs Lqa Lia Bool List.
Import ListNotations.

Open Scope Q_scope.

(** ** IEEE-like numbers *)

Inductive float : Type :=
| NaN : float
| PInf : float
| NInf : float
| Fin (q : Q) : float.

Declare Scope float_scope.
Delimit Scope float_scope with float.
Bind Scope float_scope with float.

(** Sign of a rational, used for products and quotients with infinities. *)
Definition Qsign (q : Q) : comparison := (Qnum q ?= 0)%Z.

Definition signed_inf (c : comparison) : float :=
  match c with
  | Gt => PInf
  | Lt => NInf
  | Eq => NaN
  end.

Definition fneg (a : float) : float :=
  match a with
  | NaN => NaN
  | PInf => NInf
  | NInf => PInf
  | Fin q => Fin (- q)
  end.

Definition fadd (a b : float) : float :=
  match a, b with
  | NaN, _ | _, NaN => NaN
  | PInf, NInf | NInf, PInf => NaN
  | PInf, _ | _, PInf => PInf
  | NInf, _ | _, NInf => NInf
  | Fin x, Fin y => Fin (Qred (x + y))
  end.

Definition fsub (a b : float) : float := fadd a (fneg b).

Definition fmul (a b : float) : float :=
  match a, b with
  | NaN, _ | _, NaN => NaN
  | PInf, PInf | NInf, NInf => PInf
  | PInf, NInf | NInf, PInf => NInf
  | PInf, Fin y | Fin y, PInf => signed_inf (Qsign y)
  | NInf, Fin y | Fin y, NInf => signed_inf (CompOpp (Qsign y))
  | Fin x, Fin y => Fin (Qred (x * y))
  end.

(** Division; a zero divisor is taken as +0. *)
Definition fdiv (a b : float) : float :=
  match a, b with
  | NaN, _ | _, NaN => NaN
  | (PInf | NInf), (PInf | NInf) => NaN
  | PInf, Fin y => match Qsign y with Lt => NInf | _ => PInf end
  | NInf, Fin y => match Qsign y with Lt => PInf | _ => NInf end
  | Fin _, (PInf | NInf) => Fin 0
  | Fin x, Fin y =>
      match Qsign y with
      | Eq => signed_inf (Qsign x)
      | _ => Fin (Qred (x / y))
      end
  end.

Definition Qltb (x y : Q) : bool := negb (Qle_bool y x).

(** [a < b]; false as soon as one side is NaN. *)
Definition flt (a b : float) : bool :=
  match a, b with
  | NaN, _ | _, NaN => false
  | _, NInf => false
  | NInf, _ => true
  | PInf, _ => false
  | _, PInf => true
  | Fin x, Fin y => Qltb x y
  end.

(** [a <= b]; false as soon as one side is NaN. *)
Definition fle (a b : float) : bool :=
  match a, b with
  | NaN, _ | _, NaN => false
  | NInf, _ => true
  | _, PInf => true
  | _, NInf => false
  | PInf, _ => false
  | Fin x, Fin y => Qle_bool x y
  end.

Definition fgt (a b : float) : bool := flt b a.
Definition fge (a b : float) : bool := fle b a.

(** [PX4_ISFINITE] *)
Definition PX4_ISFINITE (a : float) : bool :=
  match a with
  | Fin _ => true
  | _ => false
  end.

(** [fabsf] *)
Definition fabsf (a : float) : float :=
  match a with
  | NaN => NaN
  | PInf | NInf => PInf
  | Fin q => Fin (Qabs q)
  end.

Notation "x + y" := (fadd x y) : float_scope.
Notation "x - y" := (fsub x y) : float_scope.
Notation "x * y" := (fmul x y) : float_scope.
Notation "x / y" := (fdiv x y) : float_scope.
Notation "- x" := (fneg x) : float_scope.
Notation "x <? y" := (flt x y) (at level 70) : float_scope.
Notation "x <=? y" := (fle x y) (at level 70) : float_scope.
Notation "x >? y" := (fgt x y) (at level 70) : float_scope.
Notation "x >=? y" := (fge x y) (at level 70) : float_scope.

(** A float literal with an integer value. *)
Definition FZ (z : Z) : float := Fin (inject_Z z).

(** [a == b] on values; false as soon as one side is NaN. *)
Definition feqb (a b : float) : bool :=
  match a, b with
  | PInf, PInf | NInf, NInf => true
  | Fin x, Fin y => Qeq_bool x y
  | _, _ => false
  end.

Open Scope float_scope.

(** Modelled from the spec: [math::min] belongs to PX4's mathlib, outside
    the flight task's own files; the spec calls it the lesser of its two
    arguments. *)
Definition math_min (a b : float) : float := if a <? b then a else b.

(** ** Constants of the header *)

Definition MINIMUM_SPEED_FOR_HEADING_CHANGE : float := Fin (1 # 10).
Definition MINIMUM_DISTANCE_TO_TARGET_FOR_YAW_CONTROL : float := FZ 1.
Definition MINIMUM_SAFETY_ALTITUDE : float := FZ 1.
Definition ALT_ACCEPTANCE_THRESHOLD : float := FZ 3.
Definition EMERGENCY_ASCENT_SPEED : float := Fin (1 # 5).

Definition POSITION_FILTER_ALPHA : float := Fin (3 # 2).
Definition FOLLOW_ANGLE_FILTER_ALPHA : float := FZ 3.
Definition DIRECTION_FILTER_ALPHA : float := FZ 3.
Definition VELOCITY_FF_FILTER_ALPHA : float := FZ 1.

Definition FOLLOW_PERSPECTIVE_BEHIND_ANGLE_DEG : float := FZ 180.
Definition FOLLOW_PERSPECTIVE_FRONT_ANGLE_DEG : float := FZ 0.
Definition FOLLOW_PERSPECTIVE_FRONT_RIGHT_ANGLE_DEG : float := FZ 45.
Definition FOLLOW_PERSPECTIVE_FRONT_LEFT_ANGLE_DEG : float := FZ 315.
Definition FOLLOW_PERSPECTIVE_MID_RIGHT_ANGLE_DEG : float := FZ 90.
Definition FOLLOW_PERSPECTIVE_MID_LEFT_ANGLE_DEG : float := FZ 270.
Definition FOLLOW_PERSPECTIVE_BEHIND_RIGHT_ANGLE_DEG : float := FZ 135.
Definition FOLLOW_PERSPECTIVE_BEHIND_LEFT_ANGLE_DEG : float := FZ 225.

(** The anonymous enums of the class; the parameters that select them are
    32-bit integers ([ParamInt]). *)
Definition FOLLOW_PERSPECTIVE_NONE : Z := 0.
Definition FOLLOW_PERSPECTIVE_BEHIND : Z := 1.
Definition FOLLOW_PERSPECTIVE_FRONT : Z := 2.
Definition FOLLOW_PERSPECTIVE_FRONT_RIGHT : Z := 3.
Definition FOLLOW_PERSPECTIVE_FRONT_LEFT : Z := 4.
Definition FOLLOW_PERSPECTIVE_MID_RIGHT : Z := 5.
Definition FOLLOW_PERSPECTIVE_MID_LEFT : Z := 6.
Definition FOLLOW_PERSPECTIVE_BEHIND_RIGHT : Z := 7.
Definition FOLLOW_PERSPECTIVE_BEHIND_LEFT : Z := 8.
Definition FOLLOW_PERSPECTIVE_MIDDLE_FOLLOW : Z := 9.
Definition FOLLOW_PERSPECTIVE_INVALID : Z := 10.

Definition FOLLOW_ALTITUDE_MODE_CONSTANT : Z := 0.
Definition FOLLOW_ALTITUDE_MODE_TRACK_TARGET : Z := 1.

(** [FLT_EPSILON] of <cfloat>, 2^-23, and [M_DEG_TO_RAD] of mathlib. *)
Definition FLT_EPSILON : float := Fin (1 # 8388608).
Definition M_DEG_TO_RAD : float :=
  Fin (3490658503988659 # 200000000000000000).

(** ** The C math library

    [cos], [sin], [atan2f] and the square root behind [norm()] are not
    rational functions; the development is parametric in them. *)

Class Libm : Type := {
  cos : float -> float;
  sin : float -> float;
  atan2f : float -> float -> float;
  sqrtf : float -> float
}.

(** ** Vectors

    [matrix::Vector2f] and [matrix::Vector3f] with the component-wise
    arithmetic the flight task uses; [v(0)], [v(1)], [v(2)] are the
    projections. *)

Record Vector2f : Type := V2 { x2 : float; y2 : float }.
Record Vector3f : Type := V3 { x3 : float; y3 : float; z3 : float }.

Definition xy (v : Vector3f) : Vector2f := V2 (x3 v) (y3 v).
Definition set_xy (v : Vector3f) (h : Vector2f) : Vector3f :=
  V3 (x2 h) (y2 h) (z3 v).
Definition set_z (v : Vector3f) (z : float) : Vector3f :=
  V3 (x3 v) (y3 v) z.

Definition add2 (a b : Vector2f) : Vector2f := V2 (x2 a + x2 b) (y2 a + y2 b).
Definition sub2 (a b : Vector2f) : Vector2f := V2 (x2 a - x2 b) (y2 a - y2 b).
Definition scale2 (a : Vector2f) (k : float) : Vector2f := V2 (x2 a * k) (y2 a * k).
Definition div2 (a : Vector2f) (k : float) : Vector2f := V2 (x2 a / k) (y2 a / k).

Definition add3 (a b : Vector3f) : Vector3f :=
  V3 (x3 a + x3 b) (y3 a + y3 b) (z3 a + z3 b).
Definition sub3 (a b : Vector3f) : Vector3f :=
  V3 (x3 a - x3 b) (y3 a - y3 b) (z3 a - z3 b).
Definition scale3 (a : Vector3f) (k : float) : Vector3f :=
  V3 (x3 a * k) (y3 a * k) (z3 a * k).
Definition div3 (a : Vector3f) (k : float) : Vector3f :=
  V3 (x3 a / k) (y3 a / k) (z3 a / k).

Definition zero2 : Vector2f := V2 (FZ 0) (FZ 0).
Definition zero3 : Vector3f := V3 (FZ 0) (FZ 0) (FZ 0).
Definition nan3 : Vector3f := V3 NaN NaN NaN.

Definition isfinite3 (v : Vector3f) : bool :=
  PX4_ISFINITE (x3 v) && PX4_ISFINITE (y3 v) && PX4_ISFINITE (z3 v).

Section Norms.
Context {libm : Libm}.

Definition norm2 (v : Vector2f) : float :=
  sqrtf (x2 v * x2 v + y2 v * y2 v).

Definition norm3 (v : Vector3f) : float :=
  sqrtf (x3 v * x3 v + y3 v * y3 v + z3 v * z3 v).

Definition UNIT_OR_ZERO_EPS : float := Fin (1 # 100000).

(** Modelled from the spec: [Vector::unit_or_zero] belongs to PX4's matrix
    library, outside the flight task's own files.  The spec has the
    filtered offset "normalized (unit vector or zero)": the vector divided
    by its norm when the norm exceeds a tolerance (1e-5), the zero vector
    otherwise. *)
Definition unit_or_zero (v : Vector2f) : Vector2f :=
  let n := norm2 v in
  if n >? UNIT_OR_ZERO_EPS then div2 v n else zero2.
End Norms.

(** ** The smoothing filter

    [AlphaFilter<T>] is a template over the value type; [Blend] is the
    arithmetic it asks of [T]. *)

Class Blend (T : Type) : Type := {
  blend_add : T -> T -> T;
  blend_scale : T -> float -> T
}.

#[export] Instance Blend_float : Blend float :=
  {| blend_add := fadd; blend_scale := fmul |}.
#[export] Instance Blend_Vector2f : Blend Vector2f :=
  {| blend_add := add2; blend_scale := scale2 |}.
#[export] Instance Blend_Vector3f : Blend Vector3f :=
  {| blend_add := add3; blend_scale := scale3 |}.

Module AlphaFilter.
Record t (T : Type) : Type := mk { _alpha : float; _filter_state : T }.
Arguments mk {T} _ _.
Arguments _alpha {T} _.
Arguments _filter_state {T} _.

(** Modelled from the spec: [AlphaFilter::reset] (lib/ecl/AlphaFilter,
    outside the flight task's own files) "sets internal state to value
    unconditionally". *)
Definition reset {T} (v : T) (f : t T) : t T := mk (_alpha f) v.

(** Modelled from the spec: [AlphaFilter::setParameters] "recomputes a
    blend coefficient alpha = dt / (time_constant + dt)" on every call. *)
Definition setParameters {T} (sample_interval time_constant : float)
    (f : t T) : t T :=
  mk (sample_interval / (time_constant + sample_interval)) (_filter_state f).

(** Modelled from the spec: [AlphaFilter::update] "sets
    state = state*(1-alpha) + new_sample*alpha (component-wise for vector
    types)". *)
Definition update {T} `{Blend T} (sample : T) (f : t T) : t T :=
  mk (_alpha f)
     (blend_add (blend_scale (_filter_state f) (FZ 1 - _alpha f))
                (blend_scale sample (_alpha f))).

(** Modelled from the spec: [AlphaFilter::getState] "returns current
    value, read-only". *)
Definition getState {T} (f : t T) : T := _filter_state f.
End AlphaFilter.

(** ** uORB messages *)

Record follow_target_estimator_s : Type := {
  timestamp : Z;          (* uint64_t, microseconds *)
  valid : bool;
  x_est : float; y_est : float; z_est : float;
  vx_est : float; vy_est : float; vz_est : float;
  ax_est : float; ay_est : float; az_est : float
}.

Record follow_target_status_s : Type := {
  status_timestamp : Z;
  x_est_filtered : float;
  y_est_filtered : float;
  z_est_filtered : float
}.

Record vehicle_local_position_setpoint_s : Type := {
  sp_x : float; sp_y : float; sp_z : float;
  sp_vx : float; sp_vy : float; sp_vz : float;
  sp_yaw : float; sp_yawspeed : float
}.

(** ** The base class

    The members of [FlightTask] that the follow-me task reads and writes.
    The vehicle state ([_position], [_yaw], [_dist_to_bottom], [_deltatime])
    is refreshed by the framework before each cycle. *)

Record FlightTask : Type := mkFlightTask {
  _position : Vector3f;
  _yaw : float;
  _dist_to_bottom : float;
  _deltatime : float;
  _position_setpoint : Vector3f;
  _velocity_setpoint : Vector3f;
  _yaw_setpoint : float;
  _yawspeed_setpoint : float;
  want_takeoff : bool       (* _constraints.want_takeoff *)
}.

(** The methods of [FlightTask] called here are defined elsewhere in the
    firmware; they act on the base members only. *)
Class FlightTaskBase : Type := {
  FlightTask_activate :
    vehicle_local_position_setpoint_s -> FlightTask -> bool * FlightTask;
  FlightTask_update : FlightTask -> bool * FlightTask;
  _checkTakeoff : FlightTask -> bool
}.

Definition set_position_setpoint (v : Vector3f) (b : FlightTask) : FlightTask :=
  mkFlightTask (_position b) (_yaw b) (_dist_to_bottom b) (_deltatime b)
    v (_velocity_setpoint b) (_yaw_setpoint b) (_yawspeed_setpoint b)
    (want_takeoff b).

Definition set_velocity_setpoint (v : Vector3f) (b : FlightTask) : FlightTask :=
  mkFlightTask (_position b) (_yaw b) (_dist_to_bottom b) (_deltatime b)
    (_position_setpoint b) v (_yaw_setpoint b) (_yawspeed_setpoint b)
    (want_takeoff b).

Definition set_yaw_setpoint (y : float) (b : FlightTask) : FlightTask :=
  mkFlightTask (_position b) (_yaw b) (_dist_to_bottom b) (_deltatime b)
    (_position_setpoint b) (_velocity_setpoint b) y (_yawspeed_setpoint b)
    (want_takeoff b).

Definition set_yawspeed_setpoint (y : float) (b : FlightTask) : FlightTask :=
  mkFlightTask (_position b) (_yaw b) (_dist_to_bottom b) (_deltatime b)
    (_position_setpoint b) (_velocity_setpoint b) (_yaw_setpoint b) y
    (want_takeoff b).

Definition set_want_takeoff (w : bool) (b : FlightTask) : FlightTask :=
  mkFlightTask (_position b) (_yaw b) (_dist_to_bottom b) (_deltatime b)
    (_position_setpoint b) (_velocity_setpoint b) (_yaw_setpoint b)
    (_yawspeed_setpoint b) w.

(** ** The follow-me task *)

(** [DEFINE_PARAMETERS]: NAV_MIN_FT_HT, NAV_FT_DST, NAV_FT_FS, NAV_FT_ALT_M. *)
Record Parameters : Type := {
  _param_nav_min_ft_ht : float;
  _param_nav_ft_dst : float;
  _param_nav_ft_fs : Z;
  _param_nav_ft_alt_m : Z
}.

Record FlightTaskAutoFollowTarget : Type := mkFollow {
  task : FlightTask;
  params : Parameters;
  _follow_angle_deg : float;
  _follow_angle_filtered : AlphaFilter.t float;
  _follow_target_estimator : follow_target_estimator_s;
  _target_velocity_unit_vector : Vector2f;
  _target_position_filtered : AlphaFilter.t Vector3f;
  _offset_vector_filtered : AlphaFilter.t Vector2f;
  _velocity_ff_scale : AlphaFilter.t float
}.

Definition with_task (f : FlightTask -> FlightTask)
    (s : FlightTaskAutoFollowTarget) : FlightTaskAutoFollowTarget :=
  mkFollow (f (task s)) (params s) (_follow_angle_deg s)
    (_follow_angle_filtered s) (_follow_target_estimator s)
    (_target_velocity_unit_vector s) (_target_position_filtered s)
    (_offset_vector_filtered s) (_velocity_ff_scale s).

Definition set_follow_angle_deg (a : float)
    (s : FlightTaskAutoFollowTarget) : FlightTaskAutoFollowTarget :=
  mkFollow (task s) (params s) a
    (_follow_angle_filtered s) (_follow_target_estimator s)
    (_target_velocity_unit_vector s) (_target_position_filtered s)
    (_offset_vector_filtered s) (_velocity_ff_scale s).

Definition set_follow_angle_filtered (f : AlphaFilter.t float)
    (s : FlightTaskAutoFollowTarget) : FlightTaskAutoFollowTarget :=
  mkFollow (task s) (params s) (_follow_angle_deg s)
    f (_follow_target_estimator s)
    (_target_velocity_unit_vector s) (_target_position_filtered s)
    (_offset_vector_filtered s) (_velocity_ff_scale s).

Definition set_follow_target_estimator (e : follow_target_estimator_s)
    (s : FlightTaskAutoFollowTarget) : FlightTaskAutoFollowTarget :=
  mkFollow (task s) (params s) (_follow_angle_deg s)
    (_follow_angle_filtered s) e
    (_target_velocity_unit_vector s) (_target_position_filtered s)
    (_offset_vector_filtered s) (_velocity_ff_scale s).

Definition set_target_velocity_unit_vector (v : Vector2f)
    (s : FlightTaskAutoFollowTarget) : FlightTaskAutoFollowTarget :=
  mkFollow (task s) (params s) (_follow_angle_deg s)
    (_follow_angle_filtered s) (_follow_target_estimator s)
    v (_target_position_filtered s)
    (_offset_vector_filtered s) (_velocity_ff_scale s).

Definition set_target_position_filtered (f : AlphaFilter.t Vector3f)
    (s : FlightTaskAutoFollowTarget) : FlightTaskAutoFollowTarget :=
  mkFollow (task s) (params s) (_follow_angle_deg s)
    (_follow_angle_filtered s) (_follow_target_estimator s)
    (_target_velocity_unit_vector s) f
    (_offset_vector_filtered s) (_velocity_ff_scale s).

Definition set_offset_vector_filtered (f : AlphaFilter.t Vector2f)
    (s : FlightTaskAutoFollowTarget) : FlightTaskAutoFollowTarget :=
  mkFollow (task s) (params s) (_follow_angle_deg s)
    (_follow_angle_filtered s) (_follow_target_estimator s)
    (_target_velocity_unit_vector s) (_target_position_filtered s)
    f (_velocity_ff_scale s).

Definition set_velocity_ff_scale (f : AlphaFilter.t float)
    (s : FlightTaskAutoFollowTarget) : FlightTaskAutoFollowTarget :=
  mkFollow (task s) (params s) (_follow_angle_deg s)
    (_follow_angle_filtered s) (_follow_target_estimator s)
    (_target_velocity_unit_vector s) (_target_position_filtered s)
    (_offset_vector_filtered s) f.

Section FollowTarget.
Context {libm : Libm} {base : FlightTaskBase}.

(** [update_follow_me_angle_setting] *)
Definition update_follow_me_angle_setting (param_nav_ft_fs : Z) : float :=
  if (param_nav_ft_fs =? FOLLOW_PERSPECTIVE_BEHIND)%Z then
    FOLLOW_PERSPECTIVE_BEHIND_ANGLE_DEG
  else if (param_nav_ft_fs =? FOLLOW_PERSPECTIVE_FRONT)%Z then
    FOLLOW_PERSPECTIVE_FRONT_ANGLE_DEG
  else if (param_nav_ft_fs =? FOLLOW_PERSPECTIVE_FRONT_RIGHT)%Z then
    FOLLOW_PERSPECTIVE_FRONT_RIGHT_ANGLE_DEG
  else if (param_nav_ft_fs =? FOLLOW_PERSPECTIVE_FRONT_LEFT)%Z then
    FOLLOW_PERSPECTIVE_FRONT_LEFT_ANGLE_DEG
  else if (param_nav_ft_fs =? FOLLOW_PERSPECTIVE_MID_RIGHT)%Z then
    FOLLOW_PERSPECTIVE_MID_RIGHT_ANGLE_DEG
  else if (param_nav_ft_fs =? FOLLOW_PERSPECTIVE_MID_LEFT)%Z then
    FOLLOW_PERSPECTIVE_MID_LEFT_ANGLE_DEG
  else if (param_nav_ft_fs =? FOLLOW_PERSPECTIVE_BEHIND_RIGHT)%Z then
    FOLLOW_PERSPECTIVE_BEHIND_RIGHT_ANGLE_DEG
  else if (param_nav_ft_fs =? FOLLOW_PERSPECTIVE_BEHIND_LEFT)%Z then
    FOLLOW_PERSPECTIVE_BEHIND_LEFT_ANGLE_DEG
  else if (param_nav_ft_fs =? FOLLOW_PERSPECTIVE_MIDDLE_FOLLOW)%Z then
    FOLLOW_PERSPECTIVE_BEHIND_ANGLE_DEG
  else
    (* Default: follow from behind *)
    FOLLOW_PERSPECTIVE_BEHIND_ANGLE_DEG.

(** [predict_future_x_ned_est] *)
Definition predict_future_x_ned_est (deltatime : float)
    (x_ned_est v_ned_est a_ned_est : Vector3f) : Vector3f :=
  add3 (add3 x_ned_est (scale3 v_ned_est deltatime))
       (scale3 (scale3 (scale3 a_ned_est (Fin (1 # 2))) deltatime) deltatime).

(** *** [activate] *)
Definition activate (last_setpoint : vehicle_local_position_setpoint_s)
    (s : FlightTaskAutoFollowTarget) : bool * FlightTaskAutoFollowTarget :=
  let '(ret, b) := FlightTask_activate last_setpoint (task s) in
  let s := with_task (fun _ => b) s in
  let s := with_task (fun b => set_position_setpoint (_position b) b) s in
  let s :=
    if negb (PX4_ISFINITE (x3 (_position_setpoint (task s))))
       || negb (PX4_ISFINITE (y3 (_position_setpoint (task s))))
       || negb (PX4_ISFINITE (z3 (_position_setpoint (task s))))
    then with_task (fun b => set_position_setpoint (_position b) b) s
    else s in
  let s := set_target_position_filtered
             (AlphaFilter.reset nan3 (_target_position_filtered s)) s in
  let s := set_offset_vector_filtered
             (AlphaFilter.reset zero2 (_offset_vector_filtered s)) s in
  let s := set_follow_angle_filtered
             (AlphaFilter.reset (FZ 0) (_follow_angle_filtered s)) s in
  let s := set_velocity_ff_scale
             (AlphaFilter.reset (FZ 0) (_velocity_ff_scale s)) s in
  let current_drone_heading_2d :=
    V2 (cos (_yaw (task s))) (- sin (_yaw (task s))) in
  let s :=
    if PX4_ISFINITE (x2 current_drone_heading_2d)
       && PX4_ISFINITE (y2 current_drone_heading_2d)
    then set_offset_vector_filtered
           (AlphaFilter.reset current_drone_heading_2d
              (_offset_vector_filtered s)) s
    else set_offset_vector_filtered
           (AlphaFilter.reset (V2 (FZ 1) (FZ 0))
              (_offset_vector_filtered s)) s in
  let s := with_task (set_yawspeed_setpoint (FZ 0)) s in
  (ret, s).

(** *** [update], block by block *)

(** The estimate is used when [timestamp > 0 && valid]. *)
Definition estimate_fresh (e : follow_target_estimator_s) : bool :=
  (0 <? timestamp e)%Z && valid e.

Definition x_ned_est (e : follow_target_estimator_s) : Vector3f :=
  V3 (x_est e) (y_est e) (z_est e).
Definition v_ned_est (e : follow_target_estimator_s) : Vector3f :=
  V3 (vx_est e) (vy_est e) (vz_est e).
Definition a_ned_est (e : follow_target_estimator_s) : Vector3f :=
  V3 (ax_est e) (ay_est e) (az_est e).

(** Lines 94-106: seed and low-pass the target position. *)
Definition filter_target_position (s : FlightTaskAutoFollowTarget)
    : FlightTaskAutoFollowTarget :=
  let e := _follow_target_estimator s in
  let f := _target_position_filtered s in
  let f :=
    if negb (PX4_ISFINITE (x3 (AlphaFilter.getState f)))
       || negb (PX4_ISFINITE (y3 (AlphaFilter.getState f)))
       || negb (PX4_ISFINITE (z3 (AlphaFilter.getState f)))
    then AlphaFilter.reset (x_ned_est e) f
    else f in
  let target_predicted_position :=
    predict_future_x_ned_est POSITION_FILTER_ALPHA
      (x_ned_est e) (v_ned_est e) (a_ned_est e) in
  let f := AlphaFilter.setParameters (_deltatime (task s))
             POSITION_FILTER_ALPHA f in
  let f := AlphaFilter.update target_predicted_position f in
  set_target_position_filtered f s.

(** Lines 121-129: the raw angle assigned for a new perspective angle. *)
Definition unwrap_follow_angle (_follow_angle_deg new_follow_angle_deg : float)
    : float :=
  if _follow_angle_deg - new_follow_angle_deg >? FZ 180 then
    new_follow_angle_deg + FZ 360
  else if _follow_angle_deg - new_follow_angle_deg <? - FZ 180 then
    new_follow_angle_deg - FZ 360
  else
    new_follow_angle_deg.

(** Lines 138-146: wrap the filtered angle, and the raw one with it. *)
Definition wrap_follow_angle (s : FlightTaskAutoFollowTarget)
    : FlightTaskAutoFollowTarget :=
  let st := AlphaFilter.getState (_follow_angle_filtered s) in
  if st >? FZ 360 then
    set_follow_angle_deg (_follow_angle_deg s - FZ 360)
      (set_follow_angle_filtered
         (AlphaFilter.reset (st - FZ 360) (_follow_angle_filtered s)) s)
  else if st <? - FZ 360 then
    set_follow_angle_deg (_follow_angle_deg s + FZ 360)
      (set_follow_angle_filtered
         (AlphaFilter.reset (st + FZ 360) (_follow_angle_filtered s)) s)
  else s.

(** Lines 131-136: low-pass the angle setting. *)
Definition filter_follow_angle (s : FlightTaskAutoFollowTarget)
    : FlightTaskAutoFollowTarget :=
  set_follow_angle_filtered
    (AlphaFilter.update (_follow_angle_deg s)
       (AlphaFilter.setParameters (_deltatime (task s))
          FOLLOW_ANGLE_FILTER_ALPHA (_follow_angle_filtered s))) s.

(** Lines 148-167: heading of the target, rotated offset, its filter. *)
Definition rotate_offset_vector (s : FlightTaskAutoFollowTarget)
    : FlightTaskAutoFollowTarget :=
  let v := v_ned_est (_follow_target_estimator s) in
  let s :=
    if (norm3 v >? MINIMUM_SPEED_FOR_HEADING_CHANGE)
       && (norm3 v >? FLT_EPSILON)
    then set_target_velocity_unit_vector (unit_or_zero (xy v)) s
    else s in
  let follow_angle_rad :=
    AlphaFilter.getState (_follow_angle_filtered s) * M_DEG_TO_RAD in
  let u := _target_velocity_unit_vector s in
  let offset_x := cos follow_angle_rad * x2 u - sin follow_angle_rad * y2 u in
  let offset_y := sin follow_angle_rad * x2 u + cos follow_angle_rad * y2 u in
  set_offset_vector_filtered
    (AlphaFilter.update (V2 offset_x offset_y)
       (AlphaFilter.setParameters (_deltatime (task s))
          DIRECTION_FILTER_ALPHA (_offset_vector_filtered s))) s.

(** Lines 108-168. *)
Definition update_offset_vector (s : FlightTaskAutoFollowTarget)
    : FlightTaskAutoFollowTarget :=
  if (_param_nav_ft_fs (params s) =? FOLLOW_PERSPECTIVE_NONE)%Z then
    set_offset_vector_filtered
      (AlphaFilter.reset zero2 (_offset_vector_filtered s)) s
  else
    let new_follow_angle_deg :=
      update_follow_me_angle_setting (_param_nav_ft_fs (params s)) in
    let s := set_follow_angle_deg
               (unwrap_follow_angle (_follow_angle_deg s) new_follow_angle_deg)
               s in
    let s := filter_follow_angle s in
    let s := wrap_follow_angle s in
    rotate_offset_vector s.

(** Line 173: the offset direction that is scaled by the follow distance. *)
Definition offset_direction (s : FlightTaskAutoFollowTarget)
    : Vector2f :=
  unit_or_zero (AlphaFilter.getState (_offset_vector_filtered s)).

(** Lines 178-191: the altitude-mode switch. *)
Definition desired_altitude (s : FlightTaskAutoFollowTarget)
    : float :=
  if (_param_nav_ft_alt_m (params s) =? FOLLOW_ALTITUDE_MODE_TRACK_TARGET)%Z
  then
    z3 (AlphaFilter.getState (_target_position_filtered s))
    - _param_nav_min_ft_ht (params s)
  else
    (* FOLLOW_ALTITUDE_MODE_CONSTANT falls through to default *)
    math_min (z3 (_position_setpoint (task s)))
             (- _param_nav_min_ft_ht (params s)).

(** Lines 170-191: [drone_desired_position]. *)
Definition drone_desired_position (s : FlightTaskAutoFollowTarget)
    : Vector3f :=
  let desired_distance_to_target := _param_nav_ft_dst (params s) in
  let h := add2 (xy (AlphaFilter.getState (_target_position_filtered s)))
                (scale2 (offset_direction s) desired_distance_to_target) in
  set_z (set_xy nan3 h) (desired_altitude s).

(** Lines 193-225: position and velocity setpoints, feed-forward ramp. *)
Definition set_setpoints (drone_desired_position : Vector3f)
    (s : FlightTaskAutoFollowTarget) : FlightTaskAutoFollowTarget :=
  let v := v_ned_est (_follow_target_estimator s) in
  let b := task s in
  let '(desired_velocity_ff_scale, b) :=
    if isfinite3 drone_desired_position then
      (* Only control horizontally if drone is on target altitude *)
      if fabsf (z3 drone_desired_position - z3 (_position b))
         <? ALT_ACCEPTANCE_THRESHOLD
      then
        let ff :=
          if norm3 v >=? MINIMUM_SPEED_FOR_HEADING_CHANGE
          then FZ 1 else FZ 0 in
        let b := set_velocity_setpoint
                   (scale3
                      (div3 (sub3 drone_desired_position (_position_setpoint b))
                            (_deltatime b))
                      (AlphaFilter.getState (_velocity_ff_scale s))) b in
        let b := set_position_setpoint drone_desired_position b in
        (ff, b)
      else
        let b := set_position_setpoint (_position b) b in
        let b := set_position_setpoint
                   (set_z (_position_setpoint b) (z3 drone_desired_position))
                   b in
        (FZ 0, b)
    else
      let b := set_position_setpoint (_position b) b in
      let b := set_velocity_setpoint zero3 b in
      (FZ 0, b) in
  let s := with_task (fun _ => b) s in
  set_velocity_ff_scale
    (AlphaFilter.update desired_velocity_ff_scale
       (AlphaFilter.setParameters (_deltatime (task s))
          VELOCITY_FF_FILTER_ALPHA (_velocity_ff_scale s))) s.

(** Lines 227-233: emergency ascent when too close to the ground. *)
Definition emergency_ascent (b : FlightTask) : FlightTask :=
  if PX4_ISFINITE (_dist_to_bottom b)
     && (_dist_to_bottom b <? MINIMUM_SAFETY_ALTITUDE)
  then
    let b := set_position_setpoint
               (V3 NaN NaN (z3 (_position_setpoint b))) b in
    let b := set_position_setpoint
               (set_z (_position_setpoint b) (z3 (_position b))) b in
    let b := set_velocity_setpoint
               (V3 (FZ 0) (FZ 0) (z3 (_velocity_setpoint b))) b in
    set_velocity_setpoint
      (set_z (_velocity_setpoint b) (- EMERGENCY_ASCENT_SPEED)) b
  else b.

(** Lines 235-241: face the target. *)
Definition face_target (s : FlightTaskAutoFollowTarget)
    : FlightTaskAutoFollowTarget :=
  let target_to_drone :=
    sub2 (xy (_position (task s)))
         (xy (AlphaFilter.getState (_target_position_filtered s))) in
  if norm2 target_to_drone >=? MINIMUM_DISTANCE_TO_TARGET_FOR_YAW_CONTROL
  then with_task
         (set_yaw_setpoint
            (atan2f (- y2 target_to_drone) (- x2 target_to_drone))) s
  else s.

(** Lines 89-242: the branch taken with a fresh estimate. *)
Definition track_target (s : FlightTaskAutoFollowTarget)
    : FlightTaskAutoFollowTarget :=
  let s := filter_target_position s in
  let s := update_offset_vector s in
  let s := set_setpoints (drone_desired_position s) s in
  let s := with_task emergency_ascent s in
  face_target s.

(** Lines 243-247: the branch taken without one. *)
Definition hold_position (s : FlightTaskAutoFollowTarget)
    : FlightTaskAutoFollowTarget :=
  let s := with_task
             (fun b => set_position_setpoint
                         (V3 NaN NaN (z3 (_position_setpoint b))) b) s in
  with_task
    (fun b => set_velocity_setpoint
                (set_xy (_velocity_setpoint b) zero2) b) s.

(** Lines 249-257: the status message. *)
Definition follow_target_status (now : Z) (s : FlightTaskAutoFollowTarget)
    : follow_target_status_s :=
  let st := AlphaFilter.getState (_target_position_filtered s) in
  {| status_timestamp := now;
     x_est_filtered := x3 st;
     y_est_filtered := y3 st;
     z_est_filtered := z3 st |}.

(** *** [update]

    [sub] is what the subscription holds this cycle ([Some] when
    [updated()]), [now] the value of [hrt_absolute_time()].  The result is
    the returned flag, the published status message and the new state. *)
Definition update (sub : option follow_target_estimator_s) (now : Z)
    (s : FlightTaskAutoFollowTarget)
    : bool * follow_target_status_s * FlightTaskAutoFollowTarget :=
  let '(ret, b) := FlightTask_update (task s) in
  let s := with_task (fun _ => b) s in
  let s :=
    match sub with
    | Some m => set_follow_target_estimator m s
    | None => s
    end in
  let s :=
    if estimate_fresh (_follow_target_estimator s)
    then track_target s
    else hold_position s in
  let published := follow_target_status now s in
  let s := with_task (fun b => set_want_takeoff (_checkTakeoff b) b) s in
  (ret, published, s).

(** *** Vocabulary for the statements *)

(** The base members as the body of [update] finds them, once
    [FlightTask::update()] has returned. *)
Definition cycle_task (s : FlightTaskAutoFollowTarget)
    : FlightTask :=
  snd (FlightTask_update (task s)).

(** The estimate held once the subscription has been polled. *)
Definition held_estimate (sub : option follow_target_estimator_s)
    (s : FlightTaskAutoFollowTarget) : follow_target_estimator_s :=
  match sub with
  | Some m => m
  | None => _follow_target_estimator s
  end.

(** The state at the branch on freshness (line 89). *)
Definition polled (sub : option follow_target_estimator_s)
    (s : FlightTaskAutoFollowTarget) : FlightTaskAutoFollowTarget :=
  let s := with_task (fun _ => cycle_task s) s in
  match sub with
  | Some m => set_follow_target_estimator m s
  | None => s
  end.

(** The state right after line 136: estimate polled, target position
    filtered, raw angle unwrapped, angle filter updated, wrap not yet
    applied. *)
Definition follow_angle_updated (sub : option follow_target_estimator_s)
    (s : FlightTaskAutoFollowTarget) : FlightTaskAutoFollowTarget :=
  let s := filter_target_position (polled sub s) in
  filter_follow_angle
    (set_follow_angle_deg
       (unwrap_follow_angle (_follow_angle_deg s)
          (update_follow_me_angle_setting (_param_nav_ft_fs (params s))))
       s).

(** The state at line 170 of a cycle with a fresh estimate: the target
    position, the follow angle and the offset vector have been filtered,
    the setpoints are still those the cycle started with. *)
Definition filters_updated (sub : option follow_target_estimator_s)
    (s : FlightTaskAutoFollowTarget) : FlightTaskAutoFollowTarget :=
  update_offset_vector (filter_target_position (polled sub s)).

(** The horizontal unit vector along which a vehicle of yaw [yaw] points:
    north and east component, the yaw being measured from north towards
    east. *)
Definition heading_2d (yaw : float) : Vector2f := V2 (cos yaw) (sin yaw).

(** [FlightTask::update()] leaves the setpoints of [b] as they are. *)
Definition base_keeps_setpoints (b : FlightTask) : Prop :=
  _position_setpoint (snd (FlightTask_update b)) = _position_setpoint b /\
  _velocity_setpoint (snd (FlightTask_update b)) = _velocity_setpoint b /\
  _yaw_setpoint (snd (FlightTask_update b)) = _yaw_setpoint b.

(** A cycle duration: a finite, non-negative number of seconds. *)
Definition is_duration (dt : float) : bool :=
  PX4_ISFINITE dt && (FZ 0 <=? dt).

(** [lo <= a <= hi] *)
Definition within (lo hi a : float) : bool := (lo <=? a) && (a <=? hi).

(** Every component of [v] is finite and within [-B, B]. *)
Definition bounded3 (B : Q) (v : Vector3f) : bool :=
  within (Fin (- B)) (Fin B) (x3 v)
  && within (Fin (- B)) (Fin B) (y3 v)
  && within (Fin (- B)) (Fin B) (z3 v).

(** 2^100, about 1.27e30: sums and quotients of the magnitudes below it
    that the controller forms stay far below the largest binary32 value,
    2^128. *)
Definition NO_OVERFLOW : Q := inject_Z (2 ^ 100).

Definition follow_angle_state (s : FlightTaskAutoFollowTarget)
    : float :=
  AlphaFilter.getState (_follow_angle_filtered s).

(** The framework refreshes the base members and the parameters between
    two cycles; the members of the follow-me task are its own. *)
Definition refreshed (b : FlightTask) (p : Parameters)
    (s : FlightTaskAutoFollowTarget) : FlightTaskAutoFollowTarget :=
  mkFollow b p (_follow_angle_deg s)
    (_follow_angle_filtered s) (_follow_target_estimator s)
    (_target_velocity_unit_vector s) (_target_position_filtered s)
    (_offset_vector_filtered s) (_velocity_ff_scale s).

(** States of a task that was activated and then run, cycle after cycle,
    with cycle durations that are durations. *)
Inductive reachable : FlightTaskAutoFollowTarget -> Prop :=
| reach_activate : forall last_setpoint s0,
    reachable (snd (activate last_setpoint s0))
| reach_update : forall sub now s,
    reachable s ->
    is_duration (_deltatime (cycle_task s)) = true ->
    reachable (snd (update sub now s))
| reach_refresh : forall b p s,
    reachable s -> reachable (refreshed b p s).

End FollowTarget.

(** ** Instances to run the controller on concrete inputs

    Every theorem below is proved for an arbitrary [Libm] and an arbitrary
    [FlightTaskBase]; the instances here serve to evaluate the controller. *)

Module Approx.

(** The nearest multiple of 2^-24 below. *)
Definition round24 (q : Q) : Q :=
  Qred ((Qnum q * 2 ^ 24 / Z.pos (Qden q)) # 2 ^ 24).

(** Square root to 24 fractional bits, rounded down. *)
Definition approx_sqrt (a : float) : float :=
  match a with
  | NaN | NInf => NaN
  | PInf => PInf
  | Fin q =>
      if Qltb q 0 then NaN
      else Fin (Qred (Z.sqrt (Qnum q * 2 ^ 48 / Z.pos (Qden q)) # 2 ^ 24))
  end.

(** Taylor polynomials around 0, exact at 0. *)
Definition approx_cos (a : float) : float :=
  match a with
  | Fin x =>
      let x := round24 x in
      Fin (round24 (1 - x * x * (1 # 2) + x * x * x * x * (1 # 24)))%Q
  | _ => NaN
  end.

Definition approx_sin (a : float) : float :=
  match a with
  | Fin x =>
      let x := round24 x in
      Fin (round24 (x - x * x * x * (1 # 6) + x * x * x * x * x * (1 # 120)))%Q
  | _ => NaN
  end.

(** [atan z] for [|z| <= 1] by [z / (1 + 0.28 z^2)], extended by quadrant. *)
Definition atan_unit (z : Q) : Q := (z / (1 + (28 # 100) * z * z))%Q.
Definition half_pi : Q := 1570796 # 1000000.

Definition approx_atan2 (y x : float) : float :=
  match y, x with
  | Fin y, Fin x =>
      if Qle_bool (Qabs y) (Qabs x) then
        if Qeq_bool x 0 then Fin 0
        else if Qltb 0 x then Fin (round24 (atan_unit (y / x)))
        else if Qltb y 0 then Fin (round24 (atan_unit (y / x) - 2 * half_pi))%Q
        else Fin (round24 (atan_unit (y / x) + 2 * half_pi))%Q
      else
        if Qltb 0 y then Fin (round24 (half_pi - atan_unit (x / y)))%Q
        else Fin (round24 (- half_pi - atan_unit (x / y)))%Q
  | _, _ => NaN
  end.

Definition libm : Libm :=
  {| cos := approx_cos; sin := approx_sin;
     atan2f := approx_atan2; sqrtf := approx_sqrt |}.

(** The plainest base class: both calls succeed and leave the base members
    as they are; no take-off is wanted. *)
Definition base : FlightTaskBase :=
  {| FlightTask_activate := fun _ b => (true, b);
     FlightTask_update := fun b => (true, b);
     _checkTakeoff := fun _ => false |}.

End Approx.

(** ** Concrete states and inputs for the examples *)

Module Scenario.

Definition v3 (x y z : Z) : Vector3f := V3 (FZ x) (FZ y) (FZ z).

(** A task object before its first activation: the raw follow angle is the
    header's 0.0f, the other members are zero. *)
Definition idle_filter {T} (v : T) : AlphaFilter.t T := AlphaFilter.mk (FZ 0) v.

Definition no_estimate : follow_target_estimator_s :=
  {| timestamp := 0; valid := false;
     x_est := FZ 0; y_est := FZ 0; z_est := FZ 0;
     vx_est := FZ 0; vy_est := FZ 0; vz_est := FZ 0;
     ax_est := FZ 0; ay_est := FZ 0; az_est := FZ 0 |}.

(** A stationary target at (10, 0, -5), valid, stamped 1000 us. *)
Definition target_at_rest : follow_target_estimator_s :=
  {| timestamp := 1000; valid := true;
     x_est := FZ 10; y_est := FZ 0; z_est := FZ (-5);
     vx_est := FZ 0; vy_est := FZ 0; vz_est := FZ 0;
     ax_est := FZ 0; ay_est := FZ 0; az_est := FZ 0 |}.

(** The vehicle hovering at (0, 0, -5), yaw 0, cycle time 20 ms, at
    [dist] metres above ground. *)
Definition hover (dist : float) : FlightTask :=
  {| _position := v3 0 0 (-5);
     _yaw := FZ 0;
     _dist_to_bottom := dist;
     _deltatime := Fin (1 # 50);
     _position_setpoint := v3 0 0 (-5);
     _velocity_setpoint := v3 0 0 0;
     _yaw_setpoint := FZ 0;
     _yawspeed_setpoint := FZ 0;
     want_takeoff := false |}.

Definition settings (perspective altitude_mode : Z) : Parameters :=
  {| _param_nav_min_ft_ht := FZ 8;
     _param_nav_ft_dst := FZ 5;
     _param_nav_ft_fs := perspective;
     _param_nav_ft_alt_m := altitude_mode |}.

Definition idle (dist : float) (perspective : Z) : FlightTaskAutoFollowTarget :=
  {| task := hover dist;
     params := settings perspective FOLLOW_ALTITUDE_MODE_CONSTANT;
     _follow_angle_deg := FZ 0;
     _follow_angle_filtered := idle_filter (FZ 0);
     _follow_target_estimator := no_estimate;
     _target_velocity_unit_vector := zero2;
     _target_position_filtered := idle_filter zero3;
     _offset_vector_filtered := idle_filter zero2;
     _velocity_ff_scale := idle_filter (FZ 0) |}.

Definition last_setpoint : vehicle_local_position_setpoint_s :=
  {| sp_x := NaN; sp_y := NaN; sp_z := NaN;
     sp_vx := NaN; sp_vy := NaN; sp_vz := NaN;
     sp_yaw := NaN; sp_yawspeed := NaN |}.

(** The user changes NAV_FT_FS between two cycles. *)
Definition select_perspective (perspective : Z)
    (s : FlightTaskAutoFollowTarget) : FlightTaskAutoFollowTarget :=
  mkFollow (task s)
    {| _param_nav_min_ft_ht := _param_nav_min_ft_ht (params s);
       _param_nav_ft_dst := _param_nav_ft_dst (params s);
       _param_nav_ft_fs := perspective;
       _param_nav_ft_alt_m := _param_nav_ft_alt_m (params s) |}
    (_follow_angle_deg s)
    (_follow_angle_filtered s) (_follow_target_estimator s)
    (_target_velocity_unit_vector s) (_target_position_filtered s)
    (_offset_vector_filtered s) (_velocity_ff_scale s).

Definition activated (dist : float) (perspective : Z)
    : FlightTaskAutoFollowTarget :=
  snd (@activate Approx.libm Approx.base last_setpoint (idle dist perspective)).

(** One cycle with the estimate [sub] arriving, after the user selected
    [perspective]. *)
Definition cycle (sub : option follow_target_estimator_s) (perspective : Z)
    (s : FlightTaskAutoFollowTarget) : FlightTaskAutoFollowTarget :=
  snd (@update Approx.libm Approx.base sub 0
         (select_perspective perspective s)).

(** Cycles with the target at rest, one per perspective of the list. *)
Definition cycles (perspectives : list Z) (s : FlightTaskAutoFollowTarget)
    : FlightTaskAutoFollowTarget :=
  fold_left (fun s p => cycle (Some target_at_rest) p s) perspectives s.

(** The task activated 0.5 m above ground, no estimate received yet. *)
Definition low_hover : FlightTaskAutoFollowTarget :=
  activated (Fin (1 # 2)) FOLLOW_PERSPECTIVE_BEHIND.

(** The task activated 10 m above ground. *)
Definition high_hover : FlightTaskAutoFollowTarget :=
  activated (FZ 10) FOLLOW_PERSPECTIVE_BEHIND.

(** One cycle behind the target: the raw follow angle is 180. *)
Definition behind : FlightTaskAutoFollowTarget :=
  cycles [FOLLOW_PERSPECTIVE_BEHIND] high_hover.

(** The user steps through Front-Left, Behind, Front-Right and Front, one
    cycle each: the raw follow angle goes 0, -45, -180, -315, -360. *)
Definition turned_back : FlightTaskAutoFollowTarget :=
  cycles [FOLLOW_PERSPECTIVE_FRONT_LEFT; FOLLOW_PERSPECTIVE_BEHIND;
          FOLLOW_PERSPECTIVE_FRONT_RIGHT; FOLLOW_PERSPECTIVE_FRONT]
    high_hover.

(** The task activated with cycles of half a second. *)
Definition slow_hover : FlightTaskAutoFollowTarget :=
  refreshed
    (mkFlightTask (v3 0 0 (-5)) (FZ 0) (FZ 10) (Fin (1 # 2))
       (v3 0 0 (-5)) (v3 0 0 0) (FZ 0) (FZ 0) false)
    (settings FOLLOW_PERSPECTIVE_BEHIND FOLLOW_ALTITUDE_MODE_CONSTANT)
    high_hover.

(** At half a second per cycle the user steps through Behind, Front-Left,
    Front, Front-Right, Behind and Front-Left, and stays there one more
    cycle: the raw follow angle goes 180, 315, 360, 405, 540, 675, 675, and
    the filtered angle follows up to about 331. *)
Definition wound_up : FlightTaskAutoFollowTarget :=
  cycles [FOLLOW_PERSPECTIVE_BEHIND; FOLLOW_PERSPECTIVE_FRONT_LEFT;
          FOLLOW_PERSPECTIVE_FRONT; FOLLOW_PERSPECTIVE_FRONT_RIGHT;
          FOLLOW_PERSPECTIVE_BEHIND; FOLLOW_PERSPECTIVE_FRONT_LEFT;
          FOLLOW_PERSPECTIVE_FRONT_LEFT]
    slow_hover.

(** One cycle with perspective None, after which the user selects Behind;
    the target has not moved since activation. *)
Definition none_then_behind : FlightTaskAutoFollowTarget :=
  select_perspective FOLLOW_PERSPECTIVE_BEHIND
    (cycles [FOLLOW_PERSPECTIVE_NONE] high_hover).

(** [high_hover] with the altitude mode set to [mode]. *)
Definition with_altitude_mode (mode : Z) : FlightTaskAutoFollowTarget :=
  refreshed (hover (FZ 10)) (settings FOLLOW_PERSPECTIVE_BEHIND mode)
    high_hover.

(** A target moving north at 2 m/s, 5 m north of the vehicle and 8 m
    above it. *)
Definition target_moving : follow_target_estimator_s :=
  {| timestamp := 2000; valid := true;
     x_est := FZ 5; y_est := FZ 0; z_est := FZ 3;
     vx_est := FZ 2; vy_est := FZ 0; vz_est := FZ 0;
     ax_est := FZ 0; ay_est := FZ 0; az_est := FZ 0 |}.

(** A target climbing at 1 m/s with no horizontal velocity. *)
Definition target_climbing : follow_target_estimator_s :=
  {| timestamp := 3000; valid := true;
     x_est := FZ 10; y_est := FZ 0; z_est := FZ (-5);
     vx_est := FZ 0; vy_est := FZ 0; vz_est := FZ (-1);
     ax_est := FZ 0; ay_est := FZ 0; az_est := FZ 0 |}.

(** [high_hover] with NAV_FT_DST not a number. *)
Definition no_distance : FlightTaskAutoFollowTarget :=
  refreshed (hover (FZ 10))
    {| _param_nav_min_ft_ht := FZ 8;
       _param_nav_ft_dst := NaN;
       _param_nav_ft_fs := FOLLOW_PERSPECTIVE_BEHIND;
       _param_nav_ft_alt_m := FOLLOW_ALTITUDE_MODE_CONSTANT |}
    high_hover.

(** [high_hover] in mode TrackTarget with a cycle duration of zero. *)
Definition no_time : FlightTaskAutoFollowTarget :=
  refreshed
    (mkFlightTask (v3 0 0 (-5)) (FZ 0) (FZ 10) (FZ 0)
       (v3 0 0 (-5)) (v3 0 0 0) (FZ 0) (FZ 0) false)
    (settings FOLLOW_PERSPECTIVE_BEHIND FOLLOW_ALTITUDE_MODE_TRACK_TARGET)
    high_hover.

(** A task object before its first activation, the vehicle facing east
    (yaw a quarter turn, 1.570796). *)
Definition idle_facing_east : FlightTaskAutoFollowTarget :=
  refreshed
    (mkFlightTask (v3 0 0 (-5)) (Fin (1570796 # 1000000)) (FZ 10)
       (Fin (1 # 50)) (v3 0 0 (-5)) (v3 0 0 0) (FZ 0) (FZ 0) false)
    (settings FOLLOW_PERSPECTIVE_BEHIND FOLLOW_ALTITUDE_MODE_CONSTANT)
    (idle (FZ 10) FOLLOW_PERSPECTIVE_BEHIND).

End Scenario.

(** * Properties *)

Section Properties.
Context {libm : Libm} {base : FlightTaskBase}.

(** ** [update] as a composition of its blocks *)

Lemma update_eq sub now s :
  update sub now s =
  let s' := if estimate_fresh (held_estimate sub s)
            then track_target (polled sub s)
            else hold_position (polled sub s) in
  (fst (FlightTask_update (task s)),
   follow_target_status now s',
   with_task (fun b => set_want_takeoff (_checkTakeoff b) b) s').
Proof.
  unfold update, polled, cycle_task, held_estimate.
  destruct (FlightTask_update (task s)) as [ret b].
  destruct sub; reflexivity.
Qed.

Lemma held_estimate_polled sub s :
  _follow_target_estimator (polled sub s) = held_estimate sub s.
Proof. destruct sub; reflexivity. Qed.

Lemma task_polled sub s : task (polled sub s) = cycle_task s.
Proof. destruct sub; reflexivity. Qed.

(** ** What each block leaves alone *)

Lemma task_filter_target_position s :
  task (filter_target_position s) = task s.
Proof. reflexivity. Qed.

Lemma params_filter_target_position s :
  params (filter_target_position s) = params s.
Proof. reflexivity. Qed.

Lemma task_wrap_follow_angle s : task (wrap_follow_angle s) = task s.
Proof.
  unfold wrap_follow_angle.
  destruct (_ >? _); [reflexivity|]. destruct (_ <? _); reflexivity.
Qed.

Lemma task_rotate_offset_vector s : task (rotate_offset_vector s) = task s.
Proof.
  unfold rotate_offset_vector. cbn.
  destruct (_ && _); reflexivity.
Qed.

Lemma task_update_offset_vector s : task (update_offset_vector s) = task s.
Proof.
  unfold update_offset_vector.
  destruct (_ =? _)%Z; [reflexivity|].
  rewrite task_rotate_offset_vector, task_wrap_follow_angle. reflexivity.
Qed.

Lemma vehicle_set_setpoints d s :
  _dist_to_bottom (task (set_setpoints d s)) = _dist_to_bottom (task s) /\
  _position (task (set_setpoints d s)) = _position (task s).
Proof.
  unfold set_setpoints.
  destruct (isfinite3 d); [destruct (_ <? _)|]; split; reflexivity.
Qed.

Lemma deltatime_set_setpoints d s :
  _deltatime (task (set_setpoints d s)) = _deltatime (task s).
Proof.
  unfold set_setpoints.
  destruct (isfinite3 d); [destruct (_ <? _)|]; reflexivity.
Qed.

Lemma deltatime_emergency_ascent b :
  _deltatime (emergency_ascent b) = _deltatime b.
Proof. unfold emergency_ascent. destruct (_ && _); reflexivity. Qed.

Lemma deltatime_face_target s :
  _deltatime (task (face_target s)) = _deltatime (task s).
Proof. unfold face_target. destruct (_ >=? _); reflexivity. Qed.

Lemma deltatime_update sub now s :
  _deltatime (task (snd (update sub now s))) = _deltatime (cycle_task s).
Proof.
  rewrite update_eq. cbn zeta.
  destruct (estimate_fresh (held_estimate sub s)); cbn [snd with_task task].
  - change (_deltatime (set_want_takeoff ?w ?b)) with (_deltatime b).
    unfold track_target. rewrite deltatime_face_target.
    cbn [with_task task].
    rewrite deltatime_emergency_ascent, deltatime_set_setpoints.
    now rewrite task_update_offset_vector, task_filter_target_position,
      task_polled.
  - cbn. now rewrite task_polled.
Qed.

Lemma setpoints_face_target s :
  _position_setpoint (task (face_target s)) = _position_setpoint (task s) /\
  _velocity_setpoint (task (face_target s)) = _velocity_setpoint (task s).
Proof.
  unfold face_target. destruct (_ >=? _); split; reflexivity.
Qed.

(** ** The two branches of a cycle *)

Lemma emergency_ascent_low b :
  PX4_ISFINITE (_dist_to_bottom b) = true ->
  (_dist_to_bottom b <? MINIMUM_SAFETY_ALTITUDE) = true ->
  _position_setpoint (emergency_ascent b) = V3 NaN NaN (z3 (_position b)) /\
  _velocity_setpoint (emergency_ascent b)
  = V3 (FZ 0) (FZ 0) (- EMERGENCY_ASCENT_SPEED).
Proof.
  intros Hfin Hlow. unfold emergency_ascent. rewrite Hfin, Hlow.
  split; reflexivity.
Qed.

Lemma track_target_low s :
  PX4_ISFINITE (_dist_to_bottom (task s)) = true ->
  (_dist_to_bottom (task s) <? MINIMUM_SAFETY_ALTITUDE) = true ->
  _position_setpoint (task (track_target s))
  = V3 NaN NaN (z3 (_position (task s))) /\
  _velocity_setpoint (task (track_target s))
  = V3 (FZ 0) (FZ 0) (- EMERGENCY_ASCENT_SPEED).
Proof.
  intros Hfin Hlow. unfold track_target.
  set (s1 := update_offset_vector (filter_target_position s)).
  assert (Ht : task s1 = task s)
    by (unfold s1; now rewrite task_update_offset_vector).
  destruct (vehicle_set_setpoints (drone_desired_position s1) s1) as [Hd Hp].
  rewrite Ht in Hd, Hp.
  set (s2 := set_setpoints (drone_desired_position s1) s1) in *.
  destruct (setpoints_face_target (with_task emergency_ascent s2)) as [-> ->].
  cbn [with_task task].
  destruct (emergency_ascent_low (task s2)) as [-> ->]; try congruence.
  now rewrite Hp.
Qed.

Lemma hold_position_eq s :
  hold_position s =
  with_task
    (fun b =>
       set_velocity_setpoint
         (V3 (FZ 0) (FZ 0) (z3 (_velocity_setpoint b)))
         (set_position_setpoint (V3 NaN NaN (z3 (_position_setpoint b))) b))
    s.
Proof. reflexivity. Qed.

(** C1 (as amended).  When the distance to the ground is a finite reading
    below the 1.0 m threshold, every cycle leaves both horizontal components
    of the position setpoint NaN.  With a fresh estimate the vertical
    velocity setpoint is the emergency ascent speed with negative sign,
    whatever the tracking computation produced; with a stale estimate the
    vertical velocity setpoint is the one the cycle started with. *)
Theorem ground_clearance_override sub now s :
  PX4_ISFINITE (_dist_to_bottom (cycle_task s)) = true ->
  (_dist_to_bottom (cycle_task s) <? MINIMUM_SAFETY_ALTITUDE) = true ->
  let b' := task (snd (update sub now s)) in
  x3 (_position_setpoint b') = NaN /\
  y3 (_position_setpoint b') = NaN /\
  (estimate_fresh (held_estimate sub s) = true ->
   z3 (_velocity_setpoint b') = - EMERGENCY_ASCENT_SPEED) /\
  (estimate_fresh (held_estimate sub s) = false ->
   z3 (_velocity_setpoint b') = z3 (_velocity_setpoint (cycle_task s))).
Proof.
  intros Hfin Hlow. rewrite update_eq. cbn zeta.
  destruct (estimate_fresh (held_estimate sub s)); cbn [snd with_task task].
  - destruct (track_target_low (polled sub s)) as [Hp Hv];
      rewrite ?task_polled; trivial.
    cbn. rewrite Hp, Hv. cbn. repeat split; congruence.
  - rewrite hold_position_eq. cbn. rewrite task_polled.
    repeat split; congruence.
Qed.

(** C2.  In a cycle whose held estimate is stale, both horizontal
    components of the position setpoint are NaN and both horizontal
    components of the velocity setpoint are zero; the filters, the raw follow
    angle and the target heading are what they were (the tracking steps are
    skipped), altitude and yaw setpoint are left as found, and the status
    message is published with the filtered target position. *)
Theorem stale_estimate_holds_position sub now s :
  estimate_fresh (held_estimate sub s) = false ->
  let s' := snd (update sub now s) in
  (x3 (_position_setpoint (task s')) = NaN /\
   y3 (_position_setpoint (task s')) = NaN /\
   x3 (_velocity_setpoint (task s')) = FZ 0 /\
   y3 (_velocity_setpoint (task s')) = FZ 0) /\
  (_target_position_filtered s' = _target_position_filtered s /\
   _follow_angle_filtered s' = _follow_angle_filtered s /\
   _follow_angle_deg s' = _follow_angle_deg s /\
   _target_velocity_unit_vector s' = _target_velocity_unit_vector s /\
   _offset_vector_filtered s' = _offset_vector_filtered s /\
   _velocity_ff_scale s' = _velocity_ff_scale s /\
   z3 (_position_setpoint (task s')) = z3 (_position_setpoint (cycle_task s)) /\
   _yaw_setpoint (task s') = _yaw_setpoint (cycle_task s)) /\
  snd (fst (update sub now s))
  = {| status_timestamp := now;
       x_est_filtered := x3 (AlphaFilter.getState (_target_position_filtered s));
       y_est_filtered := y3 (AlphaFilter.getState (_target_position_filtered s));
       z_est_filtered := z3 (AlphaFilter.getState (_target_position_filtered s))
    |}.
Proof.
  intros Hstale. rewrite update_eq, Hstale. cbn zeta.
  rewrite hold_position_eq.
  destruct sub; cbn; repeat split; reflexivity.
Qed.

(** C10.  In a cycle whose held estimate is stale, the vertical component
    of the position setpoint, the vertical component of the velocity
    setpoint, the yaw setpoint and every filter (target position, follow
    angle, offset vector, feed-forward scale) have after the call the values
    they had before it, the base-class call leaving the setpoints alone. *)
Theorem stale_estimate_frame sub now s :
  estimate_fresh (held_estimate sub s) = false ->
  base_keeps_setpoints (task s) ->
  let s' := snd (update sub now s) in
  z3 (_position_setpoint (task s')) = z3 (_position_setpoint (task s)) /\
  z3 (_velocity_setpoint (task s')) = z3 (_velocity_setpoint (task s)) /\
  _yaw_setpoint (task s') = _yaw_setpoint (task s) /\
  _target_position_filtered s' = _target_position_filtered s /\
  _follow_angle_filtered s' = _follow_angle_filtered s /\
  _offset_vector_filtered s' = _offset_vector_filtered s /\
  _velocity_ff_scale s' = _velocity_ff_scale s.
Proof.
  intros Hstale (Hp & Hv & Hy). rewrite update_eq, Hstale. cbn zeta.
  rewrite hold_position_eq.
  destruct sub; cbn; fold (cycle_task s);
    unfold cycle_task; rewrite Hp, Hv, Hy; repeat split; reflexivity.
Qed.

(** ** Comparisons of finite values *)

Lemma Qltb_lt x y : Qltb x y = true <-> (x < y)%Q.
Proof.
  unfold Qltb. rewrite negb_true_iff, <- not_true_iff_false, Qle_bool_iff.
  split; [apply Qnot_le_lt | apply Qlt_not_le].
Qed.

Lemma Qltb_ge x y : Qltb x y = false <-> (y <= x)%Q.
Proof.
  unfold Qltb. rewrite negb_false_iff. apply Qle_bool_iff.
Qed.

Lemma Qle_bool_gt x y : Qle_bool x y = false <-> (y < x)%Q.
Proof.
  rewrite <- not_true_iff_false, Qle_bool_iff.
  split; [apply Qnot_le_lt | apply Qlt_not_le].
Qed.

Lemma Qsign_pos q : (0 < q)%Q -> Qsign q = Gt.
Proof.
  unfold Qsign, Qlt. cbn. intros H. apply Z.compare_gt_iff. lia.
Qed.

(** Turns the boolean comparisons of finite values in the context and in
    the goal into rational inequalities. *)
Ltac finite_cmp :=
  cbn [flt fle fgt fge fadd fsub fneg fmul fabsf FZ] in *;
  repeat match goal with
    | H : Qltb _ _ = true |- _ => apply Qltb_lt in H
    | H : Qltb _ _ = false |- _ => apply Qltb_ge in H
    | H : Qle_bool _ _ = true |- _ => apply Qle_bool_iff in H
    | H : Qle_bool _ _ = false |- _ => apply Qle_bool_gt in H
    | |- Qltb _ _ = true => apply Qltb_lt
    | |- Qltb _ _ = false => apply Qltb_ge
    | |- Qle_bool _ _ = true => apply Qle_bool_iff
    | |- Qle_bool _ _ = false => apply Qle_bool_gt
    end;
  unfold inject_Z in *;
  repeat match goal with
    | H : context [Qred ?q] |- _ => rewrite (Qred_correct q) in H
    end;
  rewrite ?Qred_correct.

(** ** The perspective table *)

Lemma follow_me_angle_range fs :
  exists p, update_follow_me_angle_setting fs = Fin p /\ (0 <= p <= 315)%Q.
Proof.
  unfold update_follow_me_angle_setting.
  repeat match goal with |- context [(?a =? ?b)%Z] => destruct (a =? b)%Z end;
    (eexists; split; [reflexivity | split; discriminate]).
Qed.

(** ** The shortest-rotation step (lines 121-129) *)

(** The assigned angle is the new angle, or the new angle one turn up or
    down. *)
Lemma unwrap_follow_angle_cases theta phi :
  unwrap_follow_angle theta phi = phi \/
  unwrap_follow_angle theta phi = phi + FZ 360 \/
  unwrap_follow_angle theta phi = phi - FZ 360.
Proof.
  unfold unwrap_follow_angle.
  destruct (_ >? _); [auto|]. destruct (_ <? _); auto.
Qed.

(** Within a turn and a half of the new angle, the assigned angle is at
    most half a turn away from the current one. *)
Lemma unwrap_follow_angle_shortest (t p : Q) :
  (-540 <= t - p <= 540)%Q ->
  (fabsf (Fin t - unwrap_follow_angle (Fin t) (Fin p)) <=? FZ 180) = true.
Proof.
  intros [Hlo Hhi]. unfold unwrap_follow_angle.
  destruct (Fin t - Fin p >? FZ 180) eqn:Hgt;
    [|destruct (Fin t - Fin p <? - FZ 180) eqn:Hlt];
    finite_cmp; apply Qabs_Qle_condition; split; lra.
Qed.

(** C4 (as amended).  With the raw follow angle at 180 (Behind), selecting
    Front (0) makes the unwrap step assign 0: the difference is exactly 180,
    which neither exceeds 180 nor falls below -180, so no turn is added or
    subtracted. *)
Theorem unwrap_behind_to_front :
  unwrap_follow_angle FOLLOW_PERSPECTIVE_BEHIND_ANGLE_DEG
    (update_follow_me_angle_setting FOLLOW_PERSPECTIVE_FRONT)
  = FZ 0.
Proof. reflexivity. Qed.

(** ** The follow-angle filter stays within a turn *)

Lemma unwrap_follow_angle_range theta p :
  (0 <= p <= 315)%Q ->
  exists x, unwrap_follow_angle theta (Fin p) = Fin x /\ (-360 <= x <= 675)%Q.
Proof.
  intros [Hlo Hhi]. unfold unwrap_follow_angle.
  destruct (_ >? _); [|destruct (_ <? _)];
    cbn [fadd fsub fneg FZ]; unfold inject_Z;
    eexists; (split; [reflexivity | rewrite ?Qred_correct; lra]).
Qed.

Lemma blend_coefficient d tau :
  (0 <= d)%Q -> (0 < tau)%Q ->
  exists a, Fin d / (Fin tau + Fin d) = Fin a /\ (0 <= a <= 1)%Q.
Proof.
  intros Hd Htau. cbn [fadd fdiv].
  rewrite Qsign_pos by (rewrite Qred_correct; lra).
  eexists; split; [reflexivity|]. rewrite !Qred_correct. split.
  - apply Qle_shift_div_l; lra.
  - apply Qle_shift_div_r; lra.
Qed.

(** One filter update is a convex combination of state and sample. *)
Lemma filter_update_between (lo hi q x d tau : Q) :
  (lo <= q <= hi)%Q -> (lo <= x <= hi)%Q -> (0 <= d)%Q -> (0 < tau)%Q ->
  exists y,
    AlphaFilter.getState
      (AlphaFilter.update (Fin x)
         (AlphaFilter.setParameters (Fin d) (Fin tau)
            (AlphaFilter.mk NaN (Fin q)))) = Fin y
    /\ (lo <= y <= hi)%Q.
Proof.
  intros Hq Hx Hd Htau.
  destruct (blend_coefficient d tau Hd Htau) as (a & Ha & Ha01).
  unfold AlphaFilter.update, AlphaFilter.setParameters, AlphaFilter.getState.
  cbn [AlphaFilter._alpha AlphaFilter._filter_state blend_add blend_scale
       Blend_float].
  rewrite Ha. cbn [fsub fneg fadd fmul FZ].
  eexists; split; [reflexivity|]. rewrite !Qred_correct. unfold inject_Z. nra.
Qed.

Lemma within_turn_iff a :
  within (- FZ 360) (FZ 360) a = true <->
  exists q, a = Fin q /\ (-360 <= q <= 360)%Q.
Proof.
  unfold within. rewrite andb_true_iff. split.
  - intros [Hlo Hhi]. destruct a; try discriminate.
    finite_cmp. eexists; split; [reflexivity | lra].
  - intros (q & -> & Hlo & Hhi). split; finite_cmp; lra.
Qed.

Lemma is_duration_iff dt :
  is_duration dt = true <-> exists d, dt = Fin d /\ (0 <= d)%Q.
Proof.
  unfold is_duration. rewrite andb_true_iff. split.
  - intros [Hfin Hpos]. destruct dt; try discriminate.
    finite_cmp. eauto.
  - intros (d & -> & Hd). split; [reflexivity | finite_cmp; lra].
Qed.

Lemma filter_follow_angle_range s q x d :
  follow_angle_state s = Fin q -> (-360 <= q <= 360)%Q ->
  _follow_angle_deg s = Fin x -> (-360 <= x <= 675)%Q ->
  _deltatime (task s) = Fin d -> (0 <= d)%Q ->
  exists y, follow_angle_state (filter_follow_angle s) = Fin y
            /\ (-360 <= y <= 675)%Q.
Proof.
  intros Hs Hq Hx Hxr Hdt Hd.
  unfold follow_angle_state, filter_follow_angle in *.
  cbn [_follow_angle_filtered set_follow_angle_filtered].
  rewrite Hx, Hdt.
  destruct (_follow_angle_filtered s) as [al st]. cbn in Hs. subst st.
  apply (filter_update_between (-360) 675 q x d 3); lra.
Qed.

Lemma wrap_follow_angle_bounded s y :
  follow_angle_state s = Fin y -> (-360 <= y <= 675)%Q ->
  within (- FZ 360) (FZ 360) (follow_angle_state (wrap_follow_angle s)) = true.
Proof.
  intros Hs Hy. apply within_turn_iff.
  unfold wrap_follow_angle. fold (follow_angle_state s). rewrite Hs.
  destruct (Fin y >? FZ 360) eqn:Hgt;
    [|destruct (Fin y <? - FZ 360) eqn:Hlt]; finite_cmp.
  - exists (Qred (y + - (360 # 1))).
    split; [reflexivity | rewrite Qred_correct; lra].
  - exists (Qred (y + (360 # 1))).
    split; [reflexivity | rewrite Qred_correct; lra].
  - exists y. split; [exact Hs | lra].
Qed.

Lemma follow_angle_rotate_offset_vector s :
  _follow_angle_filtered (rotate_offset_vector s) = _follow_angle_filtered s /\
  _follow_angle_deg (rotate_offset_vector s) = _follow_angle_deg s.
Proof.
  unfold rotate_offset_vector. cbn. destruct (_ && _); split; reflexivity.
Qed.

Lemma follow_angle_set_setpoints d s :
  _follow_angle_filtered (set_setpoints d s) = _follow_angle_filtered s /\
  _follow_angle_deg (set_setpoints d s) = _follow_angle_deg s.
Proof.
  unfold set_setpoints.
  destruct (isfinite3 d); [destruct (_ <? _)|]; split; reflexivity.
Qed.

Lemma follow_angle_face_target s :
  _follow_angle_filtered (face_target s) = _follow_angle_filtered s /\
  _follow_angle_deg (face_target s) = _follow_angle_deg s.
Proof.
  unfold face_target. destruct (_ >=? _); split; reflexivity.
Qed.

(** After the tracking branch the angle filter and the raw angle are those
    the angle block (lines 108-146) produced. *)
Lemma follow_angle_track_target s :
  let s1 := update_offset_vector (filter_target_position s) in
  _follow_angle_filtered (track_target s) = _follow_angle_filtered s1 /\
  _follow_angle_deg (track_target s) = _follow_angle_deg s1.
Proof.
  cbn zeta. unfold track_target.
  destruct (follow_angle_face_target
              (with_task emergency_ascent
                 (set_setpoints
                    (drone_desired_position
                       (update_offset_vector (filter_target_position s)))
                    (update_offset_vector (filter_target_position s)))))
    as [-> ->].
  cbn [with_task _follow_angle_filtered _follow_angle_deg].
  apply follow_angle_set_setpoints.
Qed.

Lemma update_offset_vector_bounded s :
  within (- FZ 360) (FZ 360) (follow_angle_state s) = true ->
  is_duration (_deltatime (task s)) = true ->
  within (- FZ 360) (FZ 360) (follow_angle_state (update_offset_vector s))
  = true.
Proof.
  intros Hin Hdt.
  apply within_turn_iff in Hin. destruct Hin as (q & Hq & Hqr).
  apply is_duration_iff in Hdt. destruct Hdt as (d & Hd & Hdr).
  unfold update_offset_vector.
  destruct (_ =? _)%Z.
  - apply within_turn_iff. exists q. split; [exact Hq | exact Hqr].
  - unfold follow_angle_state.
    destruct (follow_angle_rotate_offset_vector
                (wrap_follow_angle
                   (filter_follow_angle
                      (set_follow_angle_deg
                         (unwrap_follow_angle (_follow_angle_deg s)
                            (update_follow_me_angle_setting
                               (_param_nav_ft_fs (params s)))) s))))
      as [-> _].
    destruct (follow_me_angle_range (_param_nav_ft_fs (params s)))
      as (p & Hp & Hpr).
    rewrite Hp.
    destruct (unwrap_follow_angle_range (_follow_angle_deg s) p Hpr)
      as (x & Hx & Hxr).
    rewrite Hx.
    destruct (filter_follow_angle_range
                (set_follow_angle_deg (Fin x) s) q x d)
      as (y & Hy & Hyr); trivial.
    apply (wrap_follow_angle_bounded _ y Hy Hyr).
Qed.

Lemma update_bounded sub now s :
  within (- FZ 360) (FZ 360) (follow_angle_state s) = true ->
  is_duration (_deltatime (cycle_task s)) = true ->
  within (- FZ 360) (FZ 360) (follow_angle_state (snd (update sub now s)))
  = true.
Proof.
  intros Hin Hdt. rewrite update_eq. cbn zeta.
  assert (Hp : follow_angle_state (polled sub s) = follow_angle_state s)
    by (destruct sub; reflexivity).
  destruct (estimate_fresh (held_estimate sub s)).
  - unfold follow_angle_state. cbn [snd with_task _follow_angle_filtered].
    destruct (follow_angle_track_target (polled sub s)) as [-> _].
    apply update_offset_vector_bounded.
    + unfold follow_angle_state in *. cbn. exact (eq_trans (f_equal _ Hp) Hin).
    + rewrite task_filter_target_position, task_polled. exact Hdt.
  - rewrite <- Hp in Hin. exact Hin.
Qed.

Lemma activate_bounded last_setpoint s :
  within (- FZ 360) (FZ 360)
    (follow_angle_state (snd (activate last_setpoint s))) = true.
Proof.
  unfold activate.
  destruct (FlightTask_activate last_setpoint (task s)) as [ret b].
  cbn zeta.
  repeat match goal with |- context [if ?c then _ else _] => destruct c end;
    reflexivity.
Qed.

Lemma reachable_bounded s :
  reachable s ->
  within (- FZ 360) (FZ 360) (follow_angle_state s) = true.
Proof.
  induction 1 as [sp s0 | sub now s Hr IH Hdt | b p s Hr IH].
  - apply activate_bounded.
  - now apply update_bounded.
  - exact IH.
Qed.

Lemma wrap_follow_angle_spec s :
  ((follow_angle_state s >? FZ 360) = true ->
   follow_angle_state (wrap_follow_angle s) = follow_angle_state s - FZ 360 /\
   _follow_angle_deg (wrap_follow_angle s) = _follow_angle_deg s - FZ 360) /\
  ((follow_angle_state s <? - FZ 360) = true ->
   follow_angle_state (wrap_follow_angle s) = follow_angle_state s + FZ 360 /\
   _follow_angle_deg (wrap_follow_angle s) = _follow_angle_deg s + FZ 360).
Proof.
  unfold wrap_follow_angle, follow_angle_state. split; intros H.
  - rewrite H. split; reflexivity.
  - destruct (_ >? _) eqn:Hgt.
    + exfalso. destruct (AlphaFilter.getState (_follow_angle_filtered s));
        try discriminate. finite_cmp. lra.
    + rewrite H. split; reflexivity.
Qed.

Lemma follow_angle_cycle sub now s :
  estimate_fresh (held_estimate sub s) = true ->
  _param_nav_ft_fs (params s) <> FOLLOW_PERSPECTIVE_NONE ->
  let s' := snd (update sub now s) in
  let w := wrap_follow_angle (follow_angle_updated sub s) in
  follow_angle_state s' = follow_angle_state w /\
  _follow_angle_deg s' = _follow_angle_deg w.
Proof.
  intros Hfresh Hfs. cbn zeta. rewrite update_eq, Hfresh. cbn zeta.
  unfold follow_angle_state.
  cbn [snd with_task _follow_angle_filtered _follow_angle_deg].
  destruct (follow_angle_track_target (polled sub s)) as [-> ->].
  unfold update_offset_vector, follow_angle_updated.
  assert (Hp : params (filter_target_position (polled sub s)) = params s)
    by (destruct sub; reflexivity).
  rewrite Hp.
  destruct (_ =? _)%Z eqn:E; [apply Z.eqb_eq in E; contradiction|].
  cbn zeta.
  match goal with
  | |- context [rotate_offset_vector ?t] =>
      destruct (follow_angle_rotate_offset_vector t) as [-> ->]
  end.
  split; reflexivity.
Qed.

(** C5.  In every reachable state, after a cycle whose duration is a
    duration, the state of the follow-angle filter lies within
    [-360, 360].  In a cycle that filters the angle (fresh estimate,
    perspective other than None), a filter state that exceeds 360 after the
    filter update is lowered by 360 together with the raw follow angle, and
    one that falls below -360 is raised by 360 together with the raw follow
    angle, before the cycle ends. *)
Theorem follow_angle_filtered_bounded sub now s :
  reachable s ->
  is_duration (_deltatime (cycle_task s)) = true ->
  let pre := follow_angle_updated sub s in
  let s' := snd (update sub now s) in
  within (- FZ 360) (FZ 360) (follow_angle_state s') = true /\
  (estimate_fresh (held_estimate sub s) = true ->
   _param_nav_ft_fs (params s) <> FOLLOW_PERSPECTIVE_NONE ->
   ((follow_angle_state pre >? FZ 360) = true ->
    follow_angle_state s' = follow_angle_state pre - FZ 360 /\
    _follow_angle_deg s' = _follow_angle_deg pre - FZ 360) /\
   ((follow_angle_state pre <? - FZ 360) = true ->
    follow_angle_state s' = follow_angle_state pre + FZ 360 /\
    _follow_angle_deg s' = _follow_angle_deg pre + FZ 360)).
Proof.
  intros Hr Hdt. cbn zeta. split.
  - apply update_bounded; [now apply reachable_bounded | exact Hdt].
  - intros Hfresh Hfs.
    destruct (follow_angle_cycle sub now s Hfresh Hfs) as [-> ->].
    apply wrap_follow_angle_spec.
Qed.

(** ** What the angle and offset block leaves alone *)

Lemma update_offset_vector_frame s :
  _target_position_filtered (update_offset_vector s)
  = _target_position_filtered s /\
  _velocity_ff_scale (update_offset_vector s) = _velocity_ff_scale s /\
  _follow_target_estimator (update_offset_vector s)
  = _follow_target_estimator s /\
  params (update_offset_vector s) = params s.
Proof.
  unfold update_offset_vector, rotate_offset_vector, wrap_follow_angle.
  cbn zeta.
  repeat match goal with |- context [if ?c then _ else _] => destruct c end;
    repeat split; reflexivity.
Qed.

Lemma filters_updated_frame sub s :
  task (filters_updated sub s) = cycle_task s /\
  params (filters_updated sub s) = params s /\
  _velocity_ff_scale (filters_updated sub s) = _velocity_ff_scale s /\
  _follow_target_estimator (filters_updated sub s) = held_estimate sub s /\
  _target_position_filtered (filters_updated sub s)
  = _target_position_filtered (filter_target_position (polled sub s)).
Proof.
  unfold filters_updated.
  destruct (update_offset_vector_frame (filter_target_position (polled sub s)))
    as (Hp & Hf & He & Hpar).
  rewrite task_update_offset_vector, task_filter_target_position, task_polled.
  rewrite Hp, Hf, He, Hpar.
  destruct sub; repeat split; reflexivity.
Qed.

(** The tracking branch is the setpoint blocks run on [filters_updated]. *)
Lemma track_target_eq sub s :
  track_target (polled sub s) =
  face_target
    (with_task emergency_ascent
       (set_setpoints (drone_desired_position (filters_updated sub s))
          (filters_updated sub s))).
Proof. reflexivity. Qed.

(** ** The offset direction (lines 108-111 and 170-173) *)

(** C6 (as amended).  In a cycle with a fresh estimate the desired
    horizontal position is the filtered target position plus the follow
    distance times an offset direction, and that direction is the filtered
    offset vector divided by its norm when the norm exceeds the
    normalisation tolerance, and the zero vector otherwise; with
    perspective None it is the zero vector. *)
Theorem desired_position_offset_direction sub s :
  let s1 := filters_updated sub s in
  let f := AlphaFilter.getState (_offset_vector_filtered s1) in
  let target := xy (AlphaFilter.getState
                      (_target_position_filtered
                         (filter_target_position (polled sub s)))) in
  let dst := _param_nav_ft_dst (params s) in
  ((norm2 f >? UNIT_OR_ZERO_EPS) = true ->
   xy (drone_desired_position s1)
   = add2 target (scale2 (div2 f (norm2 f)) dst)) /\
  ((norm2 f >? UNIT_OR_ZERO_EPS) = false ->
   xy (drone_desired_position s1) = add2 target (scale2 zero2 dst)) /\
  (_param_nav_ft_fs (params s) = FOLLOW_PERSPECTIVE_NONE ->
   xy (drone_desired_position s1) = add2 target (scale2 zero2 dst)).
Proof.
  cbn zeta.
  assert (Hd : forall u,
             offset_direction (filters_updated sub s) = u ->
             xy (drone_desired_position (filters_updated sub s))
             = add2
                 (xy (AlphaFilter.getState
                        (_target_position_filtered
                           (filter_target_position (polled sub s)))))
                 (scale2 u (_param_nav_ft_dst (params s)))).
  { intros u Hu. unfold drone_desired_position. rewrite Hu.
    destruct (filters_updated_frame sub s) as (_ & -> & _ & _ & ->).
    reflexivity. }
  split; [|split].
  - intros Hn. apply Hd. unfold offset_direction, unit_or_zero.
    now rewrite Hn.
  - intros Hn. apply Hd. unfold offset_direction, unit_or_zero.
    now rewrite Hn.
  - intros Hnone. apply Hd.
    unfold offset_direction, unit_or_zero, filters_updated,
      update_offset_vector.
    rewrite params_filter_target_position.
    replace (params (polled sub s)) with (params s)
      by (destruct sub; reflexivity).
    rewrite Hnone. cbn [Z.eqb FOLLOW_PERSPECTIVE_NONE].
    cbn [set_offset_vector_filtered _offset_vector_filtered AlphaFilter.reset
         AlphaFilter.getState AlphaFilter._filter_state].
    destruct (norm2 zero2 >? UNIT_OR_ZERO_EPS) eqn:Hn; [|reflexivity].
    destruct (norm2 zero2) as [| | |n]; try discriminate.
    + reflexivity.
    + unfold UNIT_OR_ZERO_EPS in Hn. finite_cmp.
      unfold div2, zero2, FZ. cbn [x2 y2 fdiv].
      rewrite Qsign_pos by lra.
      rewrite (Qred_complete (inject_Z 0 / n) 0) by (unfold Qdiv; ring).
      reflexivity.
Qed.

(** ** The desired altitude (lines 178-191) *)

(** C7.  In a cycle with a fresh estimate the desired altitude is, in mode
    TrackTarget, the filtered target altitude minus the minimum height; in
    mode Constant and for every other value of the mode it is the lesser of
    the altitude of the position setpoint the cycle started with and the
    negated minimum height. *)
Theorem desired_altitude_by_mode sub s :
  let alt := z3 (drone_desired_position (filters_updated sub s)) in
  let mode := _param_nav_ft_alt_m (params s) in
  let lesser := math_min (z3 (_position_setpoint (cycle_task s)))
                         (- _param_nav_min_ft_ht (params s)) in
  (mode = FOLLOW_ALTITUDE_MODE_TRACK_TARGET ->
   alt = z3 (AlphaFilter.getState
               (_target_position_filtered
                  (filter_target_position (polled sub s))))
         - _param_nav_min_ft_ht (params s)) /\
  (mode = FOLLOW_ALTITUDE_MODE_CONSTANT -> alt = lesser) /\
  (mode <> FOLLOW_ALTITUDE_MODE_TRACK_TARGET ->
   mode <> FOLLOW_ALTITUDE_MODE_CONSTANT -> alt = lesser).
Proof.
  cbn zeta. unfold drone_desired_position, desired_altitude.
  cbn [set_z z3].
  destruct (filters_updated_frame sub s) as (-> & -> & _ & _ & ->).
  repeat split.
  - intros ->. reflexivity.
  - intros ->. reflexivity.
  - intros Hm _. destruct (_ =? _)%Z eqn:E; [|reflexivity].
    apply Z.eqb_eq in E. contradiction.
Qed.

(** ** The setpoint block (lines 193-225) *)

Lemma set_setpoints_on_altitude d s :
  isfinite3 d = true ->
  (fabsf (z3 d - z3 (_position (task s))) <? ALT_ACCEPTANCE_THRESHOLD) = true ->
  let s' := set_setpoints d s in
  _velocity_ff_scale s' =
    AlphaFilter.update
      (if norm3 (v_ned_est (_follow_target_estimator s))
          >=? MINIMUM_SPEED_FOR_HEADING_CHANGE
       then FZ 1 else FZ 0)
      (AlphaFilter.setParameters (_deltatime (task s))
         VELOCITY_FF_FILTER_ALPHA (_velocity_ff_scale s)) /\
  _velocity_setpoint (task s') =
    scale3 (div3 (sub3 d (_position_setpoint (task s))) (_deltatime (task s)))
           (AlphaFilter.getState (_velocity_ff_scale s)) /\
  _position_setpoint (task s') = d.
Proof.
  intros Hfin Halt. cbn zeta. unfold set_setpoints. rewrite Hfin, Halt.
  repeat split; reflexivity.
Qed.

Lemma emergency_ascent_clear b :
  PX4_ISFINITE (_dist_to_bottom b)
  && (_dist_to_bottom b <? MINIMUM_SAFETY_ALTITUDE) = false ->
  emergency_ascent b = b.
Proof. intros H. unfold emergency_ascent. now rewrite H. Qed.

Lemma velocity_ff_scale_face_target s :
  _velocity_ff_scale (face_target s) = _velocity_ff_scale s.
Proof. unfold face_target. destruct (_ >=? _); reflexivity. Qed.

(** C9.  In a cycle with a fresh estimate whose desired position is finite
    and whose altitude error is within the acceptance band, the setpoint
    block moves the feed-forward scale filter towards 1 when the target's
    speed is at least the heading-change threshold and towards 0 otherwise,
    sets the velocity setpoint to (desired position - previous position
    setpoint) / dt times the filtered feed-forward scale, and makes the
    desired position the position setpoint.  The filter keeps that state to
    the end of the cycle, and so do the two setpoints unless the emergency
    ascent replaces them. *)
Theorem feed_forward_setpoints sub now s :
  let s1 := filters_updated sub s in
  let d := drone_desired_position s1 in
  let s2 := set_setpoints d s1 in
  let s' := snd (update sub now s) in
  let dt := _deltatime (cycle_task s) in
  let alpha := dt / (VELOCITY_FF_FILTER_ALPHA + dt) in
  let scale := AlphaFilter.getState (_velocity_ff_scale s) in
  let speed := norm3 (v_ned_est (held_estimate sub s)) in
  let dist := _dist_to_bottom (cycle_task s) in
  estimate_fresh (held_estimate sub s) = true ->
  isfinite3 d = true ->
  (fabsf (z3 d - z3 (_position (cycle_task s))) <? ALT_ACCEPTANCE_THRESHOLD)
  = true ->
  (((speed >=? MINIMUM_SPEED_FOR_HEADING_CHANGE) = true ->
    AlphaFilter.getState (_velocity_ff_scale s2)
    = scale * (FZ 1 - alpha) + FZ 1 * alpha) /\
   ((speed >=? MINIMUM_SPEED_FOR_HEADING_CHANGE) = false ->
    AlphaFilter.getState (_velocity_ff_scale s2)
    = scale * (FZ 1 - alpha) + FZ 0 * alpha) /\
   _velocity_setpoint (task s2)
   = scale3 (div3 (sub3 d (_position_setpoint (cycle_task s))) dt) scale /\
   _position_setpoint (task s2) = d) /\
  _velocity_ff_scale s' = _velocity_ff_scale s2 /\
  (PX4_ISFINITE dist && (dist <? MINIMUM_SAFETY_ALTITUDE) = false ->
   _velocity_setpoint (task s') = _velocity_setpoint (task s2) /\
   _position_setpoint (task s') = d).
Proof.
  cbn zeta. intros Hfresh Hfin Halt.
  destruct (filters_updated_frame sub s) as (Ht & _ & Hff & He & _).
  rewrite <- Ht in Halt.
  destruct (set_setpoints_on_altitude _ _ Hfin Halt) as (Hs & Hv & Hp).
  split; [|split].
  - rewrite Hs, Hv, Hp, Ht, Hff, He.
    repeat split; intros ->; reflexivity.
  - rewrite update_eq, Hfresh. cbn zeta. cbn [snd].
    rewrite track_target_eq.
    cbn [with_task _velocity_ff_scale].
    now rewrite velocity_ff_scale_face_target.
  - intros Hclear. rewrite update_eq, Hfresh. cbn zeta. cbn [snd].
    rewrite track_target_eq.
    cbn [with_task task _velocity_setpoint _position_setpoint
         set_want_takeoff].
    match goal with
    | |- context [face_target ?t] =>
        destruct (setpoints_face_target t) as [-> ->]
    end.
    cbn [with_task task].
    rewrite emergency_ascent_clear.
    + split; [reflexivity | exact Hp].
    + destruct (vehicle_set_setpoints
                  (drone_desired_position (filters_updated sub s))
                  (filters_updated sub s)) as [-> _].
      rewrite Ht. exact Hclear.
Qed.

(** ** Activation *)

(** C8 (the code at a failing input).  [activate] resets the
    target-position filter to all-NaN, the follow-angle filter to 0, the
    feed-forward scale filter to 0 and the yaw-speed setpoint to 0, and
    returns what the base-class activation returned.  The offset-vector
    filter, for a yaw with finite cosine and sine, is reset to
    (cos yaw, -sin yaw): the north component of the heading unit vector
    and the negated east component.  Whenever the vehicle does not face
    due north or south (sin yaw is not 0) this is not the heading unit
    vector (cos yaw, sin yaw). *)
Theorem activate_offset_mirrors_heading last_setpoint s c sn :
  let b := snd (FlightTask_activate last_setpoint (task s)) in
  let s' := snd (activate last_setpoint s) in
  let offset := AlphaFilter.getState (_offset_vector_filtered s') in
  cos (_yaw b) = Fin c ->
  sin (_yaw b) = Fin sn ->
  (offset = V2 (Fin c) (Fin (- sn)) /\
   x2 offset = x2 (heading_2d (_yaw b)) /\
   (~ (sn == 0)%Q -> feqb (y2 offset) (y2 (heading_2d (_yaw b))) = false)) /\
  AlphaFilter.getState (_target_position_filtered s') = V3 NaN NaN NaN /\
  AlphaFilter.getState (_follow_angle_filtered s') = FZ 0 /\
  AlphaFilter.getState (_velocity_ff_scale s') = FZ 0 /\
  _yawspeed_setpoint (task s') = FZ 0 /\
  fst (activate last_setpoint s)
  = fst (FlightTask_activate last_setpoint (task s)).
Proof.
  cbn zeta. unfold activate, heading_2d.
  destruct (FlightTask_activate last_setpoint (task s)) as [ret b].
  cbn zeta. cbn [fst snd]. intros Hc Hs.
  set (k := negb _ || negb _ || negb _).
  destruct k; cbn; rewrite Hc, Hs; cbn;
    (split; [|repeat split; reflexivity]);
    (split; [reflexivity|]; split; [reflexivity|]);
    intros Hsn; apply not_true_iff_false; intros Heq;
    apply Qeq_bool_iff in Heq; apply Hsn; lra.
Qed.

End Properties.

(** * Further properties of the two methods *)

Section MoreProperties.
Context {libm : Libm} {base : FlightTaskBase}.

(** Boolean comparisons of finite values as rational inequalities, with
    the lowest-terms normalisation removed. *)
Ltac finite_ineq :=
  cbn [flt fle fgt fge fadd fsub fneg fmul fabsf FZ] in *;
  repeat match goal with
    | H : Qltb _ _ = true |- _ => apply Qltb_lt in H
    | H : Qltb _ _ = false |- _ => apply Qltb_ge in H
    | H : Qle_bool _ _ = true |- _ => apply Qle_bool_iff in H
    | H : Qle_bool _ _ = false |- _ => apply Qle_bool_gt in H
    | |- Qltb _ _ = true => apply Qltb_lt
    | |- Qltb _ _ = false => apply Qltb_ge
    | |- Qle_bool _ _ = true => apply Qle_bool_iff
    | |- Qle_bool _ _ = false => apply Qle_bool_gt
    end;
  unfold inject_Z in *;
  repeat match goal with
    | H : context [Qred ?q] |- _ => rewrite (Qred_correct q) in H
    end;
  rewrite ?Qred_correct.

(** ** The perspective table (lines 264-301) *)

(** X1.  Every value of NAV_FT_FS outside Front .. Behind-Left (None,
    Behind, Middle-Follow, Invalid, anything negative or larger) selects
    the angle of Behind, 180; and every angle of the table is a multiple of
    45 between 0 and 315. *)
Theorem follow_me_angle_fallback fs :
  ((fs < FOLLOW_PERSPECTIVE_FRONT \/ FOLLOW_PERSPECTIVE_BEHIND_LEFT < fs)%Z ->
   update_follow_me_angle_setting fs = FZ 180) /\
  exists k, (0 <= k <= 7)%Z /\ update_follow_me_angle_setting fs = FZ (45 * k).
Proof.
  unfold update_follow_me_angle_setting. split.
  - intros Hout.
    repeat match goal with
      | |- context [(?a =? ?b)%Z] =>
          destruct (Z.eqb_spec a b); [try reflexivity|]
      end;
      try reflexivity;
      exfalso;
      unfold FOLLOW_PERSPECTIVE_FRONT, FOLLOW_PERSPECTIVE_BEHIND_LEFT,
        FOLLOW_PERSPECTIVE_FRONT_RIGHT, FOLLOW_PERSPECTIVE_FRONT_LEFT,
        FOLLOW_PERSPECTIVE_MID_RIGHT, FOLLOW_PERSPECTIVE_MID_LEFT,
        FOLLOW_PERSPECTIVE_BEHIND_RIGHT in *; lia.
  - repeat match goal with
      | |- context [(?a =? ?b)%Z] => destruct (a =? b)%Z
      end;
      [exists 4%Z | exists 0%Z | exists 1%Z | exists 7%Z | exists 2%Z
      | exists 6%Z | exists 3%Z | exists 5%Z | exists 4%Z | exists 4%Z];
      (split; [lia | reflexivity]).
Qed.

(** ** The angle block (lines 114-146) *)

(** X2.  Once assigned, the raw follow angle is settled: running the
    shortest-rotation step again with the same perspective angle assigns
    the same raw angle, whatever the raw angle was before. *)
Theorem unwrap_follow_angle_settled theta p :
  unwrap_follow_angle (unwrap_follow_angle theta (Fin p)) (Fin p)
  = unwrap_follow_angle theta (Fin p).
Proof.
  destruct (unwrap_follow_angle_cases theta (Fin p)) as [E | [E | E]];
    rewrite E; unfold unwrap_follow_angle.
  - assert (H1 : (Fin p - Fin p >? FZ 180) = false) by (finite_ineq; lra).
    assert (H2 : (Fin p - Fin p <? - FZ 180) = false) by (finite_ineq; lra).
    now rewrite H1, H2.
  - assert (H1 : (Fin p + FZ 360 - Fin p >? FZ 180) = true)
      by (finite_ineq; lra).
    now rewrite H1.
  - assert (H1 : (Fin p - FZ 360 - Fin p >? FZ 180) = false)
      by (finite_ineq; lra).
    assert (H2 : (Fin p - FZ 360 - Fin p <? - FZ 180) = true)
      by (finite_ineq; lra).
    now rewrite H1, H2.
Qed.

(** X22.  Within a turn and a half of the perspective angle the
    shortest-rotation step does what its comment says: for a raw angle
    theta and a perspective angle phi with |theta - phi| <= 540, the
    assigned angle is phi, phi + 360 or phi - 360 and lies within 180 of
    theta. *)
Theorem unwrap_follow_angle_shortest_rotation (t p : Q) :
  (-540 <= t - p <= 540)%Q ->
  exists r k,
    unwrap_follow_angle (Fin t) (Fin p) = Fin r /\
    (r == p + 360 * inject_Z k)%Q /\ (-1 <= k <= 1)%Z /\
    (Qabs (t - r) <= 180)%Q.
Proof.
  intros [Hlo Hhi]. unfold unwrap_follow_angle.
  destruct (Fin t - Fin p >? FZ 180) eqn:Hgt;
    [|destruct (Fin t - Fin p <? - FZ 180) eqn:Hlt];
    finite_ineq; cbn [fadd fsub fneg FZ];
    eexists; [exists 1%Z | exists (-1)%Z | exists 0%Z];
    (split; [reflexivity|]);
    rewrite ?Qred_correct; unfold inject_Z;
    (split; [ring|]; split; [lia|]);
    apply Qabs_Qle_condition; split; lra.
Qed.

(** X3.  The wrap of lines 138-146 is bookkeeping only: it moves the
    filtered angle by a whole turn or not at all, and the raw angle with
    it, so that the distance the filter still has to go is the same. *)
Theorem wrap_follow_angle_keeps_error s q x :
  follow_angle_state s = Fin q ->
  _follow_angle_deg s = Fin x ->
  exists q' x',
    follow_angle_state (wrap_follow_angle s) = Fin q' /\
    _follow_angle_deg (wrap_follow_angle s) = Fin x' /\
    (x' - q' == x - q)%Q /\
    (q' == q \/ q' == q - 360 \/ q' == q + 360)%Q.
Proof.
  intros Hq Hx. unfold wrap_follow_angle.
  fold (follow_angle_state s). rewrite Hq, Hx.
  destruct (Fin q >? FZ 360); [|destruct (Fin q <? - FZ 360)].
  - exists (Qred (q + - inject_Z 360)), (Qred (x + - inject_Z 360)).
    split; [reflexivity|]. split; [reflexivity|].
    rewrite !Qred_correct. unfold inject_Z. split; [ring | right; left; ring].
  - exists (Qred (q + inject_Z 360)), (Qred (x + inject_Z 360)).
    split; [reflexivity|]. split; [reflexivity|].
    rewrite !Qred_correct. unfold inject_Z. split; [ring | right; right; ring].
  - exists q, x.
    split; [exact Hq|]. split; [exact Hx|].
    split; [reflexivity | left; reflexivity].
Qed.

Lemma wrap_follow_angle_deg_cases s :
  _follow_angle_deg (wrap_follow_angle s) = _follow_angle_deg s \/
  _follow_angle_deg (wrap_follow_angle s) = _follow_angle_deg s - FZ 360 \/
  _follow_angle_deg (wrap_follow_angle s) = _follow_angle_deg s + FZ 360.
Proof.
  unfold wrap_follow_angle.
  destruct (_ >? _); [auto|]. destruct (_ <? _); auto.
Qed.

(** The state the angle block starts from has the angle members, the
    parameters and the cycle duration of the state the cycle started
    with. *)
Lemma follow_angle_updated_eq sub s :
  follow_angle_updated sub s =
  filter_follow_angle
    (set_follow_angle_deg
       (unwrap_follow_angle (_follow_angle_deg s)
          (update_follow_me_angle_setting (_param_nav_ft_fs (params s))))
       (filter_target_position (polled sub s))) /\
  _follow_angle_filtered (filter_target_position (polled sub s))
  = _follow_angle_filtered s /\
  _deltatime (task (filter_target_position (polled sub s)))
  = _deltatime (cycle_task s).
Proof.
  unfold follow_angle_updated. rewrite task_filter_target_position, task_polled.
  destruct sub; repeat split; reflexivity.
Qed.

(** X4.  In a cycle that runs the angle block (fresh estimate, perspective
    other than None) the raw follow angle ends up congruent modulo 360 to
    the angle of the selected perspective, at most two turns away from
    it. *)
Theorem follow_angle_deg_congruent sub now s :
  estimate_fresh (held_estimate sub s) = true ->
  _param_nav_ft_fs (params s) <> FOLLOW_PERSPECTIVE_NONE ->
  exists p r k,
    update_follow_me_angle_setting (_param_nav_ft_fs (params s)) = Fin p /\
    _follow_angle_deg (snd (update sub now s)) = Fin r /\
    (r == p + 360 * inject_Z k)%Q /\ (-2 <= k <= 2)%Z.
Proof.
  intros Hfresh Hfs.
  destruct (follow_angle_cycle sub now s Hfresh Hfs) as [_ Hraw].
  cbn zeta in Hraw. rewrite Hraw.
  destruct (follow_angle_updated_eq sub s) as (Hpre & _ & _).
  destruct (follow_me_angle_range (_param_nav_ft_fs (params s)))
    as (p & Hp & _).
  exists p.
  assert (Hu : _follow_angle_deg (follow_angle_updated sub s)
               = unwrap_follow_angle (_follow_angle_deg s) (Fin p))
    by (rewrite Hpre, Hp; reflexivity).
  destruct (wrap_follow_angle_deg_cases (follow_angle_updated sub s))
    as [E | [E | E]];
    rewrite E, Hu;
    destruct (unwrap_follow_angle_cases (_follow_angle_deg s) (Fin p))
      as [U | [U | U]];
    rewrite U; cbn [fadd fsub fneg FZ];
    eexists; [exists 0%Z | exists 1%Z | exists (-1)%Z
             | exists (-1)%Z | exists 0%Z | exists (-2)%Z
             | exists 1%Z | exists 2%Z | exists 0%Z];
    (split; [exact Hp|]; split; [reflexivity|]; split; [|lia];
     rewrite ?Qred_correct; unfold inject_Z; ring).
Qed.

(** What one update of a filter computes, for finite state and sample and
    a cycle duration: a convex combination. *)
Lemma filter_update_value al (q x d tau : Q) :
  (0 <= d)%Q -> (0 < tau)%Q ->
  exists y a,
    AlphaFilter.getState
      (AlphaFilter.update (Fin x)
         (AlphaFilter.setParameters (Fin d) (Fin tau)
            (AlphaFilter.mk al (Fin q)))) = Fin y
    /\ (0 <= a <= 1)%Q /\ (y == q * (1 - a) + x * a)%Q.
Proof.
  intros Hd Htau.
  destruct (blend_coefficient d tau Hd Htau) as (a & Ha & Ha01).
  unfold AlphaFilter.update, AlphaFilter.setParameters, AlphaFilter.getState.
  cbn [AlphaFilter._alpha AlphaFilter._filter_state blend_add blend_scale
       Blend_float].
  rewrite Ha. cbn [fsub fneg fadd fmul FZ].
  eexists. exists a. split; [reflexivity|]. split; [exact Ha01|].
  rewrite !Qred_correct. unfold inject_Z. ring.
Qed.

(** X5.  In a reachable state, a cycle that runs the angle block with a
    cycle duration that is a duration leaves the raw follow angle within
    [-360, 675]: the wrap only ever lowers a raw angle that is above 360. *)
Theorem follow_angle_deg_bounded sub now s :
  reachable s ->
  is_duration (_deltatime (cycle_task s)) = true ->
  estimate_fresh (held_estimate sub s) = true ->
  _param_nav_ft_fs (params s) <> FOLLOW_PERSPECTIVE_NONE ->
  within (- FZ 360) (FZ 675) (_follow_angle_deg (snd (update sub now s)))
  = true.
Proof.
  intros Hr Hdt Hfresh Hfs.
  apply reachable_bounded, within_turn_iff in Hr.
  destruct Hr as (q & Hq & Hqr).
  apply is_duration_iff in Hdt. destruct Hdt as (d & Hd & Hdr).
  destruct (follow_angle_cycle sub now s Hfresh Hfs) as [_ Hraw].
  cbn zeta in Hraw. rewrite Hraw. clear Hraw.
  destruct (follow_angle_updated_eq sub s) as (Hpre & Hf & Hdt).
  destruct (follow_me_angle_range (_param_nav_ft_fs (params s)))
    as (p & Hp & Hpr).
  destruct (unwrap_follow_angle_range (_follow_angle_deg s) p Hpr)
    as (x & Hx & Hxr).
  rewrite Hp, Hx in Hpre.
  assert (Hst : exists y a,
             follow_angle_state (follow_angle_updated sub s) = Fin y /\
             (0 <= a <= 1)%Q /\ (y == q * (1 - a) + x * a)%Q).
  { rewrite Hpre. unfold follow_angle_state, filter_follow_angle.
    cbn [_follow_angle_filtered set_follow_angle_filtered
         set_follow_angle_deg _follow_angle_deg task].
    rewrite Hdt, Hd.
    unfold follow_angle_state in Hq. rewrite <- Hf in Hq.
    destruct (_follow_angle_filtered (filter_target_position (polled sub s)))
      as [al st].
    cbn in Hq. subst st.
    apply (filter_update_value al q x d 3); [exact Hdr | reflexivity]. }
  destruct Hst as (y & a & Hy & Ha & Hya).
  assert (Hrawpre : _follow_angle_deg (follow_angle_updated sub s) = Fin x)
    by (rewrite Hpre; reflexivity).
  unfold wrap_follow_angle.
  fold (follow_angle_state (follow_angle_updated sub s)).
  rewrite Hy, Hrawpre.
  unfold within.
  destruct (Fin y >? FZ 360) eqn:Hgt;
    [|destruct (Fin y <? - FZ 360) eqn:Hlt];
    cbn [_follow_angle_deg set_follow_angle_deg set_follow_angle_filtered];
    rewrite ?Hrawpre; apply andb_true_iff; finite_ineq;
    split; finite_ineq; nra.
Qed.

(** ** What a cycle with a fresh estimate does to each member *)

Lemma fresh_update_eq sub now s :
  estimate_fresh (held_estimate sub s) = true ->
  snd (update sub now s) =
  with_task (fun b => set_want_takeoff (_checkTakeoff b) b)
    (face_target
       (with_task emergency_ascent
          (set_setpoints (drone_desired_position (filters_updated sub s))
             (filters_updated sub s)))).
Proof.
  intros Hfresh. rewrite update_eq, Hfresh. reflexivity.
Qed.

Lemma set_setpoints_members d s :
  _target_position_filtered (set_setpoints d s) = _target_position_filtered s /\
  _target_velocity_unit_vector (set_setpoints d s)
  = _target_velocity_unit_vector s /\
  _offset_vector_filtered (set_setpoints d s) = _offset_vector_filtered s /\
  _yaw_setpoint (task (set_setpoints d s)) = _yaw_setpoint (task s).
Proof.
  unfold set_setpoints.
  destruct (isfinite3 d); [destruct (_ <? _)|]; repeat split; reflexivity.
Qed.

Lemma face_target_members s :
  _target_position_filtered (face_target s) = _target_position_filtered s /\
  _target_velocity_unit_vector (face_target s)
  = _target_velocity_unit_vector s /\
  _offset_vector_filtered (face_target s) = _offset_vector_filtered s.
Proof.
  unfold face_target. destruct (_ >=? _); repeat split; reflexivity.
Qed.

Lemma fresh_update_members sub now s :
  estimate_fresh (held_estimate sub s) = true ->
  let s1 := filters_updated sub s in
  let s' := snd (update sub now s) in
  _target_position_filtered s'
  = _target_position_filtered (filter_target_position (polled sub s)) /\
  _target_velocity_unit_vector s' = _target_velocity_unit_vector s1 /\
  _offset_vector_filtered s' = _offset_vector_filtered s1 /\
  _velocity_ff_scale s'
  = _velocity_ff_scale (set_setpoints (drone_desired_position s1) s1).
Proof.
  intros Hfresh. cbn zeta. rewrite (fresh_update_eq sub now s Hfresh).
  cbn [with_task _target_position_filtered _target_velocity_unit_vector
       _offset_vector_filtered _velocity_ff_scale].
  match goal with
  | |- context [face_target ?t] =>
      destruct (face_target_members t) as (-> & -> & ->);
      rewrite (velocity_ff_scale_face_target t)
  end.
  cbn [with_task _target_position_filtered _target_velocity_unit_vector
       _offset_vector_filtered _velocity_ff_scale].
  destruct (set_setpoints_members
              (drone_desired_position (filters_updated sub s))
              (filters_updated sub s)) as (-> & -> & -> & _).
  destruct (filters_updated_frame sub s) as (_ & _ & _ & _ & ->).
  repeat split; reflexivity.
Qed.

Lemma stale_update_eq sub now s :
  estimate_fresh (held_estimate sub s) = false ->
  snd (update sub now s) =
  with_task (fun b => set_want_takeoff (_checkTakeoff b) b)
    (hold_position (polled sub s)).
Proof.
  intros Hstale. rewrite update_eq, Hstale. reflexivity.
Qed.

(** ** The feed-forward scale (lines 60, 194-225) *)

Lemma within_iff (lo hi : Q) a :
  within (Fin lo) (Fin hi) a = true <->
  exists q, a = Fin q /\ (lo <= q <= hi)%Q.
Proof.
  unfold within. rewrite andb_true_iff. split.
  - intros [Hlo Hhi]. destruct a; try discriminate.
    finite_ineq. eexists; split; [reflexivity | lra].
  - intros (q & -> & Hlo & Hhi). split; finite_ineq; lra.
Qed.

Lemma set_setpoints_ff_scale d s :
  exists t, (t = 0 \/ t = 1)%Z /\
    _velocity_ff_scale (set_setpoints d s) =
    AlphaFilter.update (FZ t)
      (AlphaFilter.setParameters (_deltatime (task s))
         VELOCITY_FF_FILTER_ALPHA (_velocity_ff_scale s)).
Proof.
  unfold set_setpoints.
  destruct (isfinite3 d); [destruct (_ <? _); [destruct (_ >=? _)|]|];
    [exists 1%Z | exists 0%Z | exists 0%Z | exists 0%Z];
    (split; [lia | reflexivity]).
Qed.

Lemma update_ff_scale_unit sub now s :
  within (FZ 0) (FZ 1) (AlphaFilter.getState (_velocity_ff_scale s)) = true ->
  is_duration (_deltatime (cycle_task s)) = true ->
  within (FZ 0) (FZ 1)
    (AlphaFilter.getState (_velocity_ff_scale (snd (update sub now s))))
  = true.
Proof.
  intros Hin Hdt.
  destruct (estimate_fresh (held_estimate sub s)) eqn:Hfresh.
  - destruct (fresh_update_members sub now s Hfresh) as (_ & _ & _ & ->).
    destruct (set_setpoints_ff_scale
                (drone_desired_position (filters_updated sub s))
                (filters_updated sub s)) as (t & Ht & ->).
    destruct (filters_updated_frame sub s) as (-> & _ & -> & _ & _).
    apply within_iff in Hin. destruct Hin as (q & Hq & Hqr).
    apply is_duration_iff in Hdt. destruct Hdt as (d & -> & Hdr).
    destruct (_velocity_ff_scale s) as [al st]. cbn in Hq. subst st.
    apply within_iff.
    destruct (filter_update_value al q (inject_Z t) d 1 Hdr eq_refl)
      as (y & a & Hy & Ha & Hya).
    exists y. split; [exact Hy|].
    unfold inject_Z in *. destruct Ht; subst t; nra.
  - rewrite (stale_update_eq sub now s Hfresh).
    destruct sub; exact Hin.
Qed.

(** X6.  In every reachable state the feed-forward scale lies within
    [0, 1], the range the header gives for it. *)
Theorem velocity_ff_scale_unit s :
  reachable s ->
  within (FZ 0) (FZ 1) (AlphaFilter.getState (_velocity_ff_scale s)) = true.
Proof.
  induction 1 as [sp s0 | sub now s Hr IH Hdt | b p s Hr IH].
  - unfold activate.
    destruct (FlightTask_activate sp (task s0)) as [ret b]. cbn zeta.
    repeat match goal with |- context [if ?c then _ else _] => destruct c end;
      reflexivity.
  - now apply update_ff_scale_unit.
  - exact IH.
Qed.

(** ** The target position filter (lines 94-106) *)

Lemma finite3_inv v :
  isfinite3 v = true -> exists a b c, v = V3 (Fin a) (Fin b) (Fin c).
Proof.
  destruct v as [[| | |a] [| | |b] [| | |c]]; try discriminate.
  intros _. now exists a, b, c.
Qed.

(** The filtered position is finite as soon as the estimate fed to it is:
    a state that is not finite is replaced by the estimate first. *)
Lemma filter_target_position_finite s d :
  isfinite3 (x_ned_est (_follow_target_estimator s)) = true ->
  isfinite3 (v_ned_est (_follow_target_estimator s)) = true ->
  isfinite3 (a_ned_est (_follow_target_estimator s)) = true ->
  _deltatime (task s) = Fin d -> (0 <= d)%Q ->
  isfinite3
    (AlphaFilter.getState (_target_position_filtered (filter_target_position s)))
  = true.
Proof.
  intros Hx Hv Ha Hdt Hd. unfold filter_target_position.
  cbn [_target_position_filtered set_target_position_filtered].
  rewrite Hdt.
  destruct (finite3_inv _ Hx) as (x1 & x2 & x3 & ->).
  destruct (finite3_inv _ Hv) as (v1 & v2 & v3 & ->).
  destruct (finite3_inv _ Ha) as (a1 & a2 & a3 & ->).
  destruct (blend_coefficient d (3 # 2) Hd eq_refl) as (al & Hal & _).
  set (c := negb _ || negb _ || negb _).
  assert (Hst : exists st,
             isfinite3 (AlphaFilter._filter_state st) = true /\
             (if c then AlphaFilter.reset (V3 (Fin x1) (Fin x2) (Fin x3))
                         (_target_position_filtered s)
              else _target_position_filtered s) = st).
  { destruct c eqn:Hc; eexists; (split; [|reflexivity]); [reflexivity|].
    unfold c in Hc. unfold AlphaFilter.getState in Hc.
    destruct (AlphaFilter._filter_state (_target_position_filtered s))
      as [[| | |a] [| | |b] [| | |e]]; try discriminate Hc.
    reflexivity. }
  destruct Hst as ([al0 st] & Hfin & ->).
  cbn [AlphaFilter._filter_state] in Hfin.
  destruct (finite3_inv _ Hfin) as (q1 & q2 & q3 & ->).
  unfold AlphaFilter.update, AlphaFilter.setParameters, AlphaFilter.getState.
  cbn [AlphaFilter._alpha AlphaFilter._filter_state].
  unfold POSITION_FILTER_ALPHA. rewrite Hal. reflexivity.
Qed.

Lemma bounded3_iff B v :
  bounded3 B v = true <->
  exists a b c, v = V3 (Fin a) (Fin b) (Fin c) /\
    (- B <= a <= B)%Q /\ (- B <= b <= B)%Q /\ (- B <= c <= B)%Q.
Proof.
  unfold bounded3. rewrite !andb_true_iff, !within_iff. split.
  - intros [[(a & Ha & Hab) (b & Hb & Hbb)] (c & Hc & Hcb)].
    exists a, b, c. destruct v as [x y z]. cbn in Ha, Hb, Hc. subst.
    repeat split; tauto.
  - intros (a & b & c & -> & Ha & Hb & Hc). cbn [x3 y3 z3].
    repeat split; eexists; (split; [reflexivity | assumption]).
Qed.

(** One component of the position filter fed the prediction over the
    horizon of 1.5 s. *)
Lemma blend_bounded (B q x v acc al : Q) :
  (- (4 * B) <= q <= 4 * B)%Q ->
  (- B <= x <= B)%Q -> (- B <= v <= B)%Q -> (- B <= acc <= B)%Q ->
  (0 <= al <= 1)%Q ->
  exists r,
    Fin q * (FZ 1 - Fin al)
    + (Fin x + Fin v * Fin (3 # 2)
       + Fin acc * Fin (1 # 2) * Fin (3 # 2) * Fin (3 # 2)) * Fin al
    = Fin r /\ (- (4 * B) <= r <= 4 * B)%Q.
Proof.
  intros Hq Hx Hv Hacc Hal. cbn [fadd fsub fneg fmul FZ].
  eexists. split; [reflexivity|].
  rewrite !Qred_correct. unfold inject_Z. nra.
Qed.

(** X7.  The target position filter does not blow up: with a fresh
    estimate whose position, velocity and acceleration components lie
    within [-B, B] for some B up to 2^100, a cycle duration that is a
    duration, and a filtered position that is not finite (as after
    activation) or within [-4B, 4B], the cycle leaves a finite filtered
    position within [-5B, 5B] (within [-4B, 4B] in exact arithmetic; the
    slack is for rounding), and the status message of the cycle carries
    that position. *)
Theorem target_position_filtered_bounded sub now s B :
  let e := held_estimate sub s in
  let st := AlphaFilter.getState (_target_position_filtered s) in
  let st' := AlphaFilter.getState
               (_target_position_filtered (snd (update sub now s))) in
  let published := snd (fst (update sub now s)) in
  estimate_fresh e = true ->
  (B <= NO_OVERFLOW)%Q ->
  bounded3 B (x_ned_est e) = true ->
  bounded3 B (v_ned_est e) = true ->
  bounded3 B (a_ned_est e) = true ->
  is_duration (_deltatime (cycle_task s)) = true ->
  (isfinite3 st = false \/ bounded3 (4 * B) st = true) ->
  isfinite3 st' = true /\
  bounded3 (5 * B) st' = true /\
  V3 (x_est_filtered published) (y_est_filtered published)
     (z_est_filtered published) = st'.
Proof.
  cbn zeta. intros Hfresh _ Hx Hv Ha Hdt Hst.
  apply is_duration_iff in Hdt. destruct Hdt as (d & Hd & Hdr).
  apply bounded3_iff in Hx. destruct Hx as (px & py & pz & Hx & Hx1 & Hx2 & Hx3).
  apply bounded3_iff in Hv. destruct Hv as (v1 & v2 & v3 & Hv & Hv1 & Hv2 & Hv3).
  apply bounded3_iff in Ha. destruct Ha as (a1 & a2 & a3 & Ha & Ha1 & Ha2 & Ha3).
  assert (Hpub : snd (fst (update sub now s))
                 = follow_target_status now
                     (face_target
                        (with_task emergency_ascent
                           (set_setpoints
                              (drone_desired_position (filters_updated sub s))
                              (filters_updated sub s)))))
    by (rewrite update_eq, Hfresh; reflexivity).
  destruct (fresh_update_members sub now s Hfresh) as (Hp & _).
  cbn zeta in Hp.
  assert (Hb : exists r1 r2 r3,
             AlphaFilter.getState
               (_target_position_filtered
                  (filter_target_position (polled sub s)))
             = V3 (Fin r1) (Fin r2) (Fin r3) /\
             (- (4 * B) <= r1 <= 4 * B)%Q /\
             (- (4 * B) <= r2 <= 4 * B)%Q /\
             (- (4 * B) <= r3 <= 4 * B)%Q).
  { unfold filter_target_position.
    cbn [_target_position_filtered set_target_position_filtered].
    rewrite held_estimate_polled, task_polled, Hx, Hv, Ha, Hd.
    replace (_target_position_filtered (polled sub s))
      with (_target_position_filtered s) by (destruct sub; reflexivity).
    destruct (blend_coefficient d (3 # 2) Hdr eq_refl) as (al & Hal & Hal01).
    assert (Hseed : exists al0 q1 q2 q3,
               (if negb (PX4_ISFINITE
                           (x3 (AlphaFilter.getState
                                  (_target_position_filtered s))))
                   || negb (PX4_ISFINITE
                              (y3 (AlphaFilter.getState
                                     (_target_position_filtered s))))
                   || negb (PX4_ISFINITE
                              (z3 (AlphaFilter.getState
                                     (_target_position_filtered s))))
                then AlphaFilter.reset (V3 (Fin px) (Fin py) (Fin pz))
                       (_target_position_filtered s)
                else _target_position_filtered s)
               = AlphaFilter.mk al0 (V3 (Fin q1) (Fin q2) (Fin q3)) /\
               (- (4 * B) <= q1 <= 4 * B)%Q /\
               (- (4 * B) <= q2 <= 4 * B)%Q /\
               (- (4 * B) <= q3 <= 4 * B)%Q).
    { destruct (_target_position_filtered s) as [al0 st].
      unfold AlphaFilter.getState in *. cbn [AlphaFilter._filter_state] in *.
      destruct Hst as [Hnf | Hbd].
      - exists al0, px, py, pz.
        destruct st as [[| | |x] [| | |y] [| | |z]];
          try discriminate Hnf;
          (split; [reflexivity | repeat split; lra]).
      - apply bounded3_iff in Hbd.
        destruct Hbd as (q1 & q2 & q3 & -> & Hq1 & Hq2 & Hq3).
        exists al0, q1, q2, q3. split; [reflexivity | repeat split; lra]. }
    destruct Hseed as (al0 & q1 & q2 & q3 & -> & Hq1 & Hq2 & Hq3).
    unfold AlphaFilter.update, AlphaFilter.setParameters, AlphaFilter.getState.
    cbn [AlphaFilter._alpha AlphaFilter._filter_state].
    unfold POSITION_FILTER_ALPHA. rewrite Hal.
    destruct (blend_bounded B q1 px v1 a1 al Hq1 Hx1 Hv1 Ha1 Hal01)
      as (r1 & Hr1 & Hr1').
    destruct (blend_bounded B q2 py v2 a2 al Hq2 Hx2 Hv2 Ha2 Hal01)
      as (r2 & Hr2 & Hr2').
    destruct (blend_bounded B q3 pz v3 a3 al Hq3 Hx3 Hv3 Ha3 Hal01)
      as (r3 & Hr3 & Hr3').
    exists r1, r2, r3. split; [|repeat split; lra].
    unfold predict_future_x_ned_est, blend_add, blend_scale, Blend_Vector3f,
      add3, scale3.
    cbn [x3 y3 z3].
    f_equal; assumption. }
  destruct Hb as (r1 & r2 & r3 & Hr & Hr1 & Hr2 & Hr3).
  rewrite Hpub. unfold follow_target_status.
  cbn [x_est_filtered y_est_filtered z_est_filtered].
  pose proof Hp as Hp'.
  rewrite (fresh_update_eq sub now s Hfresh) in Hp'.
  cbn [with_task _target_position_filtered] in Hp'.
  rewrite Hp', Hp, Hr.
  split; [reflexivity|]. split; [|reflexivity].
  apply bounded3_iff. exists r1, r2, r3.
  split; [reflexivity | repeat split; lra].
Qed.

(** ** The heading of the target (lines 148-155) *)

Lemma above_speed_above_epsilon n :
  (n >? MINIMUM_SPEED_FOR_HEADING_CHANGE) = true ->
  (n >? FLT_EPSILON) = true.
Proof.
  unfold MINIMUM_SPEED_FOR_HEADING_CHANGE, FLT_EPSILON, fgt.
  destruct n; try discriminate; [reflexivity|].
  intros H. finite_ineq. lra.
Qed.

Lemma heading_update_offset_vector s :
  let v := v_ned_est (_follow_target_estimator s) in
  _target_velocity_unit_vector (update_offset_vector s) =
  if negb (_param_nav_ft_fs (params s) =? FOLLOW_PERSPECTIVE_NONE)%Z
     && (norm3 v >? MINIMUM_SPEED_FOR_HEADING_CHANGE)
  then unit_or_zero (xy v)
  else _target_velocity_unit_vector s.
Proof.
  cbn zeta. unfold update_offset_vector.
  destruct (_ =? _)%Z; [reflexivity|]. cbn zeta. cbn [negb andb].
  unfold rotate_offset_vector.
  cbn [_target_velocity_unit_vector set_offset_vector_filtered].
  assert (He : forall t,
             _follow_target_estimator (wrap_follow_angle (filter_follow_angle t))
             = _follow_target_estimator t /\
             _target_velocity_unit_vector
               (wrap_follow_angle (filter_follow_angle t))
             = _target_velocity_unit_vector t).
  { intros t. unfold wrap_follow_angle.
    destruct (_ >? _); [|destruct (_ <? _)]; split; reflexivity. }
  match goal with
  | |- context [wrap_follow_angle (filter_follow_angle ?t)] =>
      destruct (He t) as [-> Hu]
  end.
  cbn [_follow_target_estimator set_follow_angle_deg].
  destruct (norm3 _ >? MINIMUM_SPEED_FOR_HEADING_CHANGE) eqn:Hn.
  - rewrite (above_speed_above_epsilon _ Hn). reflexivity.
  - cbn [andb]. exact Hu.
Qed.

(** X8.  The heading of the target is recomputed, as the normalised
    horizontal velocity, in exactly the cycles that have a fresh estimate, a
    perspective other than None and a target speed above 0.1 m/s (the
    second test, against FLT_EPSILON, never decides); in every other cycle
    it is retained. *)
Theorem target_heading_update sub now s :
  let v := v_ned_est (held_estimate sub s) in
  let s' := snd (update sub now s) in
  (estimate_fresh (held_estimate sub s) = true ->
   _param_nav_ft_fs (params s) <> FOLLOW_PERSPECTIVE_NONE ->
   (norm3 v >? MINIMUM_SPEED_FOR_HEADING_CHANGE) = true ->
   _target_velocity_unit_vector s' = unit_or_zero (xy v)) /\
  (estimate_fresh (held_estimate sub s) = false \/
   _param_nav_ft_fs (params s) = FOLLOW_PERSPECTIVE_NONE \/
   (norm3 v >? MINIMUM_SPEED_FOR_HEADING_CHANGE) = false ->
   _target_velocity_unit_vector s' = _target_velocity_unit_vector s).
Proof.
  cbn zeta.
  assert (Hblock :
    estimate_fresh (held_estimate sub s) = true ->
    _target_velocity_unit_vector (snd (update sub now s)) =
    if negb (_param_nav_ft_fs (params s) =? FOLLOW_PERSPECTIVE_NONE)%Z
       && (norm3 (v_ned_est (held_estimate sub s))
           >? MINIMUM_SPEED_FOR_HEADING_CHANGE)
    then unit_or_zero (xy (v_ned_est (held_estimate sub s)))
    else _target_velocity_unit_vector s).
  { intros Hfresh.
    destruct (fresh_update_members sub now s Hfresh) as (_ & -> & _).
    unfold filters_updated. rewrite heading_update_offset_vector.
    cbn zeta. rewrite params_filter_target_position.
    replace (params (polled sub s)) with (params s)
      by (destruct sub; reflexivity).
    replace (_follow_target_estimator (filter_target_position (polled sub s)))
      with (held_estimate sub s) by (destruct sub; reflexivity).
    replace (_target_velocity_unit_vector
               (filter_target_position (polled sub s)))
      with (_target_velocity_unit_vector s) by (destruct sub; reflexivity).
    reflexivity. }
  split.
  - intros Hfresh Hfs Hn. rewrite (Hblock Hfresh), Hn.
    destruct (Z.eqb_spec (_param_nav_ft_fs (params s)) FOLLOW_PERSPECTIVE_NONE);
      [contradiction | reflexivity].
  - intros H.
    destruct (estimate_fresh (held_estimate sub s)) eqn:Hfresh.
    + rewrite (Hblock eq_refl).
      destruct H as [H | [H | H]]; [discriminate | |].
      * rewrite H. reflexivity.
      * rewrite H, andb_false_r. reflexivity.
    + rewrite (stale_update_eq sub now s Hfresh). destruct sub; reflexivity.
Qed.

Lemma unit_or_zero_of_zero a b :
  (a == 0)%Q -> (b == 0)%Q -> unit_or_zero (V2 (Fin a) (Fin b)) = zero2.
Proof.
  intros Ha Hb. unfold unit_or_zero.
  destruct (norm2 (V2 (Fin a) (Fin b)) >? UNIT_OR_ZERO_EPS) eqn:Hn;
    [|reflexivity].
  destruct (norm2 (V2 (Fin a) (Fin b))) as [| | |n]; try discriminate.
  - reflexivity.
  - unfold UNIT_OR_ZERO_EPS in Hn. finite_ineq.
    unfold div2, zero2, FZ. cbn [x2 y2 fdiv].
    rewrite Qsign_pos by lra.
    rewrite (Qred_complete (a / n) 0) by (rewrite Ha; unfold Qdiv; ring).
    rewrite (Qred_complete (b / n) 0) by (rewrite Hb; unfold Qdiv; ring).
    reflexivity.
Qed.

(** X9.  The speed test uses the three-dimensional velocity and the
    heading the horizontal one: a target that moves faster than 0.1 m/s
    with no horizontal velocity (straight up or down) has its heading
    replaced by the zero vector. *)
Theorem vertical_target_loses_heading sub now s a b :
  estimate_fresh (held_estimate sub s) = true ->
  _param_nav_ft_fs (params s) <> FOLLOW_PERSPECTIVE_NONE ->
  vx_est (held_estimate sub s) = Fin a -> (a == 0)%Q ->
  vy_est (held_estimate sub s) = Fin b -> (b == 0)%Q ->
  (norm3 (v_ned_est (held_estimate sub s))
   >? MINIMUM_SPEED_FOR_HEADING_CHANGE) = true ->
  _target_velocity_unit_vector (snd (update sub now s)) = zero2.
Proof.
  intros Hfresh Hfs Hvx Ha Hvy Hb Hn.
  destruct (fresh_update_members sub now s Hfresh) as (_ & -> & _).
  unfold filters_updated. rewrite heading_update_offset_vector. cbn zeta.
  rewrite params_filter_target_position.
  replace (params (polled sub s)) with (params s)
    by (destruct sub; reflexivity).
  replace (_follow_target_estimator (filter_target_position (polled sub s)))
    with (held_estimate sub s) by (destruct sub; reflexivity).
  rewrite Hn.
  destruct (Z.eqb_spec (_param_nav_ft_fs (params s)) FOLLOW_PERSPECTIVE_NONE);
    [contradiction|].
  cbn [negb andb]. unfold xy, v_ned_est. cbn [x3 y3].
  rewrite Hvx, Hvy. now apply unit_or_zero_of_zero.
Qed.

(** ** Perspective None (lines 108-111, 170-173) *)

(** X10.  With perspective None a fresh cycle skips the angle block: the
    raw and the filtered follow angle and the heading are left alone, the
    offset filter is cleared, and, the follow distance being finite, the
    desired horizontal position is the filtered target position itself. *)
Theorem perspective_none_above_target sub s tx ty dst :
  _param_nav_ft_fs (params s) = FOLLOW_PERSPECTIVE_NONE ->
  _param_nav_ft_dst (params s) = Fin dst ->
  xy (AlphaFilter.getState
        (_target_position_filtered (filter_target_position (polled sub s))))
  = V2 (Fin tx) (Fin ty) ->
  (_follow_angle_deg (filters_updated sub s) = _follow_angle_deg s /\
   _follow_angle_filtered (filters_updated sub s) = _follow_angle_filtered s /\
   _target_velocity_unit_vector (filters_updated sub s)
   = _target_velocity_unit_vector s /\
   AlphaFilter.getState (_offset_vector_filtered (filters_updated sub s))
   = zero2) /\
  exists dx dy,
    xy (drone_desired_position (filters_updated sub s)) = V2 (Fin dx) (Fin dy)
    /\ (dx == tx)%Q /\ (dy == ty)%Q.
Proof.
  intros Hnone Hdst Hxy.
  assert (Hu : filters_updated sub s =
               set_offset_vector_filtered
                 (AlphaFilter.reset zero2
                    (_offset_vector_filtered
                       (filter_target_position (polled sub s))))
                 (filter_target_position (polled sub s))).
  { unfold filters_updated, update_offset_vector.
    rewrite params_filter_target_position.
    replace (params (polled sub s)) with (params s)
      by (destruct sub; reflexivity).
    rewrite Hnone. reflexivity. }
  split.
  - rewrite Hu. destruct sub; repeat split; reflexivity.
  - assert (Hoff : offset_direction (filters_updated sub s) = zero2).
    { unfold offset_direction. rewrite Hu.
      cbn [_offset_vector_filtered set_offset_vector_filtered
           AlphaFilter.reset AlphaFilter.getState AlphaFilter._filter_state].
      now apply (unit_or_zero_of_zero 0 0). }
    unfold drone_desired_position. rewrite Hoff.
    destruct (filters_updated_frame sub s) as (_ & -> & _ & _ & ->).
    rewrite Hdst, Hxy.
    unfold set_z, set_xy, xy, add2, scale2, zero2. cbn [x2 y2 x3 y3 fadd fmul FZ].
    eexists. eexists. split; [reflexivity|].
    rewrite !Qred_correct. unfold inject_Z. split; ring.
Qed.

(** ** The setpoints of a cycle with a fresh estimate (lines 193-241) *)

Lemma emergency_ascent_members b :
  _position (emergency_ascent b) = _position b /\
  _yaw_setpoint (emergency_ascent b) = _yaw_setpoint b.
Proof.
  unfold emergency_ascent. destruct (_ && _); split; reflexivity.
Qed.

(** Without the emergency ascent the setpoints at the end of the cycle are
    those of the setpoint block. *)
Lemma fresh_update_setpoints_clear sub now s :
  estimate_fresh (held_estimate sub s) = true ->
  PX4_ISFINITE (_dist_to_bottom (cycle_task s))
  && (_dist_to_bottom (cycle_task s) <? MINIMUM_SAFETY_ALTITUDE) = false ->
  let s2 := set_setpoints (drone_desired_position (filters_updated sub s))
              (filters_updated sub s) in
  _position_setpoint (task (snd (update sub now s)))
  = _position_setpoint (task s2) /\
  _velocity_setpoint (task (snd (update sub now s)))
  = _velocity_setpoint (task s2).
Proof.
  intros Hfresh Hclear. cbn zeta.
  rewrite (fresh_update_eq sub now s Hfresh).
  cbn [with_task task _velocity_setpoint _position_setpoint set_want_takeoff].
  match goal with
  | |- context [face_target ?t] =>
      destruct (setpoints_face_target t) as [-> ->]
  end.
  cbn [with_task task].
  rewrite emergency_ascent_clear; [split; reflexivity|].
  destruct (vehicle_set_setpoints
              (drone_desired_position (filters_updated sub s))
              (filters_updated sub s)) as [-> _].
  destruct (filters_updated_frame sub s) as (-> & _).
  exact Hclear.
Qed.

Lemma set_setpoints_off_altitude d s :
  isfinite3 d = true ->
  (fabsf (z3 d - z3 (_position (task s))) <? ALT_ACCEPTANCE_THRESHOLD) = false ->
  _position_setpoint (task (set_setpoints d s))
  = V3 (x3 (_position (task s))) (y3 (_position (task s))) (z3 d) /\
  _velocity_setpoint (task (set_setpoints d s)) = _velocity_setpoint (task s) /\
  _velocity_ff_scale (set_setpoints d s) =
    AlphaFilter.update (FZ 0)
      (AlphaFilter.setParameters (_deltatime (task s))
         VELOCITY_FF_FILTER_ALPHA (_velocity_ff_scale s)).
Proof.
  intros Hfin Halt. unfold set_setpoints. rewrite Hfin, Halt.
  repeat split; reflexivity.
Qed.

Lemma set_setpoints_not_finite d s :
  isfinite3 d = false ->
  _position_setpoint (task (set_setpoints d s)) = _position (task s) /\
  _velocity_setpoint (task (set_setpoints d s)) = V3 (FZ 0) (FZ 0) (FZ 0) /\
  _velocity_ff_scale (set_setpoints d s) =
    AlphaFilter.update (FZ 0)
      (AlphaFilter.setParameters (_deltatime (task s))
         VELOCITY_FF_FILTER_ALPHA (_velocity_ff_scale s)).
Proof.
  intros Hfin. unfold set_setpoints. rewrite Hfin.
  repeat split; reflexivity.
Qed.

(** X11.  Altitude first: with a fresh estimate and a finite desired
    position whose altitude is not within 3 m of the current one, the
    position setpoint is the current horizontal position at the desired
    altitude, the velocity setpoint is not written at all (it keeps the
    value the cycle started with), and the feed-forward scale is ramped
    towards 0. *)
Theorem altitude_first sub now s :
  let s1 := filters_updated sub s in
  let d := drone_desired_position s1 in
  let s' := snd (update sub now s) in
  let dt := _deltatime (cycle_task s) in
  let alpha := dt / (VELOCITY_FF_FILTER_ALPHA + dt) in
  estimate_fresh (held_estimate sub s) = true ->
  isfinite3 d = true ->
  (fabsf (z3 d - z3 (_position (cycle_task s))) <? ALT_ACCEPTANCE_THRESHOLD)
  = false ->
  PX4_ISFINITE (_dist_to_bottom (cycle_task s))
  && (_dist_to_bottom (cycle_task s) <? MINIMUM_SAFETY_ALTITUDE) = false ->
  _position_setpoint (task s')
  = V3 (x3 (_position (cycle_task s))) (y3 (_position (cycle_task s))) (z3 d) /\
  _velocity_setpoint (task s') = _velocity_setpoint (cycle_task s) /\
  AlphaFilter.getState (_velocity_ff_scale s')
  = AlphaFilter.getState (_velocity_ff_scale s) * (FZ 1 - alpha)
    + FZ 0 * alpha.
Proof.
  cbn zeta. intros Hfresh Hfin Halt Hclear.
  destruct (fresh_update_setpoints_clear sub now s Hfresh Hclear) as [-> ->].
  destruct (fresh_update_members sub now s Hfresh) as (_ & _ & _ & ->).
  destruct (filters_updated_frame sub s) as (Ht & _ & Hff & _ & _).
  rewrite <- Ht in Halt.
  destruct (set_setpoints_off_altitude _ _ Hfin Halt) as (-> & -> & ->).
  rewrite Ht, Hff. repeat split; reflexivity.
Qed.

(** X12.  With a fresh estimate and a desired position that is not finite
    (the follow distance or the minimum height is NaN, say) the cycle holds
    the current position with zero velocity and ramps the feed-forward
    scale towards 0. *)
Theorem desired_position_not_finite sub now s :
  let s1 := filters_updated sub s in
  let d := drone_desired_position s1 in
  let s' := snd (update sub now s) in
  let dt := _deltatime (cycle_task s) in
  let alpha := dt / (VELOCITY_FF_FILTER_ALPHA + dt) in
  estimate_fresh (held_estimate sub s) = true ->
  isfinite3 d = false ->
  PX4_ISFINITE (_dist_to_bottom (cycle_task s))
  && (_dist_to_bottom (cycle_task s) <? MINIMUM_SAFETY_ALTITUDE) = false ->
  _position_setpoint (task s') = _position (cycle_task s) /\
  _velocity_setpoint (task s') = V3 (FZ 0) (FZ 0) (FZ 0) /\
  AlphaFilter.getState (_velocity_ff_scale s')
  = AlphaFilter.getState (_velocity_ff_scale s) * (FZ 1 - alpha)
    + FZ 0 * alpha.
Proof.
  cbn zeta. intros Hfresh Hfin Hclear.
  destruct (fresh_update_setpoints_clear sub now s Hfresh Hclear) as [-> ->].
  destruct (fresh_update_members sub now s Hfresh) as (_ & _ & _ & ->).
  destruct (filters_updated_frame sub s) as (Ht & _ & Hff & _ & _).
  destruct (set_setpoints_not_finite _ (filters_updated sub s) Hfin)
    as (-> & -> & ->).
  rewrite Ht, Hff. repeat split; reflexivity.
Qed.

(** The yaw setpoint of a fresh cycle is decided by [face_target] on the
    current position and the newly filtered target position. *)
Lemma fresh_update_yaw sub now s :
  estimate_fresh (held_estimate sub s) = true ->
  let target := AlphaFilter.getState
                  (_target_position_filtered
                     (filter_target_position (polled sub s))) in
  let target_to_drone := sub2 (xy (_position (cycle_task s))) (xy target) in
  _yaw_setpoint (task (snd (update sub now s))) =
  if norm2 target_to_drone >=? MINIMUM_DISTANCE_TO_TARGET_FOR_YAW_CONTROL
  then atan2f (- y2 target_to_drone) (- x2 target_to_drone)
  else _yaw_setpoint (cycle_task s).
Proof.
  intros Hfresh. cbn zeta. rewrite (fresh_update_eq sub now s Hfresh).
  cbn [with_task task _yaw_setpoint set_want_takeoff].
  unfold face_target. cbn [with_task task _target_position_filtered].
  destruct (emergency_ascent_members
              (task (set_setpoints
                       (drone_desired_position (filters_updated sub s))
                       (filters_updated sub s)))) as [-> Hy].
  destruct (vehicle_set_setpoints
              (drone_desired_position (filters_updated sub s))
              (filters_updated sub s)) as [_ ->].
  destruct (set_setpoints_members
              (drone_desired_position (filters_updated sub s))
              (filters_updated sub s)) as (-> & _ & _ & Hy2).
  destruct (filters_updated_frame sub s) as (Ht & _ & _ & _ & ->).
  rewrite Ht.
  destruct (_ >=? _); [reflexivity|].
  cbn [with_task task]. now rewrite Hy, Hy2, Ht.
Qed.

(** X13.  The emergency ascent in full: with a fresh estimate and a finite
    distance to the ground below 1 m, the position setpoint is (NaN, NaN,
    current altitude) and the velocity setpoint is (0, 0, -0.2), while the
    target position filter is updated as in any other fresh cycle. *)
Theorem emergency_ascent_setpoints sub now s :
  let s' := snd (update sub now s) in
  estimate_fresh (held_estimate sub s) = true ->
  PX4_ISFINITE (_dist_to_bottom (cycle_task s)) = true ->
  (_dist_to_bottom (cycle_task s) <? MINIMUM_SAFETY_ALTITUDE) = true ->
  _position_setpoint (task s') = V3 NaN NaN (z3 (_position (cycle_task s))) /\
  _velocity_setpoint (task s') = V3 (FZ 0) (FZ 0) (- EMERGENCY_ASCENT_SPEED) /\
  _target_position_filtered s'
  = _target_position_filtered (filter_target_position (polled sub s)).
Proof.
  cbn zeta. intros Hfresh Hfin Hlow.
  destruct (fresh_update_members sub now s Hfresh) as (Hp & _).
  cbn zeta in Hp. rewrite Hp.
  rewrite update_eq, Hfresh. cbn zeta. cbn [snd with_task task].
  destruct (track_target_low (polled sub s)) as [Hps Hvs];
    rewrite ?task_polled; trivial.
  cbn [_position_setpoint _velocity_setpoint set_want_takeoff].
  rewrite Hps, Hvs, task_polled.
  repeat split.
Qed.

(** X14.  Facing the target: in every cycle with a fresh estimate, the
    emergency ascent included, the yaw setpoint is the bearing from the
    current position to the newly filtered target position when the two
    are at least 1 m apart horizontally, and the yaw setpoint the cycle
    started with otherwise. *)
Theorem yaw_setpoint_update sub now s :
  let s' := snd (update sub now s) in
  let target := AlphaFilter.getState
                  (_target_position_filtered
                     (filter_target_position (polled sub s))) in
  let target_to_drone := sub2 (xy (_position (cycle_task s))) (xy target) in
  estimate_fresh (held_estimate sub s) = true ->
  ((norm2 target_to_drone >=? MINIMUM_DISTANCE_TO_TARGET_FOR_YAW_CONTROL)
   = true ->
   _yaw_setpoint (task s')
   = atan2f (- y2 target_to_drone) (- x2 target_to_drone)) /\
  ((norm2 target_to_drone >=? MINIMUM_DISTANCE_TO_TARGET_FOR_YAW_CONTROL)
   = false ->
   _yaw_setpoint (task s') = _yaw_setpoint (cycle_task s)).
Proof.
  cbn zeta. intros Hfresh.
  rewrite (fresh_update_yaw sub now s Hfresh). cbn zeta.
  split; intros ->; reflexivity.
Qed.

(** ** Altitude mode Constant (lines 183-190) *)

(** X15.  In altitude mode Constant (or any value other than TrackTarget),
    with a finite position setpoint altitude and minimum height, a fresh
    cycle whose desired position is finite and which is not overridden by
    the emergency ascent sets the altitude of the position setpoint to the
    lesser of its previous value and the negated minimum height: the
    setpoint never moves down (up in NED numbers) and never stays below
    the minimum height. *)
Theorem constant_altitude_never_descends sub now s a h :
  let d := drone_desired_position (filters_updated sub s) in
  let s' := snd (update sub now s) in
  estimate_fresh (held_estimate sub s) = true ->
  _param_nav_ft_alt_m (params s) <> FOLLOW_ALTITUDE_MODE_TRACK_TARGET ->
  z3 (_position_setpoint (cycle_task s)) = Fin a ->
  _param_nav_min_ft_ht (params s) = Fin h ->
  isfinite3 d = true ->
  PX4_ISFINITE (_dist_to_bottom (cycle_task s))
  && (_dist_to_bottom (cycle_task s) <? MINIMUM_SAFETY_ALTITUDE) = false ->
  exists c,
    z3 (_position_setpoint (task s')) = Fin c /\
    (c <= a)%Q /\ (c <= - h)%Q /\ (c == a \/ c == - h)%Q.
Proof.
  cbn zeta. intros Hfresh Hmode Ha Hh Hfin Hclear.
  destruct (fresh_update_setpoints_clear sub now s Hfresh Hclear) as [-> _].
  assert (Hz : z3 (_position_setpoint
                     (task (set_setpoints
                              (drone_desired_position (filters_updated sub s))
                              (filters_updated sub s))))
               = z3 (drone_desired_position (filters_updated sub s))).
  { destruct (fabsf (z3 (drone_desired_position (filters_updated sub s))
                     - z3 (_position (task (filters_updated sub s))))
              <? ALT_ACCEPTANCE_THRESHOLD) eqn:Halt.
    - destruct (set_setpoints_on_altitude _ _ Hfin Halt) as (_ & _ & ->).
      reflexivity.
    - destruct (set_setpoints_off_altitude _ _ Hfin Halt) as (-> & _).
      reflexivity. }
  rewrite Hz. unfold drone_desired_position, desired_altitude.
  cbn [set_z z3].
  destruct (filters_updated_frame sub s) as (-> & -> & _ & _ & _).
  destruct (Z.eqb_spec (_param_nav_ft_alt_m (params s))
              FOLLOW_ALTITUDE_MODE_TRACK_TARGET); [contradiction|].
  rewrite Ha, Hh. unfold math_min. cbn [fneg].
  destruct (Fin a <? Fin (- h)) eqn:Hlt; finite_ineq.
  - exists a. split; [reflexivity|].
    split; [lra|]. split; [lra|]. left; reflexivity.
  - exists (- h)%Q. split; [reflexivity|].
    split; [lra|]. split; [lra|]. right; reflexivity.
Qed.
(** ** Cycles without a fresh estimate (lines 85-89, 243-247) *)

Lemma stale_update_members sub now s :
  estimate_fresh (held_estimate sub s) = false ->
  let s' := snd (update sub now s) in
  _follow_target_estimator s' = held_estimate sub s /\
  _position_setpoint (task s')
  = V3 NaN NaN (z3 (_position_setpoint (cycle_task s))) /\
  _velocity_setpoint (task s')
  = V3 (FZ 0) (FZ 0) (z3 (_velocity_setpoint (cycle_task s))) /\
  _yaw_setpoint (task s') = _yaw_setpoint (cycle_task s) /\
  (_target_position_filtered s' = _target_position_filtered s /\
   _follow_angle_filtered s' = _follow_angle_filtered s /\
   _follow_angle_deg s' = _follow_angle_deg s /\
   _offset_vector_filtered s' = _offset_vector_filtered s /\
   _velocity_ff_scale s' = _velocity_ff_scale s).
Proof.
  intros Hstale. cbn zeta. rewrite (stale_update_eq sub now s Hstale).
  rewrite hold_position_eq.
  destruct sub; cbn; repeat split; reflexivity.
Qed.

(** X16.  Holding repeats: after a cycle with a stale estimate, a cycle in
    which no new estimate arrives is stale again and reproduces the same
    position, velocity and yaw setpoints and the same filter states, the
    base-class call leaving the setpoints alone. *)
Theorem stale_hold_repeats sub now now' s :
  let s1 := snd (update sub now s) in
  let s2 := snd (update None now' s1) in
  estimate_fresh (held_estimate sub s) = false ->
  base_keeps_setpoints (task s1) ->
  estimate_fresh (held_estimate None s1) = false /\
  _position_setpoint (task s2) = _position_setpoint (task s1) /\
  _velocity_setpoint (task s2) = _velocity_setpoint (task s1) /\
  _yaw_setpoint (task s2) = _yaw_setpoint (task s1) /\
  _target_position_filtered s2 = _target_position_filtered s1 /\
  _follow_angle_filtered s2 = _follow_angle_filtered s1 /\
  _follow_angle_deg s2 = _follow_angle_deg s1 /\
  _offset_vector_filtered s2 = _offset_vector_filtered s1 /\
  _velocity_ff_scale s2 = _velocity_ff_scale s1.
Proof.
  cbn zeta. intros Hstale (Hp & Hv & Hy).
  destruct (stale_update_members sub now s Hstale)
    as (He & Hp1 & Hv1 & _).
  cbn zeta in He, Hp1, Hv1.
  assert (Hstale' : estimate_fresh
                      (held_estimate None (snd (update sub now s))) = false)
    by (cbn [held_estimate]; now rewrite He).
  split; [exact Hstale'|].
  destruct (stale_update_members None now' (snd (update sub now s)) Hstale')
    as (_ & Hp2 & Hv2 & Hy2 & Hf).
  cbn zeta in Hp2, Hv2, Hy2, Hf.
  unfold cycle_task in Hp2, Hv2, Hy2.
  rewrite Hp in Hp2. rewrite Hv in Hv2. rewrite Hy in Hy2.
  rewrite Hp2, Hv2, Hy2, Hp1, Hv1. cbn [z3].
  repeat split; apply Hf.
Qed.

(** ** Activation (lines 46-76) *)

(** X17.  [activate] makes the current position the position setpoint,
    whatever the setpoint passed in (the test of lines 52-55 can only
    repeat the assignment), leaves the velocity and yaw setpoints as the
    base-class activation left them, and does not reset the raw follow
    angle, the heading of the target, the held estimate or the cycle
    coefficients of the filters. *)
Theorem activate_frame last_setpoint s :
  let b := snd (FlightTask_activate last_setpoint (task s)) in
  let s' := snd (activate last_setpoint s) in
  _position_setpoint (task s') = _position b /\
  _velocity_setpoint (task s') = _velocity_setpoint b /\
  _yaw_setpoint (task s') = _yaw_setpoint b /\
  _position (task s') = _position b /\
  _follow_angle_deg s' = _follow_angle_deg s /\
  _target_velocity_unit_vector s' = _target_velocity_unit_vector s /\
  _follow_target_estimator s' = _follow_target_estimator s /\
  params s' = params s.
Proof.
  cbn zeta. unfold activate.
  destruct (FlightTask_activate last_setpoint (task s)) as [ret b].
  cbn zeta. cbn [snd].
  repeat match goal with |- context [if ?c then _ else _] => destruct c end;
    repeat split; reflexivity.
Qed.

(** ** A target at rest (lines 94-106, 303-307) *)

(** One component of the position filter fed the prediction for a target
    at rest. *)
Lemma blend_at_rest (a q v acc al t : Q) :
  (q == a)%Q -> (v == 0)%Q -> (acc == 0)%Q ->
  exists r,
    Fin q * (FZ 1 - Fin al)
    + (Fin a + Fin v * Fin t + Fin acc * Fin (1 # 2) * Fin t * Fin t) * Fin al
    = Fin r /\ (r == a)%Q.
Proof.
  intros Hq Hv Hacc. cbn [fadd fsub fneg fmul FZ].
  eexists. split; [reflexivity|].
  rewrite !Qred_correct. rewrite Hq, Hv, Hacc. unfold inject_Z. ring.
Qed.

(** X18.  A target at rest is tracked without lag or drift: when the
    estimate reports a finite position with zero velocity and acceleration,
    and the filtered position is either not finite (as after activation) or
    already at that position, a fresh cycle with a cycle duration that is a
    duration leaves the filtered position at the estimated position. *)
Theorem target_at_rest_fixed_point sub now s a b c :
  let e := held_estimate sub s in
  let st := AlphaFilter.getState (_target_position_filtered s) in
  estimate_fresh e = true ->
  x_ned_est e = V3 (Fin a) (Fin b) (Fin c) ->
  v_ned_est e = V3 (FZ 0) (FZ 0) (FZ 0) ->
  a_ned_est e = V3 (FZ 0) (FZ 0) (FZ 0) ->
  is_duration (_deltatime (cycle_task s)) = true ->
  (isfinite3 st = false \/
   exists qa qb qc,
     st = V3 (Fin qa) (Fin qb) (Fin qc) /\
     (qa == a)%Q /\ (qb == b)%Q /\ (qc == c)%Q) ->
  exists ra rb rc,
    AlphaFilter.getState (_target_position_filtered (snd (update sub now s)))
    = V3 (Fin ra) (Fin rb) (Fin rc) /\
    (ra == a)%Q /\ (rb == b)%Q /\ (rc == c)%Q.
Proof.
  cbn zeta. intros Hfresh Hx Hv Ha Hdt Hst.
  apply is_duration_iff in Hdt. destruct Hdt as (d & Hd & Hdr).
  destruct (fresh_update_members sub now s Hfresh) as (-> & _).
  unfold filter_target_position.
  cbn [_target_position_filtered set_target_position_filtered].
  rewrite held_estimate_polled, task_polled, Hx, Hv, Ha, Hd.
  replace (_target_position_filtered (polled sub s))
    with (_target_position_filtered s) by (destruct sub; reflexivity).
  destruct (blend_coefficient d (3 # 2) Hdr eq_refl) as (al & Hal & _).
  assert (Hseed : exists al0 qa qb qc,
             (if negb (PX4_ISFINITE
                         (x3 (AlphaFilter.getState (_target_position_filtered s))))
                 || negb (PX4_ISFINITE
                            (y3 (AlphaFilter.getState
                                   (_target_position_filtered s))))
                 || negb (PX4_ISFINITE
                            (z3 (AlphaFilter.getState
                                   (_target_position_filtered s))))
              then AlphaFilter.reset (V3 (Fin a) (Fin b) (Fin c))
                     (_target_position_filtered s)
              else _target_position_filtered s)
             = AlphaFilter.mk al0 (V3 (Fin qa) (Fin qb) (Fin qc)) /\
             (qa == a)%Q /\ (qb == b)%Q /\ (qc == c)%Q).
  { destruct (_target_position_filtered s) as [al0 st].
    unfold AlphaFilter.getState in *. cbn [AlphaFilter._filter_state] in *.
    destruct Hst as [Hnf | (qa & qb & qc & -> & Hqa & Hqb & Hqc)].
    - exists al0, a, b, c.
      destruct st as [[| | |x] [| | |y] [| | |z]];
        try discriminate Hnf;
        (split; [reflexivity | repeat split; reflexivity]).
    - exists al0, qa, qb, qc. split; [reflexivity | repeat split; assumption]. }
  destruct Hseed as (al0 & qa & qb & qc & -> & Hqa & Hqb & Hqc).
  unfold AlphaFilter.update, AlphaFilter.setParameters, AlphaFilter.getState.
  cbn [AlphaFilter._alpha AlphaFilter._filter_state].
  unfold POSITION_FILTER_ALPHA. rewrite Hal.
  destruct (blend_at_rest a qa 0 0 al (3 # 2) Hqa) as (ra & Hra & Hra');
    try reflexivity.
  destruct (blend_at_rest b qb 0 0 al (3 # 2) Hqb) as (rb & Hrb & Hrb');
    try reflexivity.
  destruct (blend_at_rest c qc 0 0 al (3 # 2) Hqc) as (rc & Hrc & Hrc');
    try reflexivity.
  exists ra, rb, rc. split; [|repeat split; assumption].
  unfold predict_future_x_ned_est, blend_add, blend_scale, Blend_Vector3f,
    add3, scale3.
  cbn [x3 y3 z3].
  change (Fin (inject_Z 0)) with (FZ 0) in *.
  f_equal; assumption.
Qed.

(** ** The velocity feed-forward (lines 208-210) *)

Lemma Qsign_zero z : (z == 0)%Q -> Qsign z = Eq.
Proof.
  unfold Qsign, Qeq. cbn. intros H. apply Z.compare_eq_iff. lia.
Qed.

Lemma divided_by_zero_not_finite a k z :
  (z == 0)%Q -> PX4_ISFINITE (a / Fin z * k) = false.
Proof.
  intros Hz. unfold fdiv. rewrite (Qsign_zero z Hz).
  destruct a as [| | |x]; [| | |destruct (Qsign x)];
    destruct k as [| | |y]; try reflexivity;
    cbn; destruct (Qsign y); reflexivity.
Qed.

(** X19.  The velocity setpoint divides by the cycle duration unguarded:
    in a fresh cycle on altitude (finite desired position, no emergency
    ascent) with a cycle duration of zero, no component of the velocity
    setpoint is finite. *)
Theorem zero_cycle_time_velocity sub now s z :
  let d := drone_desired_position (filters_updated sub s) in
  let s' := snd (update sub now s) in
  estimate_fresh (held_estimate sub s) = true ->
  isfinite3 d = true ->
  (fabsf (z3 d - z3 (_position (cycle_task s))) <? ALT_ACCEPTANCE_THRESHOLD)
  = true ->
  PX4_ISFINITE (_dist_to_bottom (cycle_task s))
  && (_dist_to_bottom (cycle_task s) <? MINIMUM_SAFETY_ALTITUDE) = false ->
  _deltatime (cycle_task s) = Fin z -> (z == 0)%Q ->
  PX4_ISFINITE (x3 (_velocity_setpoint (task s'))) = false /\
  PX4_ISFINITE (y3 (_velocity_setpoint (task s'))) = false /\
  PX4_ISFINITE (z3 (_velocity_setpoint (task s'))) = false.
Proof.
  cbn zeta. intros Hfresh Hfin Halt Hclear Hdt Hz.
  destruct (fresh_update_setpoints_clear sub now s Hfresh Hclear) as [_ ->].
  destruct (filters_updated_frame sub s) as (Ht & _).
  rewrite <- Ht in Halt.
  destruct (set_setpoints_on_altitude _ _ Hfin Halt) as (_ & -> & _).
  rewrite Ht, Hdt. unfold scale3, div3. cbn [x3 y3 z3].
  repeat split; now apply divided_by_zero_not_finite.
Qed.

Lemma bounded3_finite B v : bounded3 B v = true -> isfinite3 v = true.
Proof.
  intros H. apply bounded3_iff in H.
  destruct H as (a & b & c & -> & _). reflexivity.
Qed.

(** X20.  The feed-forward starts from nothing: in a fresh cycle on
    altitude with a feed-forward scale of zero, as [activate] leaves it,
    the velocity setpoint is zero in all three components, wherever the
    desired position is from the previous setpoint, as long as the
    quotient of their distance by the cycle duration is a finite number:
    the components of both lie within [-B, B] for some B up to 2^100 and
    the cycle lasts a microsecond, the resolution of the time stamps, or
    more. *)
Theorem feed_forward_starts_at_zero sub now s B t k :
  let d := drone_desired_position (filters_updated sub s) in
  let s' := snd (update sub now s) in
  estimate_fresh (held_estimate sub s) = true ->
  (B <= NO_OVERFLOW)%Q ->
  bounded3 B d = true ->
  (fabsf (z3 d - z3 (_position (cycle_task s))) <? ALT_ACCEPTANCE_THRESHOLD)
  = true ->
  PX4_ISFINITE (_dist_to_bottom (cycle_task s))
  && (_dist_to_bottom (cycle_task s) <? MINIMUM_SAFETY_ALTITUDE) = false ->
  bounded3 B (_position_setpoint (cycle_task s)) = true ->
  _deltatime (cycle_task s) = Fin t -> (1 # 1000000 <= t)%Q ->
  AlphaFilter.getState (_velocity_ff_scale s) = Fin k -> (k == 0)%Q ->
  exists r1 r2 r3,
    _velocity_setpoint (task s') = V3 (Fin r1) (Fin r2) (Fin r3) /\
    (r1 == 0)%Q /\ (r2 == 0)%Q /\ (r3 == 0)%Q.
Proof.
  cbn zeta. intros Hfresh _ Hbd Halt Hclear Hbsp Hdt Ht Hk Hk0.
  pose proof (bounded3_finite _ _ Hbd) as Hfin.
  pose proof (bounded3_finite _ _ Hbsp) as Hsp.
  assert (Ht0 : (0 < t)%Q) by lra.
  destruct (fresh_update_setpoints_clear sub now s Hfresh Hclear) as [_ ->].
  destruct (filters_updated_frame sub s) as (Htask & _ & Hff & _).
  rewrite <- Htask in Halt.
  destruct (set_setpoints_on_altitude _ _ Hfin Halt) as (_ & -> & _).
  rewrite Htask, Hff, Hdt, Hk.
  destruct (finite3_inv _ Hfin) as (d1 & d2 & d3 & ->).
  destruct (finite3_inv _ Hsp) as (p1 & p2 & p3 & ->).
  unfold scale3, div3, sub3. cbn [x3 y3 z3 fsub fneg fadd fdiv].
  rewrite (Qsign_pos t Ht0). cbn [fmul].
  eexists. eexists. eexists. split; [reflexivity|].
  rewrite !Qred_correct. rewrite Hk0. repeat split; ring.
Qed.

(** ** The held estimate (lines 85-89) *)

(** X21.  [update] never ages or clears the held estimate: after any
    cycle it is the message that arrived in the cycle, or the one held
    before when none arrived; so an estimate that was fresh stays fresh,
    and is used again, in every later cycle in which nothing arrives. *)
Theorem estimate_held sub now s :
  _follow_target_estimator (snd (update sub now s)) = held_estimate sub s /\
  (estimate_fresh (held_estimate sub s) = true ->
   estimate_fresh (held_estimate None (snd (update sub now s))) = true).
Proof.
  assert (He : _follow_target_estimator (snd (update sub now s))
               = held_estimate sub s).
  { destruct (estimate_fresh (held_estimate sub s)) eqn:Hfresh.
    - rewrite (fresh_update_eq sub now s Hfresh).
      cbn [with_task _follow_target_estimator].
      unfold face_target.
      destruct (_ >=? _);
        cbn [with_task _follow_target_estimator];
        unfold set_setpoints;
        repeat match goal with
          | |- context [if ?c then _ else _] => destruct c
          end;
        cbn [with_task set_velocity_ff_scale _follow_target_estimator];
        apply filters_updated_frame.
    - apply (stale_update_members sub now s Hfresh). }
  split; [exact He|].
  intros Hfresh. cbn [held_estimate]. now rewrite He.
Qed.


End MoreProperties.

(** * The theorems at concrete inputs *)


#[local] Existing Instance Approx.libm.
#[local] Existing Instance Approx.base.

(** ** The scenarios are reachable *)

Lemma cycle_reachable sub p s :
  reachable s ->
  is_duration (_deltatime (task s)) = true ->
  reachable (Scenario.cycle sub p s) /\
  _deltatime (task (Scenario.cycle sub p s)) = _deltatime (task s).
Proof.
  intros Hr Hdt. unfold Scenario.cycle. split.
  - apply reach_update; [|exact Hdt].
    exact (reach_refresh (task s) _ s Hr).
  - now rewrite deltatime_update.
Qed.

Lemma cycles_reachable ps : forall s,
  reachable s ->
  is_duration (_deltatime (task s)) = true ->
  reachable (Scenario.cycles ps s).
Proof.
  unfold Scenario.cycles.
  induction ps as [|p ps IH]; intros s Hr Hdt; cbn [fold_left].
  - exact Hr.
  - destruct (cycle_reachable (Some Scenario.target_at_rest) p s Hr Hdt)
      as [Hr' Hdt'].
    apply IH; [exact Hr' | now rewrite Hdt'].
Qed.

Lemma high_hover_reachable : reachable Scenario.high_hover.
Proof. apply reach_activate. Qed.

(** The wrap of lines 138-146 at work: in the reachable state
    [Scenario.wound_up] one more cycle under Front-Left takes the filtered
    angle to about 380; it is lowered by 360, and the raw angle with it,
    from 675 to 315. *)
Example wrap_follow_angle_fires :
  reachable Scenario.wound_up /\
  _follow_angle_deg Scenario.wound_up = FZ 675 /\
  follow_angle_state
    (follow_angle_updated (Some Scenario.target_at_rest) Scenario.wound_up)
  = Fin (2191300155 # 5764801) /\
  follow_angle_state
    (Scenario.cycle (Some Scenario.target_at_rest)
       FOLLOW_PERSPECTIVE_FRONT_LEFT Scenario.wound_up)
  = Fin (115971795 # 5764801) /\
  _follow_angle_deg
    (Scenario.cycle (Some Scenario.target_at_rest)
       FOLLOW_PERSPECTIVE_FRONT_LEFT Scenario.wound_up)
  = FZ 315.
Proof.
  split.
  - apply cycles_reachable; [|reflexivity].
    exact (reach_refresh _ _ _ high_hover_reachable).
  - vm_compute. repeat split; reflexivity.
Qed.

(** ** The claims at concrete inputs *)

(** C3 (the code at a failing input).  After the perspectives Front-Left,
    Behind, Front-Right and Front were selected in turn, a reachable state,
    the raw follow angle is -360; selecting Behind-Left (225) then assigns
    -135, which is 225 away from the current angle, although -495,
    congruent to 225 modulo 360, is only 135 away. *)
Theorem unwrap_follow_angle_long_way :
  reachable Scenario.turned_back /\
  _follow_angle_deg Scenario.turned_back = FZ (-360) /\
  update_follow_me_angle_setting FOLLOW_PERSPECTIVE_BEHIND_LEFT = FZ 225 /\
  unwrap_follow_angle (FZ (-360)) (FZ 225) = FZ (-135) /\
  _follow_angle_deg
    (Scenario.cycle (Some Scenario.target_at_rest)
       FOLLOW_PERSPECTIVE_BEHIND_LEFT Scenario.turned_back) = FZ (-135) /\
  (fabsf (FZ (-360) - FZ (-135)) <=? FZ 180) = false /\
  (fabsf (FZ (-360) - (FZ 225 - FZ 720)) <=? FZ 180) = true.
Proof.
  split.
  - apply cycles_reachable; [exact high_hover_reachable | reflexivity].
  - vm_compute. repeat split; reflexivity.
Qed.

(** C1: the override at 0.5 m above ground, with a fresh estimate. *)
Lemma ground_clearance_override_low_hover :
  PX4_ISFINITE (_dist_to_bottom (cycle_task Scenario.low_hover)) = true /\
  (_dist_to_bottom (cycle_task Scenario.low_hover) <? MINIMUM_SAFETY_ALTITUDE)
  = true /\
  x3 (_position_setpoint
        (task (snd (update (Some Scenario.target_at_rest) 0
                      Scenario.low_hover)))) = NaN /\
  z3 (_velocity_setpoint
        (task (snd (update (Some Scenario.target_at_rest) 0
                      Scenario.low_hover)))) = Fin (-1 # 5).
Proof.
  split; [reflexivity|]. split; [reflexivity|].
  pose proof (ground_clearance_override (Some Scenario.target_at_rest) 0
                Scenario.low_hover eq_refl eq_refl) as (Hx & _ & Hz & _).
  split; [exact Hx | exact (Hz eq_refl)].
Defined.

(** C1 as stated fails: 0.5 m above ground with no estimate received, the
    cycle leaves the vertical velocity setpoint at 0, not at -0.2. *)
Lemma ground_clearance_stale_no_ascent :
  PX4_ISFINITE (_dist_to_bottom (cycle_task Scenario.low_hover)) = true /\
  (_dist_to_bottom (cycle_task Scenario.low_hover) <? MINIMUM_SAFETY_ALTITUDE)
  = true /\
  estimate_fresh (held_estimate None Scenario.low_hover) = false /\
  z3 (_velocity_setpoint (task (snd (update None 0 Scenario.low_hover))))
  = FZ 0 /\
  z3 (_velocity_setpoint (task (snd (update None 0 Scenario.low_hover))))
  <> - EMERGENCY_ASCENT_SPEED.
Proof.
  repeat split; try reflexivity. vm_compute. discriminate.
Qed.

(** C2 at a concrete input: no estimate received. *)
Lemma stale_estimate_holds_position_high_hover :
  estimate_fresh (held_estimate None Scenario.high_hover) = false /\
  _position_setpoint (task (snd (update None 7 Scenario.high_hover)))
  = V3 NaN NaN (FZ (-5)) /\
  x3 (_velocity_setpoint (task (snd (update None 7 Scenario.high_hover))))
  = FZ 0 /\
  status_timestamp (snd (fst (update None 7 Scenario.high_hover))) = 7%Z.
Proof.
  split; [reflexivity|].
  pose proof (stale_estimate_holds_position None 7 Scenario.high_hover eq_refl)
    as ((Hx & Hy & Hvx & _) & (_ & _ & _ & _ & _ & _ & Hz & _) & Hst).
  split; [|split; [exact Hvx | now rewrite Hst]].
  destruct (_position_setpoint (task (snd (update None 7 Scenario.high_hover))))
    as [x y z].
  cbn in Hx, Hy, Hz. now subst.
Defined.

(** C10 at a concrete input: an invalid estimate arrives. *)
Lemma stale_estimate_frame_high_hover :
  estimate_fresh (held_estimate (Some Scenario.no_estimate) Scenario.high_hover)
  = false /\
  base_keeps_setpoints (task Scenario.high_hover) /\
  z3 (_position_setpoint
        (task (snd (update (Some Scenario.no_estimate) 0 Scenario.high_hover))))
  = FZ (-5) /\
  _yaw_setpoint
    (task (snd (update (Some Scenario.no_estimate) 0 Scenario.high_hover)))
  = FZ 0.
Proof.
  assert (Hb : base_keeps_setpoints (task Scenario.high_hover))
    by (repeat split; reflexivity).
  split; [reflexivity|]. split; [exact Hb|].
  pose proof (stale_estimate_frame (Some Scenario.no_estimate) 0
                Scenario.high_hover eq_refl Hb) as (Hz & _ & Hy & _).
  split; [exact Hz | exact Hy].
Defined.

(** C4 as stated fails: from the raw angle 180 the selection of Front
    assigns 0, not -180. *)
Lemma behind_to_front_assigns_zero :
  _follow_angle_deg Scenario.behind = FZ 180 /\
  _follow_angle_deg
    (Scenario.cycle (Some Scenario.target_at_rest) FOLLOW_PERSPECTIVE_FRONT
       Scenario.behind) = FZ 0 /\
  feqb (unwrap_follow_angle (FZ 180)
          (update_follow_me_angle_setting FOLLOW_PERSPECTIVE_FRONT))
       (FZ (-180)) = false /\
  unwrap_follow_angle (FZ 180)
    (update_follow_me_angle_setting FOLLOW_PERSPECTIVE_FRONT) <> FZ (-180).
Proof.
  repeat split; try (vm_compute; reflexivity). vm_compute. discriminate.
Qed.

(** C5 at a concrete input: a cycle right after activation. *)
Lemma follow_angle_filtered_bounded_high_hover :
  reachable Scenario.high_hover /\
  is_duration (_deltatime (cycle_task Scenario.high_hover)) = true /\
  within (- FZ 360) (FZ 360)
    (follow_angle_state
       (snd (update (Some Scenario.target_at_rest) 0 Scenario.high_hover)))
  = true.
Proof.
  pose proof high_hover_reachable as Hr.
  split; [exact Hr|]. split; [reflexivity|].
  exact (proj1 (follow_angle_filtered_bounded (Some Scenario.target_at_rest) 0
                  Scenario.high_hover Hr eq_refl)).
Defined.

(** C6 as stated fails: with perspective Behind, a fresh estimate of a
    target that has not moved and an offset filter cleared by a cycle under
    perspective None, the offset direction is the zero vector and its
    magnitude is 0, not 1. *)
Lemma offset_direction_zero_behind :
  _param_nav_ft_fs (params Scenario.none_then_behind)
  = FOLLOW_PERSPECTIVE_BEHIND /\
  FOLLOW_PERSPECTIVE_BEHIND <> FOLLOW_PERSPECTIVE_NONE /\
  estimate_fresh
    (held_estimate (Some Scenario.target_at_rest) Scenario.none_then_behind)
  = true /\
  offset_direction
    (filters_updated (Some Scenario.target_at_rest) Scenario.none_then_behind)
  = zero2 /\
  feqb (norm2 (offset_direction
                 (filters_updated (Some Scenario.target_at_rest)
                    Scenario.none_then_behind)))
       (FZ 1) = false.
Proof.
  repeat split; try discriminate; vm_compute; reflexivity.
Qed.

(** C6 at a concrete input: perspective None. *)
Lemma desired_position_offset_direction_none :
  _param_nav_ft_fs
    (params (Scenario.select_perspective FOLLOW_PERSPECTIVE_NONE
               Scenario.high_hover)) = FOLLOW_PERSPECTIVE_NONE /\
  xy (drone_desired_position
        (filters_updated (Some Scenario.target_at_rest)
           (Scenario.select_perspective FOLLOW_PERSPECTIVE_NONE
              Scenario.high_hover)))
  = add2
      (xy (AlphaFilter.getState
             (_target_position_filtered
                (filter_target_position
                   (polled (Some Scenario.target_at_rest)
                      (Scenario.select_perspective FOLLOW_PERSPECTIVE_NONE
                         Scenario.high_hover))))))
      (scale2 zero2 (FZ 5)).
Proof.
  split; [reflexivity|].
  exact (proj2 (proj2 (desired_position_offset_direction
                         (Some Scenario.target_at_rest)
                         (Scenario.select_perspective
                            FOLLOW_PERSPECTIVE_NONE
                            Scenario.high_hover)))
           eq_refl).
Defined.

(** C7 at a concrete input: mode TrackTarget, target filtered at altitude
    3, minimum height 8. *)
Lemma desired_altitude_track_target :
  _param_nav_ft_alt_m
    (params (Scenario.with_altitude_mode FOLLOW_ALTITUDE_MODE_TRACK_TARGET))
  = FOLLOW_ALTITUDE_MODE_TRACK_TARGET /\
  z3 (drone_desired_position
        (filters_updated (Some Scenario.target_moving)
           (Scenario.with_altitude_mode FOLLOW_ALTITUDE_MODE_TRACK_TARGET)))
  = z3 (AlphaFilter.getState
          (_target_position_filtered
             (filter_target_position
                (polled (Some Scenario.target_moving)
                   (Scenario.with_altitude_mode
                      FOLLOW_ALTITUDE_MODE_TRACK_TARGET)))))
    - FZ 8.
Proof.
  split; [reflexivity|].
  exact (proj1 (desired_altitude_by_mode (Some Scenario.target_moving)
                  (Scenario.with_altitude_mode
                     FOLLOW_ALTITUDE_MODE_TRACK_TARGET))
           eq_refl).
Defined.

(** C8 with the vehicle facing east: the heading is about (0, 1), the
    offset-vector filter is reset to about (0, -1). *)
Lemma activate_offset_mirrors_heading_east :
  exists c sn,
    cos (_yaw (task Scenario.idle_facing_east)) = Fin c /\
    sin (_yaw (task Scenario.idle_facing_east)) = Fin sn /\
    ~ (sn == 0)%Q /\
    AlphaFilter.getState
      (_offset_vector_filtered
         (snd (activate Scenario.last_setpoint Scenario.idle_facing_east)))
    = V2 (Fin c) (Fin (- sn)) /\
    feqb
      (y2 (AlphaFilter.getState
             (_offset_vector_filtered
                (snd (activate Scenario.last_setpoint
                        Scenario.idle_facing_east)))))
      (y2 (heading_2d (_yaw (task Scenario.idle_facing_east)))) = false.
Proof.
  exists (335029 # 16777216), (8426565 # 8388608).
  assert (Hc : cos (_yaw (task Scenario.idle_facing_east))
               = Fin (335029 # 16777216)) by (vm_compute; reflexivity).
  assert (Hs : sin (_yaw (task Scenario.idle_facing_east))
               = Fin (8426565 # 8388608)) by (vm_compute; reflexivity).
  assert (Hn : ~ (8426565 # 8388608 == 0)%Q) by discriminate.
  split; [exact Hc|]. split; [exact Hs|]. split; [exact Hn|].
  pose proof (activate_offset_mirrors_heading Scenario.last_setpoint
                Scenario.idle_facing_east _ _ Hc Hs)
    as ((Ho & _ & Hy) & _).
  split; [exact Ho | exact (Hy Hn)].
Defined.

(** C9 at a concrete input: a moving target, 8 m above the vehicle, in
    mode TrackTarget, the vehicle 10 m above ground. *)
Lemma feed_forward_setpoints_moving_target :
  estimate_fresh
    (held_estimate (Some Scenario.target_moving)
       (Scenario.with_altitude_mode FOLLOW_ALTITUDE_MODE_TRACK_TARGET))
  = true /\
  isfinite3
    (drone_desired_position
       (filters_updated (Some Scenario.target_moving)
          (Scenario.with_altitude_mode FOLLOW_ALTITUDE_MODE_TRACK_TARGET)))
  = true /\
  (fabsf
     (z3 (drone_desired_position
            (filters_updated (Some Scenario.target_moving)
               (Scenario.with_altitude_mode
                  FOLLOW_ALTITUDE_MODE_TRACK_TARGET)))
      - z3 (_position
              (cycle_task
                 (Scenario.with_altitude_mode
                    FOLLOW_ALTITUDE_MODE_TRACK_TARGET))))
   <? ALT_ACCEPTANCE_THRESHOLD) = true /\
  _position_setpoint
    (task
       (snd (update (Some Scenario.target_moving) 0
               (Scenario.with_altitude_mode
                  FOLLOW_ALTITUDE_MODE_TRACK_TARGET))))
  = drone_desired_position
      (filters_updated (Some Scenario.target_moving)
         (Scenario.with_altitude_mode FOLLOW_ALTITUDE_MODE_TRACK_TARGET)).
Proof.
  assert (Hfin : isfinite3
            (drone_desired_position
               (filters_updated (Some Scenario.target_moving)
                  (Scenario.with_altitude_mode
                     FOLLOW_ALTITUDE_MODE_TRACK_TARGET))) = true)
    by (vm_compute; reflexivity).
  assert (Halt : (fabsf
            (z3 (drone_desired_position
                   (filters_updated (Some Scenario.target_moving)
                      (Scenario.with_altitude_mode
                         FOLLOW_ALTITUDE_MODE_TRACK_TARGET)))
             - z3 (_position
                     (cycle_task
                        (Scenario.with_altitude_mode
                           FOLLOW_ALTITUDE_MODE_TRACK_TARGET))))
          <? ALT_ACCEPTANCE_THRESHOLD) = true)
    by (vm_compute; reflexivity).
  split; [reflexivity|]. split; [exact Hfin|]. split; [exact Halt|].
  exact (proj2 (proj2 (proj2
           (feed_forward_setpoints (Some Scenario.target_moving) 0
              (Scenario.with_altitude_mode FOLLOW_ALTITUDE_MODE_TRACK_TARGET)
              eq_refl Hfin Halt))
           eq_refl)).
Defined.

(** ** The further properties at concrete inputs *)

(** X1 at Middle-Follow. *)
Lemma follow_me_angle_fallback_middle_follow :
  (FOLLOW_PERSPECTIVE_MIDDLE_FOLLOW < FOLLOW_PERSPECTIVE_FRONT \/
   FOLLOW_PERSPECTIVE_BEHIND_LEFT < FOLLOW_PERSPECTIVE_MIDDLE_FOLLOW)%Z /\
  update_follow_me_angle_setting FOLLOW_PERSPECTIVE_MIDDLE_FOLLOW = FZ 180.
Proof.
  assert (H : (FOLLOW_PERSPECTIVE_MIDDLE_FOLLOW < FOLLOW_PERSPECTIVE_FRONT \/
               FOLLOW_PERSPECTIVE_BEHIND_LEFT
               < FOLLOW_PERSPECTIVE_MIDDLE_FOLLOW)%Z)
    by (right; reflexivity).
  split; [exact H|].
  exact (proj1 (follow_me_angle_fallback FOLLOW_PERSPECTIVE_MIDDLE_FOLLOW) H).
Defined.

(** X3 where the wrap fires: filtered angle about 380, raw angle 675. *)
Lemma wrap_follow_angle_keeps_error_wound_up :
  follow_angle_state
    (follow_angle_updated (Some Scenario.target_at_rest) Scenario.wound_up)
  = Fin (2191300155 # 5764801) /\
  _follow_angle_deg
    (follow_angle_updated (Some Scenario.target_at_rest) Scenario.wound_up)
  = Fin 675 /\
  exists q' x',
    follow_angle_state
      (wrap_follow_angle
         (follow_angle_updated (Some Scenario.target_at_rest)
            Scenario.wound_up)) = Fin q' /\
    _follow_angle_deg
      (wrap_follow_angle
         (follow_angle_updated (Some Scenario.target_at_rest)
            Scenario.wound_up)) = Fin x' /\
    (x' - q' == 675 - (2191300155 # 5764801))%Q /\
    (q' == (2191300155 # 5764801) \/
     q' == (2191300155 # 5764801) - 360 \/
     q' == (2191300155 # 5764801) + 360)%Q.
Proof.
  assert (Hq : follow_angle_state
                 (follow_angle_updated (Some Scenario.target_at_rest)
                    Scenario.wound_up) = Fin (2191300155 # 5764801))
    by (vm_compute; reflexivity).
  assert (Hx : _follow_angle_deg
                 (follow_angle_updated (Some Scenario.target_at_rest)
                    Scenario.wound_up) = Fin 675)
    by (vm_compute; reflexivity).
  split; [exact Hq|]. split; [exact Hx|].
  exact (wrap_follow_angle_keeps_error _ _ _ Hq Hx).
Defined.

(** X4 right after activation, perspective Behind. *)
Lemma follow_angle_deg_congruent_high_hover :
  estimate_fresh
    (held_estimate (Some Scenario.target_at_rest) Scenario.high_hover) = true /\
  _param_nav_ft_fs (params Scenario.high_hover) <> FOLLOW_PERSPECTIVE_NONE /\
  exists p r k,
    update_follow_me_angle_setting
      (_param_nav_ft_fs (params Scenario.high_hover)) = Fin p /\
    _follow_angle_deg
      (snd (update (Some Scenario.target_at_rest) 0 Scenario.high_hover))
    = Fin r /\
    (r == p + 360 * inject_Z k)%Q /\ (-2 <= k <= 2)%Z.
Proof.
  assert (Hfs : _param_nav_ft_fs (params Scenario.high_hover)
                <> FOLLOW_PERSPECTIVE_NONE) by discriminate.
  split; [reflexivity|]. split; [exact Hfs|].
  exact (follow_angle_deg_congruent (Some Scenario.target_at_rest) 0
           Scenario.high_hover eq_refl Hfs).
Defined.

(** X5 right after activation, perspective Behind. *)
Lemma follow_angle_deg_bounded_high_hover :
  reachable Scenario.high_hover /\
  is_duration (_deltatime (cycle_task Scenario.high_hover)) = true /\
  estimate_fresh
    (held_estimate (Some Scenario.target_at_rest) Scenario.high_hover) = true /\
  _param_nav_ft_fs (params Scenario.high_hover) <> FOLLOW_PERSPECTIVE_NONE /\
  within (- FZ 360) (FZ 675)
    (_follow_angle_deg
       (snd (update (Some Scenario.target_at_rest) 0 Scenario.high_hover)))
  = true.
Proof.
  assert (Hfs : _param_nav_ft_fs (params Scenario.high_hover)
                <> FOLLOW_PERSPECTIVE_NONE) by discriminate.
  split; [exact high_hover_reachable|]. split; [reflexivity|].
  split; [reflexivity|]. split; [exact Hfs|].
  exact (follow_angle_deg_bounded (Some Scenario.target_at_rest) 0
           Scenario.high_hover high_hover_reachable eq_refl eq_refl Hfs).
Defined.

(** X6 right after activation. *)
Lemma velocity_ff_scale_unit_high_hover :
  reachable Scenario.high_hover /\
  within (FZ 0) (FZ 1)
    (AlphaFilter.getState (_velocity_ff_scale Scenario.high_hover)) = true.
Proof.
  split; [exact high_hover_reachable|].
  exact (velocity_ff_scale_unit Scenario.high_hover high_hover_reachable).
Defined.

(** X7 at the first estimate after activation, with B = 10: the filter
    holds no position yet and is seeded with the estimate. *)
Lemma target_position_filtered_bounded_high_hover :
  estimate_fresh
    (held_estimate (Some Scenario.target_at_rest) Scenario.high_hover) = true /\
  (10 <= NO_OVERFLOW)%Q /\
  bounded3 10
    (x_ned_est
       (held_estimate (Some Scenario.target_at_rest) Scenario.high_hover))
  = true /\
  bounded3 10
    (v_ned_est
       (held_estimate (Some Scenario.target_at_rest) Scenario.high_hover))
  = true /\
  bounded3 10
    (a_ned_est
       (held_estimate (Some Scenario.target_at_rest) Scenario.high_hover))
  = true /\
  is_duration (_deltatime (cycle_task Scenario.high_hover)) = true /\
  isfinite3
    (AlphaFilter.getState (_target_position_filtered Scenario.high_hover))
  = false /\
  bounded3 (5 * 10)
    (AlphaFilter.getState
       (_target_position_filtered
          (snd (update (Some Scenario.target_at_rest) 0 Scenario.high_hover))))
  = true.
Proof.
  assert (HB : (10 <= NO_OVERFLOW)%Q) by (vm_compute; discriminate).
  split; [reflexivity|]. split; [exact HB|].
  repeat (split; [reflexivity|]).
  exact (proj1 (proj2 (target_position_filtered_bounded
                  (Some Scenario.target_at_rest) 0 Scenario.high_hover 10
                  eq_refl HB eq_refl eq_refl eq_refl eq_refl
                  (or_introl eq_refl)))).
Defined.

(** X8 with a target moving north at 2 m/s. *)
Lemma target_heading_update_moving :
  estimate_fresh
    (held_estimate (Some Scenario.target_moving) Scenario.high_hover) = true /\
  _param_nav_ft_fs (params Scenario.high_hover) <> FOLLOW_PERSPECTIVE_NONE /\
  (norm3
     (v_ned_est
        (held_estimate (Some Scenario.target_moving) Scenario.high_hover))
   >? MINIMUM_SPEED_FOR_HEADING_CHANGE) = true /\
  _target_velocity_unit_vector
    (snd (update (Some Scenario.target_moving) 0 Scenario.high_hover))
  = unit_or_zero
      (xy (v_ned_est
             (held_estimate (Some Scenario.target_moving)
                Scenario.high_hover))).
Proof.
  assert (Hfs : _param_nav_ft_fs (params Scenario.high_hover)
                <> FOLLOW_PERSPECTIVE_NONE) by discriminate.
  assert (Hn : (norm3
                  (v_ned_est
                     (held_estimate (Some Scenario.target_moving)
                        Scenario.high_hover))
                >? MINIMUM_SPEED_FOR_HEADING_CHANGE) = true)
    by (vm_compute; reflexivity).
  split; [reflexivity|]. split; [exact Hfs|]. split; [exact Hn|].
  exact (proj1 (target_heading_update (Some Scenario.target_moving) 0
                  Scenario.high_hover) eq_refl Hfs Hn).
Defined.

(** X9 with a target climbing at 1 m/s. *)
Lemma vertical_target_loses_heading_climbing :
  estimate_fresh
    (held_estimate (Some Scenario.target_climbing) Scenario.high_hover) = true /\
  _param_nav_ft_fs (params Scenario.high_hover) <> FOLLOW_PERSPECTIVE_NONE /\
  vx_est (held_estimate (Some Scenario.target_climbing) Scenario.high_hover)
  = Fin 0 /\
  vy_est (held_estimate (Some Scenario.target_climbing) Scenario.high_hover)
  = Fin 0 /\
  (norm3
     (v_ned_est
        (held_estimate (Some Scenario.target_climbing) Scenario.high_hover))
   >? MINIMUM_SPEED_FOR_HEADING_CHANGE) = true /\
  _target_velocity_unit_vector
    (snd (update (Some Scenario.target_climbing) 0 Scenario.high_hover))
  = zero2.
Proof.
  assert (Hfs : _param_nav_ft_fs (params Scenario.high_hover)
                <> FOLLOW_PERSPECTIVE_NONE) by discriminate.
  assert (Hn : (norm3
                  (v_ned_est
                     (held_estimate (Some Scenario.target_climbing)
                        Scenario.high_hover))
                >? MINIMUM_SPEED_FOR_HEADING_CHANGE) = true)
    by (vm_compute; reflexivity).
  split; [reflexivity|]. split; [exact Hfs|]. split; [reflexivity|].
  split; [reflexivity|]. split; [exact Hn|].
  exact (vertical_target_loses_heading (Some Scenario.target_climbing) 0
           Scenario.high_hover 0 0 eq_refl Hfs eq_refl (Qeq_refl 0)
           eq_refl (Qeq_refl 0) Hn).
Defined.

(** X10 at the first estimate after activation, perspective None. *)
Lemma perspective_none_above_target_high_hover :
  _param_nav_ft_fs
    (params (Scenario.select_perspective FOLLOW_PERSPECTIVE_NONE
               Scenario.high_hover)) = FOLLOW_PERSPECTIVE_NONE /\
  _param_nav_ft_dst
    (params (Scenario.select_perspective FOLLOW_PERSPECTIVE_NONE
               Scenario.high_hover)) = Fin 5 /\
  xy (AlphaFilter.getState
        (_target_position_filtered
           (filter_target_position
              (polled (Some Scenario.target_at_rest)
                 (Scenario.select_perspective FOLLOW_PERSPECTIVE_NONE
                    Scenario.high_hover)))))
  = V2 (Fin 10) (Fin 0) /\
  exists dx dy,
    xy (drone_desired_position
          (filters_updated (Some Scenario.target_at_rest)
             (Scenario.select_perspective FOLLOW_PERSPECTIVE_NONE
                Scenario.high_hover)))
    = V2 (Fin dx) (Fin dy) /\ (dx == 10)%Q /\ (dy == 0)%Q.
Proof.
  assert (Hxy : xy (AlphaFilter.getState
                      (_target_position_filtered
                         (filter_target_position
                            (polled (Some Scenario.target_at_rest)
                               (Scenario.select_perspective
                                  FOLLOW_PERSPECTIVE_NONE
                                  Scenario.high_hover)))))
                = V2 (Fin 10) (Fin 0))
    by (vm_compute; reflexivity).
  split; [reflexivity|]. split; [reflexivity|]. split; [exact Hxy|].
  exact (proj2 (perspective_none_above_target (Some Scenario.target_at_rest)
                  (Scenario.select_perspective FOLLOW_PERSPECTIVE_NONE
                     Scenario.high_hover)
                  10 0 5 eq_refl eq_refl Hxy)).
Defined.

(** X11 at the first estimate after activation: the vehicle at altitude 5,
    the minimum height 8. *)
Lemma altitude_first_high_hover :
  estimate_fresh
    (held_estimate (Some Scenario.target_at_rest) Scenario.high_hover) = true /\
  isfinite3
    (drone_desired_position
       (filters_updated (Some Scenario.target_at_rest) Scenario.high_hover))
  = true /\
  (fabsf
     (z3 (drone_desired_position
            (filters_updated (Some Scenario.target_at_rest)
               Scenario.high_hover))
      - z3 (_position (cycle_task Scenario.high_hover)))
   <? ALT_ACCEPTANCE_THRESHOLD) = false /\
  PX4_ISFINITE (_dist_to_bottom (cycle_task Scenario.high_hover))
  && (_dist_to_bottom (cycle_task Scenario.high_hover)
      <? MINIMUM_SAFETY_ALTITUDE) = false /\
  _position_setpoint
    (task (snd (update (Some Scenario.target_at_rest) 0 Scenario.high_hover)))
  = V3 (Fin 0) (Fin 0) (Fin (-8)).
Proof.
  assert (Hfin : isfinite3
                   (drone_desired_position
                      (filters_updated (Some Scenario.target_at_rest)
                         Scenario.high_hover)) = true)
    by (vm_compute; reflexivity).
  assert (Halt : (fabsf
                    (z3 (drone_desired_position
                           (filters_updated (Some Scenario.target_at_rest)
                              Scenario.high_hover))
                     - z3 (_position (cycle_task Scenario.high_hover)))
                  <? ALT_ACCEPTANCE_THRESHOLD) = false)
    by (vm_compute; reflexivity).
  assert (Hz : z3 (drone_desired_position
                     (filters_updated (Some Scenario.target_at_rest)
                        Scenario.high_hover)) = Fin (-8))
    by (vm_compute; reflexivity).
  split; [reflexivity|]. split; [exact Hfin|]. split; [exact Halt|].
  split; [reflexivity|].
  rewrite (proj1 (altitude_first (Some Scenario.target_at_rest) 0
                    Scenario.high_hover eq_refl Hfin Halt eq_refl)).
  rewrite Hz. reflexivity.
Defined.

(** X12 with NAV_FT_DST not a number. *)
Lemma desired_position_not_finite_no_distance :
  estimate_fresh
    (held_estimate (Some Scenario.target_at_rest) Scenario.no_distance) = true /\
  isfinite3
    (drone_desired_position
       (filters_updated (Some Scenario.target_at_rest) Scenario.no_distance))
  = false /\
  PX4_ISFINITE (_dist_to_bottom (cycle_task Scenario.no_distance))
  && (_dist_to_bottom (cycle_task Scenario.no_distance)
      <? MINIMUM_SAFETY_ALTITUDE) = false /\
  _position_setpoint
    (task (snd (update (Some Scenario.target_at_rest) 0 Scenario.no_distance)))
  = _position (cycle_task Scenario.no_distance) /\
  _velocity_setpoint
    (task (snd (update (Some Scenario.target_at_rest) 0 Scenario.no_distance)))
  = V3 (FZ 0) (FZ 0) (FZ 0).
Proof.
  assert (Hfin : isfinite3
                   (drone_desired_position
                      (filters_updated (Some Scenario.target_at_rest)
                         Scenario.no_distance)) = false)
    by (vm_compute; reflexivity).
  split; [reflexivity|]. split; [exact Hfin|]. split; [reflexivity|].
  pose proof (desired_position_not_finite (Some Scenario.target_at_rest) 0
                Scenario.no_distance eq_refl Hfin eq_refl) as (Hp & Hv & _).
  split; [exact Hp | exact Hv].
Defined.

(** X13 at 0.5 m above ground. *)
Lemma emergency_ascent_setpoints_low_hover :
  estimate_fresh
    (held_estimate (Some Scenario.target_at_rest) Scenario.low_hover) = true /\
  PX4_ISFINITE (_dist_to_bottom (cycle_task Scenario.low_hover)) = true /\
  (_dist_to_bottom (cycle_task Scenario.low_hover) <? MINIMUM_SAFETY_ALTITUDE)
  = true /\
  _position_setpoint
    (task (snd (update (Some Scenario.target_at_rest) 0 Scenario.low_hover)))
  = V3 NaN NaN (Fin (-5)) /\
  _velocity_setpoint
    (task (snd (update (Some Scenario.target_at_rest) 0 Scenario.low_hover)))
  = V3 (Fin 0) (Fin 0) (Fin (-1 # 5)).
Proof.
  split; [reflexivity|]. split; [reflexivity|]. split; [reflexivity|].
  pose proof (emergency_ascent_setpoints (Some Scenario.target_at_rest) 0
                Scenario.low_hover eq_refl eq_refl eq_refl) as (Hp & Hv & _).
  split; [exact Hp | exact Hv].
Defined.

(** X14 with the target 10 m north of the vehicle. *)
Lemma yaw_setpoint_update_high_hover :
  estimate_fresh
    (held_estimate (Some Scenario.target_at_rest) Scenario.high_hover) = true /\
  (norm2
     (sub2 (xy (_position (cycle_task Scenario.high_hover)))
        (xy (AlphaFilter.getState
               (_target_position_filtered
                  (filter_target_position
                     (polled (Some Scenario.target_at_rest)
                        Scenario.high_hover))))))
   >=? MINIMUM_DISTANCE_TO_TARGET_FOR_YAW_CONTROL) = true /\
  _yaw_setpoint
    (task (snd (update (Some Scenario.target_at_rest) 0 Scenario.high_hover)))
  = atan2f
      (- y2 (sub2 (xy (_position (cycle_task Scenario.high_hover)))
               (xy (AlphaFilter.getState
                      (_target_position_filtered
                         (filter_target_position
                            (polled (Some Scenario.target_at_rest)
                               Scenario.high_hover)))))))
      (- x2 (sub2 (xy (_position (cycle_task Scenario.high_hover)))
               (xy (AlphaFilter.getState
                      (_target_position_filtered
                         (filter_target_position
                            (polled (Some Scenario.target_at_rest)
                               Scenario.high_hover))))))).
Proof.
  assert (Hfar : (norm2
                    (sub2 (xy (_position (cycle_task Scenario.high_hover)))
                       (xy (AlphaFilter.getState
                              (_target_position_filtered
                                 (filter_target_position
                                    (polled (Some Scenario.target_at_rest)
                                       Scenario.high_hover))))))
                  >=? MINIMUM_DISTANCE_TO_TARGET_FOR_YAW_CONTROL) = true)
    by (vm_compute; reflexivity).
  split; [reflexivity|]. split; [exact Hfar|].
  exact (proj1 (yaw_setpoint_update (Some Scenario.target_at_rest) 0
                  Scenario.high_hover eq_refl) Hfar).
Defined.

(** X15 at the first estimate after activation: setpoint altitude -5,
    minimum height 8. *)
Lemma constant_altitude_never_descends_high_hover :
  estimate_fresh
    (held_estimate (Some Scenario.target_at_rest) Scenario.high_hover) = true /\
  _param_nav_ft_alt_m (params Scenario.high_hover)
  <> FOLLOW_ALTITUDE_MODE_TRACK_TARGET /\
  z3 (_position_setpoint (cycle_task Scenario.high_hover)) = Fin (-5) /\
  _param_nav_min_ft_ht (params Scenario.high_hover) = Fin 8 /\
  isfinite3
    (drone_desired_position
       (filters_updated (Some Scenario.target_at_rest) Scenario.high_hover))
  = true /\
  PX4_ISFINITE (_dist_to_bottom (cycle_task Scenario.high_hover))
  && (_dist_to_bottom (cycle_task Scenario.high_hover)
      <? MINIMUM_SAFETY_ALTITUDE) = false /\
  exists c,
    z3 (_position_setpoint
          (task (snd (update (Some Scenario.target_at_rest) 0
                        Scenario.high_hover)))) = Fin c /\
    (c <= -5)%Q /\ (c <= - 8)%Q /\ (c == -5 \/ c == - 8)%Q.
Proof.
  assert (Hmode : _param_nav_ft_alt_m (params Scenario.high_hover)
                  <> FOLLOW_ALTITUDE_MODE_TRACK_TARGET) by discriminate.
  assert (Hfin : isfinite3
                   (drone_desired_position
                      (filters_updated (Some Scenario.target_at_rest)
                         Scenario.high_hover)) = true)
    by (vm_compute; reflexivity).
  split; [reflexivity|]. split; [exact Hmode|]. split; [reflexivity|].
  split; [reflexivity|]. split; [exact Hfin|]. split; [reflexivity|].
  exact (constant_altitude_never_descends (Some Scenario.target_at_rest) 0
           Scenario.high_hover (-5) 8 eq_refl Hmode eq_refl eq_refl Hfin
           eq_refl).
Defined.

(** X16 with no estimate ever received. *)
Lemma stale_hold_repeats_high_hover :
  estimate_fresh (held_estimate None Scenario.high_hover) = false /\
  base_keeps_setpoints (task (snd (update None 0 Scenario.high_hover))) /\
  _position_setpoint
    (task (snd (update None 1 (snd (update None 0 Scenario.high_hover)))))
  = _position_setpoint (task (snd (update None 0 Scenario.high_hover))).
Proof.
  assert (Hb : base_keeps_setpoints
                 (task (snd (update None 0 Scenario.high_hover))))
    by (repeat split; reflexivity).
  split; [reflexivity|]. split; [exact Hb|].
  exact (proj1 (proj2 (stale_hold_repeats None 0 1 Scenario.high_hover
                         eq_refl Hb))).
Defined.

(** X18 at the first estimate after activation: the filter holds NaN. *)
Lemma target_at_rest_fixed_point_high_hover :
  estimate_fresh
    (held_estimate (Some Scenario.target_at_rest) Scenario.high_hover) = true /\
  is_duration (_deltatime (cycle_task Scenario.high_hover)) = true /\
  isfinite3
    (AlphaFilter.getState (_target_position_filtered Scenario.high_hover))
  = false /\
  exists ra rb rc,
    AlphaFilter.getState
      (_target_position_filtered
         (snd (update (Some Scenario.target_at_rest) 0 Scenario.high_hover)))
    = V3 (Fin ra) (Fin rb) (Fin rc) /\
    (ra == 10)%Q /\ (rb == 0)%Q /\ (rc == -5)%Q.
Proof.
  split; [reflexivity|]. split; [reflexivity|]. split; [reflexivity|].
  exact (target_at_rest_fixed_point (Some Scenario.target_at_rest) 0
           Scenario.high_hover 10 0 (-5) eq_refl eq_refl eq_refl eq_refl
           eq_refl (or_introl eq_refl)).
Defined.

(** X19 with a cycle duration of zero. *)
Lemma zero_cycle_time_velocity_no_time :
  estimate_fresh (held_estimate (Some Scenario.target_moving) Scenario.no_time)
  = true /\
  isfinite3
    (drone_desired_position
       (filters_updated (Some Scenario.target_moving) Scenario.no_time))
  = true /\
  (fabsf
     (z3 (drone_desired_position
            (filters_updated (Some Scenario.target_moving) Scenario.no_time))
      - z3 (_position (cycle_task Scenario.no_time)))
   <? ALT_ACCEPTANCE_THRESHOLD) = true /\
  PX4_ISFINITE (_dist_to_bottom (cycle_task Scenario.no_time))
  && (_dist_to_bottom (cycle_task Scenario.no_time)
      <? MINIMUM_SAFETY_ALTITUDE) = false /\
  _deltatime (cycle_task Scenario.no_time) = Fin 0 /\
  PX4_ISFINITE
    (x3 (_velocity_setpoint
           (task (snd (update (Some Scenario.target_moving) 0
                         Scenario.no_time))))) = false.
Proof.
  assert (Hfin : isfinite3
                   (drone_desired_position
                      (filters_updated (Some Scenario.target_moving)
                         Scenario.no_time)) = true)
    by (vm_compute; reflexivity).
  assert (Halt : (fabsf
                    (z3 (drone_desired_position
                           (filters_updated (Some Scenario.target_moving)
                              Scenario.no_time))
                     - z3 (_position (cycle_task Scenario.no_time)))
                  <? ALT_ACCEPTANCE_THRESHOLD) = true)
    by (vm_compute; reflexivity).
  split; [reflexivity|]. split; [exact Hfin|]. split; [exact Halt|].
  split; [reflexivity|]. split; [reflexivity|].
  exact (proj1 (zero_cycle_time_velocity (Some Scenario.target_moving) 0
                  Scenario.no_time 0 eq_refl Hfin Halt eq_refl eq_refl
                  (Qeq_refl 0))).
Defined.

(** X20 at the first estimate after activation, in mode TrackTarget, with
    B = 100 and a cycle of 20 ms. *)
Lemma feed_forward_starts_at_zero_moving_target :
  estimate_fresh
    (held_estimate (Some Scenario.target_moving)
       (Scenario.with_altitude_mode FOLLOW_ALTITUDE_MODE_TRACK_TARGET))
  = true /\
  (100 <= NO_OVERFLOW)%Q /\
  bounded3 100
    (drone_desired_position
       (filters_updated (Some Scenario.target_moving)
          (Scenario.with_altitude_mode FOLLOW_ALTITUDE_MODE_TRACK_TARGET)))
  = true /\
  (fabsf
     (z3 (drone_desired_position
            (filters_updated (Some Scenario.target_moving)
               (Scenario.with_altitude_mode
                  FOLLOW_ALTITUDE_MODE_TRACK_TARGET)))
      - z3 (_position
              (cycle_task
                 (Scenario.with_altitude_mode
                    FOLLOW_ALTITUDE_MODE_TRACK_TARGET))))
   <? ALT_ACCEPTANCE_THRESHOLD) = true /\
  bounded3 100
    (_position_setpoint
       (cycle_task
          (Scenario.with_altitude_mode FOLLOW_ALTITUDE_MODE_TRACK_TARGET)))
  = true /\
  _deltatime
    (cycle_task
       (Scenario.with_altitude_mode FOLLOW_ALTITUDE_MODE_TRACK_TARGET))
  = Fin (1 # 50) /\
  (1 # 1000000 <= 1 # 50)%Q /\
  AlphaFilter.getState
    (_velocity_ff_scale
       (Scenario.with_altitude_mode FOLLOW_ALTITUDE_MODE_TRACK_TARGET))
  = Fin 0 /\
  exists r1 r2 r3,
    _velocity_setpoint
      (task (snd (update (Some Scenario.target_moving) 0
                    (Scenario.with_altitude_mode
                       FOLLOW_ALTITUDE_MODE_TRACK_TARGET))))
    = V3 (Fin r1) (Fin r2) (Fin r3) /\
    (r1 == 0)%Q /\ (r2 == 0)%Q /\ (r3 == 0)%Q.
Proof.
  assert (HB : (100 <= NO_OVERFLOW)%Q) by (vm_compute; discriminate).
  assert (Hbd : bounded3 100
                  (drone_desired_position
                     (filters_updated (Some Scenario.target_moving)
                        (Scenario.with_altitude_mode
                           FOLLOW_ALTITUDE_MODE_TRACK_TARGET))) = true)
    by (vm_compute; reflexivity).
  assert (Halt : (fabsf
                    (z3 (drone_desired_position
                           (filters_updated (Some Scenario.target_moving)
                              (Scenario.with_altitude_mode
                                 FOLLOW_ALTITUDE_MODE_TRACK_TARGET)))
                     - z3 (_position
                             (cycle_task
                                (Scenario.with_altitude_mode
                                   FOLLOW_ALTITUDE_MODE_TRACK_TARGET))))
                  <? ALT_ACCEPTANCE_THRESHOLD) = true)
    by (vm_compute; reflexivity).
  assert (Ht : (1 # 1000000 <= 1 # 50)%Q) by (vm_compute; discriminate).
  split; [reflexivity|]. split; [exact HB|]. split; [exact Hbd|].
  split; [exact Halt|]. split; [reflexivity|]. split; [reflexivity|].
  split; [exact Ht|]. split; [reflexivity|].
  exact (feed_forward_starts_at_zero (Some Scenario.target_moving) 0
           (Scenario.with_altitude_mode FOLLOW_ALTITUDE_MODE_TRACK_TARGET)
           100 (1 # 50) 0 eq_refl HB Hbd Halt eq_refl eq_refl eq_refl Ht
           eq_refl (Qeq_refl 0)).
Defined.

(** X21 with a target at rest and no further message. *)
Lemma estimate_held_high_hover :
  estimate_fresh
    (held_estimate (Some Scenario.target_at_rest) Scenario.high_hover) = true /\
  estimate_fresh
    (held_estimate None
       (snd (update (Some Scenario.target_at_rest) 0 Scenario.high_hover)))
  = true.
Proof.
  split; [reflexivity|].
  exact (proj2 (estimate_held (Some Scenario.target_at_rest) 0
                  Scenario.high_hover) eq_refl).
Defined.

(** X22 from 270 to Front: 360 is assigned. *)
Lemma unwrap_follow_angle_shortest_rotation_270_front :
  (-540 <= 270 - 0 <= 540)%Q /\
  exists r k,
    unwrap_follow_angle (Fin 270) (Fin 0) = Fin r /\
    (r == 0 + 360 * inject_Z k)%Q /\ (-1 <= k <= 1)%Z /\
    (Qabs (270 - r) <= 180)%Q.
Proof.
  assert (H : (-540 <= 270 - 0 <= 540)%Q) by (split; discriminate).
  split; [exact H|].
  exact (unwrap_follow_angle_shortest_rotation 270 0 H).
Defined.
